(** * Terminal stacked-bar chart of token usage: model and properties

    A shallow embedding of [charts.py] ([print_stacked_bar_chart]) and of
    the axis formatters of [formatting.py], followed by the properties of
    the chart pipeline: series normalisation, scale range, column layout,
    glyph selection and rendering. *)

From Stdlib Require Import ZArith QArith Qround Qabs Qpower Lia Lqa String Ascii DecimalString.
From Stdlib Require Import SpecFloat.
From stdpp Require Import base list strings gmap sorting.
From Equations Require Import Equations.

Local Open Scope Z_scope.

(** ** Python values *)

(** Exceptions the modelled code can raise. *)
Inductive pyexc : Set :=
| ZeroDivisionError
| OverflowError
| IndexError
| ValueError.

Inductive result (A : Type) : Type :=
| Ok (a : A)
| Raise (e : pyexc).
Arguments Ok {A} a.
Arguments Raise {A} e.

Definition rbind {A B} (r : result A) (k : A -> result B) : result B :=
  match r with
  | Ok a => k a
  | Raise e => Raise e
  end.

(** The value returned, if any. *)
Definition result_option {A} (r : result A) : option A :=
  match r with
  | Ok a => Some a
  | Raise _ => None
  end.

Declare Scope result_scope.
Delimit Scope result_scope with result.
Notation "x <- r ;; k" := (rbind r (fun x => k))
  (at level 100, r at next level, right associativity) : result_scope.

(** A Python [str] is a sequence of Unicode code points. *)
Definition char := N.
Definition str := list char.

(** An ASCII literal as a [str]. *)
Definition py (s : string) : str :=
  map N_of_ascii (list_ascii_of_string s).

Definition str_of_Z (z : Z) : str :=
  py (NilZero.string_of_int (Z.to_int z)).

(** [c * n] for a one-character string: the empty string when [n <= 0]. *)
Definition str_mul (c : char) (n : Z) : str := replicate (Z.to_nat n) c.

Definition SPACE : char := 32%N.

(** [len(l)] *)
Definition len {A} (l : list A) : Z := Z.of_nat (length l).

Definition rjust (width : Z) (s : str) : str := str_mul SPACE (width - len s) ++ s.
Definition ljust (width : Z) (s : str) : str := s ++ str_mul SPACE (width - len s).
Definition zfill (width : Z) (s : str) : str := str_mul 48%N (width - len s) ++ s.

(** [s.index(c)]: the first position of [c], [ValueError] when absent. *)
Fixpoint str_index (c : char) (s : str) : result Z :=
  match s with
  | [] => Raise ValueError
  | d :: s' => if N.eqb c d then Ok 0 else rbind (str_index c s') (fun i => Ok (i + 1))
  end.

(** ** Floating point

    Python's [float] is IEEE 754 binary64.  A finite double is modelled by
    its exact rational value; every operation is the exact rational
    operation followed by rounding to nearest, ties to even, at 53 bits of
    precision with the exponent bounded below as for subnormal numbers.
    A result beyond the largest finite double raises [OverflowError] at
    once: in the modelled code every float flows into [int()] or into a
    formatter that calls [int()], where CPython raises the same exception
    for an infinity, and nothing is printed in between. *)

Definition float := Q.

(** A Python number: [int] or [float]. *)
Inductive num : Set :=
| Int (z : Z)
| Float (x : float).

(** floor(log2 x) for x > 0. *)
Definition ilog2 (x : Q) : Z :=
  let g := Z.log2 (Qnum x) - Z.log2 (Zpos (Qden x)) in
  if Qle_bool (2 ^ g) x then g else g - 1.

Definition round_half_even (x : Q) : Z :=
  let f := Qfloor x in
  match (x - inject_Z f ?= 1 # 2)%Q with
  | Lt => f
  | Gt => f + 1
  | Eq => if Z.even f then f else f + 1
  end.

Definition b64_round (x : Q) : Q :=
  match Qnum x with
  | 0 => 0%Q
  | _ =>
      let e := Z.max (ilog2 (Qabs x) - 52) (-1074) in
      Qred (inject_Z (round_half_even (x / 2 ^ e)) * 2 ^ e)
  end.

Definition b64_overflow (x : Q) : bool := Qle_bool (2 ^ 1024) (Qabs x).

Definition b64 (x : Q) : result float :=
  let r := b64_round x in
  if b64_overflow r then Raise OverflowError else Ok r.

Definition float_of_int (z : Z) : result float := b64 (inject_Z z).

(** [a / b] on two ints: the correctly rounded quotient. *)
Definition int_truediv (a b : Z) : result float :=
  if b =? 0 then Raise ZeroDivisionError
  else b64 (inject_Z a / inject_Z b).

Definition float_div (x y : float) : result float :=
  if Qeq_bool y 0 then Raise ZeroDivisionError else b64 (x / y).

Definition float_mul (x y : float) : result float := b64 (x * y).
Definition float_add (x y : float) : result float := b64 (x + y).

(** The value of a float of the Standard Library's specification of
    IEEE 754 arithmetic, and the binary64 float of a positive int there:
    used to cross-check the operations above. *)
Definition Q_of_spec_float (f : spec_float) : option Q :=
  match f with
  | S754_zero _ => Some 0%Q
  | S754_finite s m e =>
      Some (Qred ((if s then -1 else 1) * inject_Z (Z.pos m) * 2 ^ e)%Q)
  | _ => None
  end.

Definition SFint (z : positive) : spec_float :=
  binary_normalize 53 1024 (Z.pos z) 0 false.

(** [int(x)]: truncation toward zero. *)
Definition int_of_float (x : float) : Z := Z.quot (Qnum x) (Zpos (Qden x)).

Definition num_ge (v : num) (n : Z) : bool :=
  match v with
  | Int a => n <=? a
  | Float x => Qle_bool (inject_Z n) x
  end.

(** [v / n] for an int literal [n]. *)
Definition num_truediv (v : num) (n : Z) : result float :=
  match v with
  | Int a => int_truediv a n
  | Float x => rbind (float_of_int n) (float_div x)
  end.

Definition int_of_num (v : num) : Z :=
  match v with
  | Int a => a
  | Float x => int_of_float x
  end.

(** Format specs [{:<width>d}] and [{:<width>.<prec>f}]. *)
Definition format_d (width : Z) (z : Z) : str := rjust width (str_of_Z z).

Definition format_f (width : Z) (prec : nat) (x : float) : str :=
  let scale := 10 ^ Z.of_nat prec in
  let n := round_half_even (Qabs x * inject_Z scale) in
  let sign := if Qle_bool 0 x then [] else py "-" in
  let frac := match prec with
              | O => []
              | _ => py "." ++ zfill (Z.of_nat prec) (str_of_Z (n mod scale))
              end in
  rjust width (sign ++ str_of_Z (n / scale) ++ frac).

(** ** formatting.py *)

Definition format_y_axis_value (value : num) : result str :=
  if num_ge value 1000000 then
    (val_m <- num_truediv value 1000000 ;;
     if Qle_bool 100 val_m then Ok (format_d 3 (int_of_float val_m) ++ py " M")
     else if Qle_bool 10 val_m then Ok (py " " ++ format_d 2 (int_of_float val_m) ++ py " M")
     else Ok (format_f 3 1 val_m ++ py " M"))%result
  else if num_ge value 1000 then
    (val_k <- num_truediv value 1000 ;;
     if Qle_bool 100 val_k then Ok (format_d 3 (int_of_float val_k) ++ py " K")
     else if Qle_bool 10 val_k then Ok (py " " ++ format_d 2 (int_of_float val_k) ++ py " K")
     else Ok (format_f 3 1 val_k ++ py " K"))%result
  else
    Ok (format_d 5 (int_of_num value)).

Definition format_total_value (value : num) : result str :=
  if num_ge value 1000000000 then
    (val_b <- num_truediv value 1000000000 ;;
     if Qle_bool 100 val_b then Ok (format_d 0 (int_of_float val_b) ++ py "B")
     else if Qle_bool 10 val_b then Ok (format_f 0 1 val_b ++ py "B")
     else Ok (format_f 0 2 val_b ++ py "B"))%result
  else if num_ge value 1000000 then
    (val_m <- num_truediv value 1000000 ;;
     if Qle_bool 100 val_m then Ok (format_d 0 (int_of_float val_m) ++ py "M")
     else if Qle_bool 10 val_m then Ok (format_f 0 1 val_m ++ py "M")
     else Ok (format_f 0 2 val_m ++ py "M"))%result
  else if num_ge value 1000 then
    (val_k <- num_truediv value 1000 ;;
     if Qle_bool 100 val_k then Ok (format_d 0 (int_of_float val_k) ++ py "K")
     else if Qle_bool 10 val_k then Ok (format_f 0 1 val_k ++ py "K")
     else Ok (format_f 0 2 val_k ++ py "K"))%result
  else
    Ok (format_d 0 (int_of_num value)).

(** ** datetime

    A [datetime] is the number of microseconds since 0001-01-01 00:00:00 on
    its wall clock: the linear count on which CPython does all [datetime]
    and [timedelta] arithmetic and comparison.  The fields are derived from
    it.  All timestamps of one series carry the same fixed-offset time
    zone, so the zone plays no role.  The arithmetic is that of Z: the
    library's range limits (years 1 to 9999, beyond which it raises
    [OverflowError]) are stated by [window_in_range] where a property
    depends on them. *)

Definition datetime := Z.

Definition US_PER_MINUTE : Z := 60000000.
Definition US_PER_HOUR : Z := 3600000000.
Definition US_PER_DAY : Z := 86400000000.

Definition timedelta_days (d : Z) : Z := d * US_PER_DAY.
Definition timedelta_hours (h : Z) : Z := h * US_PER_HOUR.

Definition dt_hour (t : datetime) : Z := (t / US_PER_HOUR) mod 24.
Definition dt_minute (t : datetime) : Z := (t / US_PER_MINUTE) mod 60.

(** [t.replace(minute=0, second=0, microsecond=0)] *)
Definition replace_minute_second_microsecond_0 (t : datetime) : datetime :=
  t - t mod US_PER_HOUR.

(** [t.weekday()]: Monday is 0; day 0 of the count is a Monday. *)
Definition dt_weekday (t : datetime) : Z := (t / US_PER_DAY) mod 7.

Definition DAYS_IN_MONTH : list Z := [-1; 31; 28; 31; 30; 31; 30; 31; 31; 30; 31; 30; 31].
Definition DAYS_BEFORE_MONTH : list Z := [-1; 0; 31; 59; 90; 120; 151; 181; 212; 243; 273; 304; 334].

(** Year, month and day of day number [n] (0 is 0001-01-01), as CPython's
    [_ord2ymd] computes them in the proleptic Gregorian calendar. *)
Definition ord2ymd (n0 : Z) : Z * Z * Z :=
  let n400 := n0 / 146097 in
  let n := n0 mod 146097 in
  let n100 := n / 36524 in
  let n := n mod 36524 in
  let n4 := n / 1461 in
  let n := n mod 1461 in
  let n1 := n / 365 in
  let n := n mod 365 in
  let year := n400 * 400 + 1 + n100 * 100 + n4 * 4 + n1 in
  if (n1 =? 4) || (n100 =? 4) then (year - 1, 12, 31)
  else
    let leapyear := (n1 =? 3) && (negb (n4 =? 24) || (n100 =? 3)) in
    let month := Z.shiftr (n + 50) 5 in
    let preceding := nth (Z.to_nat month) DAYS_BEFORE_MONTH 0
                     + (if (2 <? month) && leapyear then 1 else 0) in
    if n <? preceding then
      let month := month - 1 in
      let preceding := preceding
                       - (nth (Z.to_nat month) DAYS_IN_MONTH 0
                          + (if (month =? 2) && leapyear then 1 else 0)) in
      (year, month, n - preceding + 1)
    else (year, month, n - preceding + 1).

Definition dt_year (t : datetime) : Z := (ord2ymd (t / US_PER_DAY)).1.1.
Definition dt_month (t : datetime) : Z := (ord2ymd (t / US_PER_DAY)).1.2.
Definition dt_day (t : datetime) : Z := (ord2ymd (t / US_PER_DAY)).2.

(** [t.strftime(' %m / %d')], [t.strftime('%H')] and
    [t.strftime('%Y-%m-%d %H:%M')]. *)
Definition strftime_m_d (t : datetime) : str :=
  py " " ++ zfill 2 (str_of_Z (dt_month t)) ++ py " / " ++ zfill 2 (str_of_Z (dt_day t)).

Definition strftime_H (t : datetime) : str := zfill 2 (str_of_Z (dt_hour t)).

Definition strftime_Y_m_d_H_M (t : datetime) : str :=
  zfill 4 (str_of_Z (dt_year t)) ++ py "-" ++ zfill 2 (str_of_Z (dt_month t))
  ++ py "-" ++ zfill 2 (str_of_Z (dt_day t)) ++ py " "
  ++ zfill 2 (str_of_Z (dt_hour t)) ++ py ":" ++ zfill 2 (str_of_Z (dt_minute t)).

(** ** Containers *)

(** [l[i]] for [0 <= i]. *)
Definition list_index {A} (l : list A) (i : nat) : result A :=
  match l !! i with
  | Some x => Ok x
  | None => Raise IndexError
  end.

(** A [for] loop over [l] threading the loop variables [s]. *)
Fixpoint for_each {A S} (l : list A) (s : S) (body : A -> S -> result S) : result S :=
  match l with
  | [] => Ok s
  | x :: l' => rbind (body x s) (fun s' => for_each l' s' body)
  end.

(** [enumerate(l)] *)
Definition enumerate {A} (l : list A) : list (nat * A) := imap (fun i x => (i, x)) l.

(** A [dict] keyed by timestamps, in insertion order; its keys are
    distinct. *)
Fixpoint dict_lookup {V} (k : Z) (d : list (Z * V)) : option V :=
  match d with
  | [] => None
  | (k', v) :: d' => if k =? k' then Some v else dict_lookup k d'
  end.

Definition dict_keys {V} (d : list (Z * V)) : list Z := d.*1.

(** [sorted(keys)] *)
Definition sorted (l : list Z) : list Z := merge_sort Z.le l.

(** [l[::step]] for [step >= 1]: the elements at 0, step, 2*step, ... *)
Fixpoint slice_step_from {A} (step skip : nat) (l : list A) : list A :=
  match l with
  | [] => []
  | x :: l' =>
      match skip with
      | O => x :: slice_step_from step (pred step) l'
      | S k => slice_step_from step k l'
      end
  end.

Definition slice_step {A} (step : nat) (l : list A) : list A := slice_step_from step 0 l.

(** ** Output *)

(** A printing procedure: it appends the strings it prints to standard
    output (one entry per [print] call) and returns or raises. *)
Definition IO (A : Type) : Type := list str -> result A * list str.

Definition io_ret {A} (a : A) : IO A := fun out => (Ok a, out).

Definition io_bind {A B} (m : IO A) (k : A -> IO B) : IO B :=
  fun out =>
    match m out with
    | (Ok a, out') => k a out'
    | (Raise e, out') => (Raise e, out')
    end.

Definition print (s : str) : IO unit := fun out => (Ok tt, out ++ [s]).

Definition lift {A} (r : result A) : IO A := fun out => (r, out).

Declare Scope io_scope.
Delimit Scope io_scope with io.
Notation "x <- m ;; k" := (io_bind m (fun x => k))
  (at level 100, m at next level, right associativity) : io_scope.
Notation "m ;; k" := (io_bind m (fun _ => k))
  (at level 100, right associativity) : io_scope.

Fixpoint io_for {A} (l : list A) (body : A -> IO unit) : IO unit :=
  match l with
  | [] => io_ret tt
  | x :: l' => io_bind (body x) (fun _ => io_for l' body)
  end.

(** ** charts.py: series normalisation *)

(** The value of one hour: the four counters of a breakdown dict built by
    the chart itself (all four keys present). *)
Record Breakdown : Set := mkBreakdown {
  input : Z;
  output : Z;
  cache_creation : Z;
  cache_read : Z
}.

(** The input series: timestamp -> dict of counters by category name. *)
Abbreviation time_series := (list (datetime * gmap string Z)).

(** [d.get(key, 0)] *)
Definition get0 (d : gmap string Z) (key : string) : Z := default 0 (d !! key).

(** The [while] loop of the dense axis: every hour from [current_time] while
    [current_time <= last_time]. *)
Equations? hourly_axis (current_time last_time : datetime) : list datetime
  by wf (Z.to_nat ((last_time - current_time) / US_PER_HOUR + 1)) lt :=
hourly_axis current_time last_time with decide (current_time <= last_time) := {
  | left _ => current_time :: hourly_axis (current_time + timedelta_hours 1) last_time
  | right _ => []
}.
Proof.
  unfold timedelta_hours, US_PER_HOUR.
  replace (last_time - (current_time + 1 * 3600000000))
    with (last_time - current_time + (-1) * 3600000000) by lia.
  rewrite Z.div_add by lia.
  assert (0 <= (last_time - current_time) / 3600000000)
    by (apply Z.div_pos; lia).
  lia.
Qed.

(** The axis of the trailing window: from [last_time - days_back] days,
    rounded down to the hour, to [last_time]. *)
Definition window_axis (last_time : datetime) (days_back : Z) : list datetime :=
  let start_time := last_time - timedelta_days days_back in
  let start_time_rounded := replace_minute_second_microsecond_0 start_time in
  hourly_axis start_time_rounded last_time.

(** The resampling step of an axis of more than 500 points. *)
Definition resample_step (sorted_times : list datetime) : Z :=
  Z.max 1 (len sorted_times / 500).

Definition resample (sorted_times : list datetime) : list datetime :=
  if 500 <? len sorted_times
  then slice_step (Z.to_nat (resample_step sorted_times)) sorted_times
  else sorted_times.

Definition breakdown_at (ts : time_series) (time : datetime) : Breakdown :=
  match dict_lookup time ts with
  | Some d => mkBreakdown (get0 d "input") (get0 d "output")
                          (get0 d "cache_creation") (get0 d "cache_read")
  | None => mkBreakdown 0 0 0 0
  end.

Definition total_of (chart_type : string) (b : Breakdown) : Z :=
  if String.eqb chart_type "io" then input b + output b
  else if String.eqb chart_type "cache" then cache_creation b + cache_read b
  else input b + output b + cache_creation b + cache_read b.

(** ** charts.py: scale range *)

(** [max(l) if l else d] and [min(l) if l else d] *)
Definition max_or (d : Z) (l : list Z) : Z :=
  match l with
  | [] => d
  | x :: l' => foldl Z.max x l'
  end.

Definition min_or (d : Z) (l : list Z) : Z :=
  match l with
  | [] => d
  | x :: l' => foldl Z.min x l'
  end.

Definition round_to_5_multiple (value : Z) (round_up : bool) : Z :=
  let unit :=
    if 5000000000 <=? value then 5000000000
    else if 5000000 <=? value then 5000000
    else if 5000 <=? value then 5000
    else 5 in
  if round_up then ((value + unit - 1) / unit) * unit
  else (value / unit) * unit.

(** [(min_value, max_value)] of the Y axis. *)
Definition scale_range (totals : list Z) : Z * Z :=
  let max_value_raw := max_or 1 totals in
  let min_value_raw := min_or 0 totals in
  let min_value := round_to_5_multiple min_value_raw false in
  let max_value := round_to_5_multiple max_value_raw true in
  if max_value =? min_value then (min_value, min_value + 5000)
  else (min_value, max_value).

(** ** charts.py: scaled heights *)

(** [int((v - 0) / (max_value - min_value) * (chart_height - 1))] *)
Definition scale_component (v min_value max_value chart_height : Z) : result Z :=
  (q <- int_truediv (v - 0) (max_value - min_value) ;;
   h <- float_of_int (chart_height - 1) ;;
   p <- float_mul q h ;;
   Ok (int_of_float p))%result.

Definition scale_breakdown (min_value max_value chart_height : Z) (b : Breakdown)
  : result Breakdown :=
  if max_value =? min_value then Ok (mkBreakdown 0 0 0 0)
  else
    (i <- scale_component (input b) min_value max_value chart_height ;;
     o <- scale_component (output b) min_value max_value chart_height ;;
     cc <- scale_component (cache_creation b) min_value max_value chart_height ;;
     cr <- scale_component (cache_read b) min_value max_value chart_height ;;
     Ok (mkBreakdown i o cc cr))%result.

Definition scaled_breakdown_of (min_value max_value chart_height : Z)
    (breakdown_data : list Breakdown) : result (list Breakdown) :=
  for_each breakdown_data []
    (fun b acc => rbind (scale_breakdown min_value max_value chart_height b)
                    (fun sb => Ok (acc ++ [sb]))).

(** ** charts.py: column layout *)

Inductive column : Set :=
| Separator
| Data (i : nat).

Definition is_separator (c : column) : bool :=
  match c with
  | Separator => true
  | Data _ => false
  end.

Record layout : Type := mkLayout {
  chart_columns : list column;
  data_to_col : gmap nat nat;
  next_col_idx : nat
}.

Definition layout_step (sorted_times : list datetime) (i : nat) (s : layout)
  : result layout :=
  (time <- list_index sorted_times i ;;
   let s1 :=
     if (dt_hour time =? 0) && (dt_minute time =? 0) && (0 <? i)%nat
     then mkLayout (chart_columns s ++ [Separator]) (data_to_col s) (next_col_idx s + 1)
     else s in
   Ok (mkLayout (chart_columns s1 ++ [Data i])
                (<[i := next_col_idx s1]> (data_to_col s1))
                (next_col_idx s1 + 1)))%result.

Definition build_layout (sorted_times : list datetime) (num_data_points : nat)
  : result layout :=
  for_each (seq 0 num_data_points) (mkLayout [] ∅ 0) (layout_step sorted_times).

(** One daily total: [(mid_col, total, day_start)]. *)
Definition day_total : Type := nat * Z * datetime.

Record day_state : Type := mkDayState {
  daily_totals : list day_total;
  current_day_start : option datetime;
  current_day_total : Z;
  current_day_start_col : nat
}.

Definition day_step (sorted_times : list datetime) (totals : list Z)
    (entry : nat * column) (s : day_state) : result day_state :=
  let '(col_idx, col) := entry in
  match col with
  | Separator =>
      let dt :=
        match current_day_start s with
        | Some start =>
            daily_totals s
            ++ [(((current_day_start_col s + col_idx) / 2)%nat, current_day_total s, start)]
        | None => daily_totals s
        end in
      Ok (mkDayState dt None 0 (col_idx + 1))
  | Data data_idx =>
      (s1 <- match current_day_start s with
             | None =>
                 rbind (list_index sorted_times data_idx) (fun t =>
                   Ok (mkDayState (daily_totals s) (Some t) (current_day_total s) col_idx))
             | Some _ => Ok s
             end ;;
       tot <- list_index totals data_idx ;;
       Ok (mkDayState (daily_totals s1) (current_day_start s1)
                      (current_day_total s1 + tot) (current_day_start_col s1)))%result
  end.

Definition daily_totals_of (sorted_times : list datetime) (totals : list Z)
    (cols : list column) : result (list day_total) :=
  (s <- for_each (enumerate cols) (mkDayState [] None 0 0) (day_step sorted_times totals) ;;
   match current_day_start s with
   | Some start =>
       Ok (daily_totals s
           ++ [(((current_day_start_col s + length cols) / 2)%nat, current_day_total s, start)])
   | None => Ok (daily_totals s)
   end)%result.

(** ** charts.py: header lines *)

Definition weekday_abbr : list str :=
  [py "Mon"; py "Tue"; py "Wed"; py "Thu"; py "Fri"; py "Sat"; py "Sun"].

Definition COLON : char := 58%N.
Definition SLASH : char := 47%N.

Record header_state : Type := mkHeader {
  weekday_line : str;
  date_line : str;
  prev_end : Z
}.

Definition header_step (d : day_total) (s : header_state) : result header_state :=
  let '(mid_col, total, day_start) := d in
  (total_str <- format_total_value (Int total) ;;
   weekday <- list_index weekday_abbr (Z.to_nat (dt_weekday day_start)) ;;
   let weekday_total := weekday ++ py " : " ++ total_str in
   let date_str := strftime_m_d day_start in
   colon_idx <- str_index COLON weekday_total ;;
   slash_idx <- str_index SLASH date_str ;;
   let '(weekday_total, date_str, colon_idx) :=
     if slash_idx <? colon_idx
     then (weekday_total, str_mul SPACE (colon_idx - slash_idx) ++ date_str, colon_idx)
     else if colon_idx <? slash_idx
     then (str_mul SPACE (slash_idx - colon_idx) ++ weekday_total, date_str, slash_idx)
     else (weekday_total, date_str, colon_idx) in
   let max_len := Z.max (len weekday_total) (len date_str) in
   let weekday_total := ljust max_len weekday_total in
   let date_str := ljust max_len date_str in
   let start_pos := Z.of_nat mid_col - colon_idx in
   let padding := start_pos - prev_end s in
   let '(wl, dl) :=
     if 0 <? padding
     then (weekday_line s ++ str_mul SPACE padding, date_line s ++ str_mul SPACE padding)
     else (weekday_line s, date_line s) in
   Ok (mkHeader (wl ++ weekday_total) (dl ++ date_str) (start_pos + max_len)))%result.

Definition header_lines (dts : list day_total) : result header_state :=
  for_each dts (mkHeader (str_mul SPACE 7) (str_mul SPACE 7) 0) header_step.

(** ** charts.py: grid *)

Definition ESC : char := 27%N.
Definition FULL_BLOCK : char := 9608%N.
Definition DARK_SHADE : char := 9619%N.
Definition MEDIUM_SHADE : char := 9618%N.
Definition LIGHT_SHADE : char := 9617%N.

(** The cell strings of the four categories and of the blank. *)
Definition INPUT_CELL : str := [ESC] ++ py "[38;5;51m" ++ [FULL_BLOCK] ++ [ESC] ++ py "[0m".
Definition OUTPUT_CELL : str := [ESC] ++ py "[38;5;46m" ++ [DARK_SHADE] ++ [ESC] ++ py "[0m".
Definition CACHE_CREATION_CELL : str :=
  [ESC] ++ py "[38;5;214m" ++ [MEDIUM_SHADE] ++ [ESC] ++ py "[0m".
Definition CACHE_READ_CELL_CACHE : str := [FULL_BLOCK].
Definition CACHE_READ_CELL_ALL : str := [FULL_BLOCK; LIGHT_SHADE].
Definition BLANK_CELL : str := py " ".

(** What the grid appends for row [row] of the data column whose scaled
    heights are [breakdown]. *)
Definition cell (chart_type : string) (row : Z) (breakdown : Breakdown) : str :=
  let input_height := input breakdown in
  let output_height := output breakdown in
  let cache_creation_height := cache_creation breakdown in
  let cache_read_height := cache_read breakdown in
  let cumulative_input := input_height in
  let cumulative_output := cumulative_input + output_height in
  let cumulative_cache_creation := cumulative_output + cache_creation_height in
  let cumulative_cache_read := cumulative_cache_creation + cache_read_height in
  if String.eqb chart_type "io" then
    if row <? cumulative_input then INPUT_CELL
    else if row <? cumulative_output then OUTPUT_CELL
    else BLANK_CELL
  else if String.eqb chart_type "cache" then
    let cache_only_cumulative_creation := cache_creation_height in
    let cache_only_cumulative_read := cache_only_cumulative_creation + cache_read_height in
    if row <? cache_only_cumulative_creation then CACHE_CREATION_CELL
    else if row <? cache_only_cumulative_read then CACHE_READ_CELL_CACHE
    else BLANK_CELL
  else
    if row <? cumulative_input then INPUT_CELL
    else if row <? cumulative_output then OUTPUT_CELL
    else if row <? cumulative_cache_creation then CACHE_CREATION_CELL
    else if row <? cumulative_cache_read then CACHE_READ_CELL_ALL
    else BLANK_CELL.

(** What the grid appends for one column of row [row]. *)
Definition column_cell (chart_type : string) (row : Z)
    (scaled_breakdown : list Breakdown) (col : column) : result str :=
  match col with
  | Separator => Ok (py "|")
  | Data data_idx =>
      rbind (list_index scaled_breakdown data_idx) (fun b => Ok (cell chart_type row b))
  end.

Definition chart_line (chart_type : string) (row : Z)
    (scaled_breakdown : list Breakdown) (cols : list column) : result str :=
  for_each cols []
    (fun col line =>
       rbind (column_cell chart_type row scaled_breakdown col) (fun c => Ok (line ++ c))).

(** [min_value + (max_value - min_value) * row / (chart_height - 1)] *)
Definition y_value (min_value max_value chart_height row : Z) : result float :=
  (q <- int_truediv ((max_value - min_value) * row) (chart_height - 1) ;;
   m <- float_of_int min_value ;;
   float_add m q)%result.

Definition chart_row (chart_type : string) (min_value max_value chart_height : Z)
    (scaled_breakdown : list Breakdown) (cols : list column) (row : Z) : result str :=
  (y_val <- y_value min_value max_value chart_height row ;;
   y_label <- format_y_axis_value (Float y_val) ;;
   line <- chart_line chart_type row scaled_breakdown cols ;;
   Ok (y_label ++ py " |" ++ line))%result.

(** [range(chart_height - 1, -1, -1)] *)
Definition rows_top_down (chart_height : Z) : list Z := reverse (seqZ 0 chart_height).

(** ** charts.py: X axis *)

Definition x_axis_line (cols : list column) : str :=
  foldl (fun line col =>
           line ++ (if is_separator col then [9524%N] else [9472%N])) [] cols.

Record label_state : Type := mkLabels {
  labels : list str;
  positions : list nat
}.

Definition hour_labels (sorted_times : list datetime) (d2c : gmap nat nat)
  : label_state :=
  foldl (fun s '(i, time) =>
           if (dt_hour time =? 6) || (dt_hour time =? 12) || (dt_hour time =? 18)
           then match d2c !! i with
                | Some pos => mkLabels (labels s ++ [strftime_H time]) (positions s ++ [pos])
                | None => s
                end
           else s)
        (mkLabels [] []) (enumerate sorted_times).

(** The search of the label that sits on column [col_idx]: the first one
    positioned there that still has a character at [char_idx]. *)
Fixpoint label_char (lbls : list str) (col_idx char_idx : nat)
    (entries : list (nat * nat)) : result char :=
  match entries with
  | [] => Ok SPACE
  | (label_idx, pos) :: rest =>
      if (col_idx =? pos)%nat then
        (label <- list_index lbls label_idx ;;
         if (char_idx <? length label)%nat
         then (label' <- list_index lbls label_idx ;; list_index label' char_idx)
         else label_char lbls col_idx char_idx rest)%result
      else label_char lbls col_idx char_idx rest
  end.

Definition label_line (ls : label_state) (cols : list column) (char_idx : nat)
  : result str :=
  for_each (enumerate cols) (str_mul SPACE 7)
    (fun '(col_idx, col) line =>
       match col with
       | Separator => Ok (line ++ py "|")
       | Data _ =>
           rbind (label_char (labels ls) col_idx char_idx (enumerate (positions ls)))
                 (fun c => Ok (line ++ [c]))
       end).

(** ** charts.py: [print_stacked_bar_chart] *)

Definition NL : char := 10%N.

Definition print_title (chart_type : string) (show_x_axis : bool) : IO unit :=
  ((if String.eqb chart_type "io" then
      (print ([NL] ++ py "Input + Output Tokens Over Time (1-hour intervals, Local Time)") ;;
       print (py "Y-axis: Input and Output token consumption"))
    else if String.eqb chart_type "cache" then
      (print ([NL] ++ py "Cache Tokens Over Time (1-hour intervals, Local Time)") ;;
       print (py "Y-axis: Cache Output and Cache Input token consumption"))
    else
      (print ([NL] ++ py "Token Usage Breakdown Over Time (1-hour intervals, Local Time)") ;;
       print (py "Y-axis: Token consumption (all token types)"))) ;;
   (if show_x_axis
    then print (py "X-axis: Time (each day has 24 data points, ticks at 6-hour intervals)"
                ++ [NL])
    else print []))%io.

Definition print_x_labels (sorted_times : list datetime) (lay : layout) : IO unit :=
  (print [] ;;
   let ls := hour_labels sorted_times (data_to_col lay) in
   let max_label_len := max_or 0 (map len (labels ls)) in
   io_for (seq 0 (Z.to_nat max_label_len))
     (fun char_idx =>
        line <- lift (label_line ls (chart_columns lay) char_idx) ;;
        print line))%io.

Definition LEGEND : str :=
  py "Legend: " ++ INPUT_CELL ++ py " Input  " ++ OUTPUT_CELL ++ py " Output  "
  ++ [FULL_BLOCK] ++ py " Cache Input  " ++ CACHE_CREATION_CELL ++ py " Cache Output".

Definition print_summary (sorted_times : list datetime) (chart_width : Z) : IO unit :=
  (print ([NL] ++ str_mul 61%N (chart_width + 10)) ;;
   first <- lift (list_index sorted_times 0) ;;
   final <- lift (match last sorted_times with
                  | Some t => Ok t
                  | None => Raise IndexError
                  end) ;;
   print (py "Total time span: " ++ strftime_Y_m_d_H_M first ++ py " to "
          ++ strftime_Y_m_d_H_M final ++ py " | Data points: "
          ++ str_of_Z (len sorted_times)) ;;
   print LEGEND)%io.

(** The chart of the dense series [sorted_times]: everything after the
    series normalisation. *)
Definition render_chart (ts : time_series) (sorted_times : list datetime)
    (height : Z) (chart_type : string) (show_x_axis : bool) : IO unit :=
  let breakdown_data := map (breakdown_at ts) sorted_times in
  let totals := map (total_of chart_type) breakdown_data in
  let '(min_value, max_value) := scale_range totals in
  let num_data_points := length totals in
  let chart_height := height in
  (print_title chart_type show_x_axis ;;
   scaled_breakdown <- lift (scaled_breakdown_of min_value max_value chart_height
                               breakdown_data) ;;
   lay <- lift (build_layout sorted_times num_data_points) ;;
   let chart_width := len (chart_columns lay) in
   print (str_mul 61%N (chart_width + 10)) ;;
   dts <- lift (daily_totals_of sorted_times totals (chart_columns lay)) ;;
   hdr <- lift (header_lines dts) ;;
   print (weekday_line hdr) ;;
   print (date_line hdr) ;;
   io_for (rows_top_down chart_height)
     (fun row =>
        line <- lift (chart_row chart_type min_value max_value chart_height
                        scaled_breakdown (chart_columns lay) row) ;;
        print line) ;;
   print (str_mul SPACE 6 ++ [9492%N] ++ x_axis_line (chart_columns lay)) ;;
   (if show_x_axis then print_x_labels sorted_times lay else io_ret tt) ;;
   (if show_x_axis then print_summary sorted_times chart_width else io_ret tt))%io.

(** The note printed when the axis is resampled. *)
Definition resample_note (sorted_times : list datetime) : IO unit :=
  if 500 <? len sorted_times then
    (hours_per_interval <- lift (int_truediv (len sorted_times) 500) ;;
     print (py "Note: Adjusting interval to ~"
            ++ format_f 0 1 hours_per_interval
            ++ py " hours to fit in 500 columns."))%io
  else io_ret tt.

Definition print_stacked_bar_chart (ts : time_series) (height days_back : Z)
    (chart_type : string) (show_x_axis : bool) : IO unit :=
  match ts with
  | [] => print (py "No time series data available.")
  | _ :: _ =>
      let all_sorted_times := sorted (dict_keys ts) in
      match last all_sorted_times with
      | None => print (py "No data available.")
      | Some last_time =>
          let axis := window_axis last_time days_back in
          if len axis <? 2 then print (py "Not enough data points for chart.")
          else
            (resample_note axis ;;
             render_chart ts (resample axis) height chart_type show_x_axis)%io
      end
  end.

(** ** formatting.py: [format_number] *)

Definition COMMA : char := 44%N.

(** The digits of a number, least significant first, with a comma after
    every third digit that has a more significant digit after it. *)
Fixpoint group_thousands (rev_digits : str) : str :=
  match rev_digits with
  | a :: b :: c :: ((_ :: _) as rest) => a :: b :: c :: COMMA :: group_thousands rest
  | _ => rev_digits
  end.

(** Format spec [{:,}] on an int. *)
Definition format_comma (z : Z) : str :=
  (if z <? 0 then py "-" else [])
  ++ reverse (group_thousands (reverse (str_of_Z (Z.abs z)))).

Definition format_number (num : Z) : str := format_comma num.

(** ** constants.py *)

Module Pricing.
Record t : Set := mk {
  input : float;
  output : float;
  cache_input : float;
  cache_output : float
}.
End Pricing.

(** A float literal: the double nearest to the decimal. *)
Definition float_literal (q : Q) : float := b64_round q.

Definition MODEL_PRICING : list (str * Pricing.t) :=
  [(py "claude-sonnet-4-5-20250929",
    Pricing.mk (float_literal (150 # 100)) (float_literal (750 # 100))
               (float_literal (15 # 100)) (float_literal (1875 # 1000)));
   (py "claude-haiku-4-5-20251001",
    Pricing.mk (float_literal (50 # 100)) (float_literal (250 # 100))
               (float_literal (5 # 100)) (float_literal (625 # 1000)));
   (py "claude-opus-4-5-20251101",
    Pricing.mk (float_literal (250 # 100)) (float_literal (1250 # 100))
               (float_literal (25 # 100)) (float_literal (3125 # 1000)))].

Definition DEFAULT_PRICING : Pricing.t :=
  Pricing.mk (float_literal (150 # 100)) (float_literal (750 # 100))
             (float_literal (15 # 100)) (float_literal (1875 # 1000)).

Definition SUBSCRIPTION_PRICE : Z := 200.

(** [d.get(key, default)] on a dict with string keys. *)
Fixpoint dict_get {V} (d : list (str * V)) (key : str) (default : V) : V :=
  match d with
  | [] => default
  | (k, v) :: d' => if decide (k = key) then v else dict_get d' key default
  end.

(** ** Arithmetic on numbers

    [+], [-], [*] and [/] on values that are an [int] or a [float]: two
    ints give the exact int (a float for [/]); otherwise an int operand is
    converted to float first. *)

Definition float_of_num (v : num) : result float :=
  match v with
  | Int a => float_of_int a
  | Float x => Ok x
  end.

Definition float_sub (x y : float) : result float := b64 (x - y).

Definition num_add (a b : num) : result num :=
  match a, b with
  | Int x, Int y => Ok (Int (x + y))
  | _, _ => (x <- float_of_num a ;; y <- float_of_num b ;;
             r <- float_add x y ;; Ok (Float r))%result
  end.

Definition num_sub (a b : num) : result num :=
  match a, b with
  | Int x, Int y => Ok (Int (x - y))
  | _, _ => (x <- float_of_num a ;; y <- float_of_num b ;;
             r <- float_sub x y ;; Ok (Float r))%result
  end.

Definition num_mul (a b : num) : result num :=
  match a, b with
  | Int x, Int y => Ok (Int (x * y))
  | _, _ => (x <- float_of_num a ;; y <- float_of_num b ;;
             r <- float_mul x y ;; Ok (Float r))%result
  end.

Definition num_div (a b : num) : result num :=
  match a, b with
  | Int x, Int y => (r <- int_truediv x y ;; Ok (Float r))%result
  | _, _ => (x <- float_of_num a ;; y <- float_of_num b ;;
             r <- float_div x y ;; Ok (Float r))%result
  end.

(** [v > n] for an int literal [n]. *)
Definition num_gt (v : num) (n : Z) : bool :=
  match v with
  | Int a => n <? a
  | Float x => negb (Qle_bool x (inject_Z n))
  end.

(** Format spec [{:<width>.<prec>f}] on an int or a float. *)
Definition format_f_num (width : Z) (prec : nat) (v : num) : result str :=
  rbind (float_of_num v) (fun x => Ok (format_f width prec x)).

(** ** formatting.py: [print_model_breakdown] *)

Module ModelStats.
Record t : Set := mk {
  model : str;
  count : Z;
  input : Z;
  output : Z;
  total : Z;
  cache_creation : Z;
  cache_read : Z;
  total_with_cache : Z
}.
End ModelStats.

Definition EQUALS : char := 61%N.
Definition HYPHEN : char := 45%N.

Definition breakdown_header : str :=
  py "| " ++ ljust 35 (py "Model") ++ py " " ++ rjust 10 (py "Messages") ++ py " | "
  ++ rjust 15 (py "Input") ++ py " " ++ rjust 15 (py "Output") ++ py " "
  ++ rjust 15 (py "Total") ++ py " | " ++ rjust 15 (py "Cache Output") ++ py " "
  ++ rjust 15 (py "Cache Input") ++ py " " ++ rjust 19 (py "Cache Total") ++ py " |".

Definition breakdown_row (stats : ModelStats.t) : str :=
  py "| " ++ ljust 35 (ModelStats.model stats) ++ py " "
  ++ rjust 10 (str_of_Z (ModelStats.count stats)) ++ py " | "
  ++ rjust 15 (format_number (ModelStats.input stats)) ++ py " "
  ++ rjust 15 (format_number (ModelStats.output stats)) ++ py " "
  ++ rjust 15 (format_number (ModelStats.total stats)) ++ py " | "
  ++ rjust 15 (format_number (ModelStats.cache_creation stats)) ++ py " "
  ++ rjust 15 (format_number (ModelStats.cache_read stats)) ++ py " "
  ++ rjust 19 (format_number (ModelStats.total_with_cache stats)) ++ py " |".

(** The sums of the rows. *)
Record breakdown_sums : Set := mkSums {
  sum_messages : Z;
  sum_input : Z;
  sum_output : Z;
  sum_total : Z;
  sum_cache_creation : Z;
  sum_cache_read : Z;
  sum_total_with_cache : Z
}.

Definition accumulate_sums (s : breakdown_sums) (stats : ModelStats.t) : breakdown_sums :=
  mkSums (sum_messages s + ModelStats.count stats)
         (sum_input s + ModelStats.input stats)
         (sum_output s + ModelStats.output stats)
         (sum_total s + ModelStats.total stats)
         (sum_cache_creation s + ModelStats.cache_creation stats)
         (sum_cache_read s + ModelStats.cache_read stats)
         (sum_total_with_cache s + ModelStats.total_with_cache stats).

Definition breakdown_sum_row (s : breakdown_sums) : str :=
  py "| " ++ ljust 35 (py "TOTAL") ++ py " "
  ++ rjust 10 (str_of_Z (sum_messages s)) ++ py " | "
  ++ rjust 15 (format_number (sum_input s)) ++ py " "
  ++ rjust 15 (format_number (sum_output s)) ++ py " "
  ++ rjust 15 (format_number (sum_total s)) ++ py " | "
  ++ rjust 15 (format_number (sum_cache_creation s)) ++ py " "
  ++ rjust 15 (format_number (sum_cache_read s)) ++ py " "
  ++ rjust 19 (format_number (sum_total_with_cache s)) ++ py " |".

(** [tokens * price / 1_000_000] *)
Definition cost_term (tokens : Z) (price : float) : result float :=
  (t <- float_of_int tokens ;;
   p <- float_mul t price ;;
   m <- float_of_int 1000000 ;;
   float_div p m)%result.

Record breakdown_costs : Set := mkCosts {
  input_cost : num;
  output_cost : num;
  cache_output_cost : num;
  cache_input_cost : num
}.

Definition cost_step (stats : ModelStats.t) (c : breakdown_costs)
  : result breakdown_costs :=
  let model := ModelStats.model stats in
  let pricing := dict_get MODEL_PRICING model DEFAULT_PRICING in
  (t <- cost_term (ModelStats.input stats) (Pricing.input pricing) ;;
   input_cost <- num_add (input_cost c) (Float t) ;;
   t <- cost_term (ModelStats.output stats) (Pricing.output pricing) ;;
   output_cost <- num_add (output_cost c) (Float t) ;;
   t <- cost_term (ModelStats.cache_creation stats) (Pricing.cache_output pricing) ;;
   cache_output_cost <- num_add (cache_output_cost c) (Float t) ;;
   t <- cost_term (ModelStats.cache_read stats) (Pricing.cache_input pricing) ;;
   cache_input_cost <- num_add (cache_input_cost c) (Float t) ;;
   Ok (mkCosts input_cost output_cost cache_output_cost cache_input_cost))%result.

Definition breakdown_cost_row
    (input_cost output_cost io_total_cost cache_output_cost cache_input_cost
       total_cost : num) : result str :=
  (s1 <- format_f_num 14 2 input_cost ;;
   s2 <- format_f_num 14 2 output_cost ;;
   s3 <- format_f_num 14 2 io_total_cost ;;
   s4 <- format_f_num 14 2 cache_output_cost ;;
   s5 <- format_f_num 14 2 cache_input_cost ;;
   s6 <- format_f_num 18 2 total_cost ;;
   Ok (py "| " ++ ljust 35 (py "Cost(API)") ++ py " " ++ rjust 10 [] ++ py " | "
       ++ py "$" ++ s1 ++ py " " ++ py "$" ++ s2 ++ py " " ++ py "$" ++ s3 ++ py " | "
       ++ py "$" ++ s4 ++ py " " ++ py "$" ++ s5 ++ py " " ++ py "$" ++ s6
       ++ py " |"))%result.

(** The projection line under the table. *)
Definition breakdown_projection (total_cost : num) (sum_total_with_cache : Z)
    (days_in_data : Z) : result str :=
  (daily_cost <- (if 0 <? days_in_data then num_div total_cost (Int days_in_data)
                  else Ok (Int 0)) ;;
   weekly_cost <- num_mul daily_cost (Int 7) ;;
   monthly_cost <- num_mul daily_cost (Int 30) ;;
   savings <- num_sub monthly_cost (Int SUBSCRIPTION_PRICE) ;;
   monthly_tokens <- (if 0 <? days_in_data
                      then rbind (num_div (Int sum_total_with_cache) (Int days_in_data))
                                 (fun q => num_mul q (Int 30))
                      else Ok (Int 0)) ;;
   cost_per_mtok <- (if num_gt monthly_tokens 0
                     then rbind (num_div monthly_tokens (Int 1000000))
                                (fun d => num_div (Int SUBSCRIPTION_PRICE) d)
                     else Ok (Int 0)) ;;
   s1 <- format_f_num 0 2 daily_cost ;;
   s2 <- format_f_num 0 2 weekly_cost ;;
   s3 <- format_f_num 0 2 monthly_cost ;;
   s4 <- format_f_num 0 2 savings ;;
   s5 <- format_f_num 0 2 cost_per_mtok ;;
   Ok (py "Daily: $" ++ s1 ++ py ", Weekly: $" ++ s2 ++ py ", Monthly(30d): $" ++ s3
       ++ py ", Monthly Saving $" ++ s4 ++ py ", $" ++ s5 ++ py " / MTok"))%result.

Definition print_model_breakdown (model_stats : list ModelStats.t) (days_in_data : Z)
  : IO unit :=
  (print (py "Usage / Cost by Model") ;;
   print (str_mul EQUALS 154) ;;
   print breakdown_header ;;
   print (py "|" ++ str_mul HYPHEN 152 ++ py "|") ;;
   io_for model_stats (fun stats => print (breakdown_row stats)) ;;
   let sums := foldl accumulate_sums (mkSums 0 0 0 0 0 0 0) model_stats in
   print (py "|" ++ str_mul HYPHEN 152 ++ py "|") ;;
   print (breakdown_sum_row sums) ;;
   c <- lift (for_each model_stats (mkCosts (Int 0) (Int 0) (Int 0) (Int 0)) cost_step) ;;
   io_total_cost <- lift (num_add (input_cost c) (output_cost c)) ;;
   cache_total_cost <- lift (num_add (cache_output_cost c) (cache_input_cost c)) ;;
   total_cost <- lift (num_add io_total_cost cache_total_cost) ;;
   cost_row <- lift (breakdown_cost_row (input_cost c) (output_cost c) io_total_cost
                       (cache_output_cost c) (cache_input_cost c) total_cost) ;;
   print cost_row ;;
   print (str_mul EQUALS 154) ;;
   line <- lift (breakdown_projection total_cost (sum_total_with_cache sums)
                   days_in_data) ;;
   print line)%io.

(** ** Notions used in the statements *)

(** The dense series a chart is drawn from; [None] when the renderer
    prints a message and returns early. *)
Definition charted_series (ts : time_series) (days_back : Z) : option (list datetime) :=
  match last (sorted (dict_keys ts)) with
  | None => None
  | Some last_time =>
      let axis := window_axis last_time days_back in
      if len axis <? 2 then None else Some (resample axis)
  end.

Definition separator_count (cols : list column) : nat :=
  length (List.filter is_separator cols).

(** The column sequence by the layout rule: walking the series in order, a
    separator goes before the data column of a timestamp at the start of a
    calendar day (hour 0, minute 0), except before the first data column. *)
Definition columns_by_rule (sorted_times : list datetime) : list column :=
  concat (imap (fun i time =>
                  if (dt_hour time =? 0) && (dt_minute time =? 0) && (0 <? i)%nat
                  then [Separator; Data i]
                  else [Data i])
               sorted_times).

(** Column sequences over [n] data points that start with a data column
    and in which every separator is followed by a data column. *)
Inductive good_columns (n : nat) : list column -> Prop :=
| good_first i :
    (i < n)%nat -> good_columns n [Data i]
| good_data cols i :
    good_columns n cols -> (i < n)%nat -> good_columns n (cols ++ [Data i])
| good_separator_data cols i :
    good_columns n cols -> (i < n)%nat -> good_columns n (cols ++ [Separator; Data i]).

(** The text of a string without its ANSI colour escapes [ESC [ ... m]. *)
Fixpoint strip_ansi_from (in_escape : bool) (s : str) : str :=
  match s with
  | [] => []
  | c :: s' =>
      if in_escape then strip_ansi_from (negb (N.eqb c 109)) s'
      else if N.eqb c ESC then strip_ansi_from true s'
      else c :: strip_ansi_from false s'
  end.

Definition visible (s : str) : str := strip_ansi_from false s.

Inductive category : Set :=
| CatInput
| CatOutput
| CatCacheCreation
| CatCacheRead.

Definition height_of (sb : Breakdown) (c : category) : Z :=
  match c with
  | CatInput => input sb
  | CatOutput => output sb
  | CatCacheCreation => cache_creation sb
  | CatCacheRead => cache_read sb
  end.

(** The categories a chart type shows, bottom of the stack first. *)
Definition active_categories (chart_type : string) : list category :=
  if String.eqb chart_type "io" then [CatInput; CatOutput]
  else if String.eqb chart_type "cache" then [CatCacheCreation; CatCacheRead]
  else [CatInput; CatOutput; CatCacheCreation; CatCacheRead].

Definition Zsum (l : list Z) : Z := foldr Z.add 0 l.

Definition active_height_sum (chart_type : string) (sb : Breakdown) : Z :=
  Zsum (map (height_of sb) (active_categories chart_type)).

(** Row [row] lies in the band of category [c] when [c] is active and the
    row is at or above the heights stacked below [c] and under [c]'s
    cumulative boundary; it is blank ([None]) at or above the whole stack. *)
Definition in_band (chart_type : string) (sb : Breakdown) (row : Z)
    (b : option category) : Prop :=
  match b with
  | Some c =>
      exists below above,
        active_categories chart_type = below ++ c :: above /\
        Zsum (map (height_of sb) below) <= row
        < Zsum (map (height_of sb) below) + height_of sb c
  | None => active_height_sum chart_type sb <= row
  end.

(** The same, walking the stack from its bottom at [base]. *)
Fixpoint band_at (sb : Breakdown) (cats : list category) (base row : Z)
    (c : category) : Prop :=
  match cats with
  | [] => False
  | c' :: rest =>
      (c = c' /\ base <= row < base + height_of sb c')
      \/ band_at sb rest (base + height_of sb c') row c
  end.

(** The cell string of a band. *)
Definition band_cell (chart_type : string) (b : option category) : str :=
  match b with
  | Some CatInput => INPUT_CELL
  | Some CatOutput => OUTPUT_CELL
  | Some CatCacheCreation => CACHE_CREATION_CELL
  | Some CatCacheRead =>
      if String.eqb chart_type "cache" then CACHE_READ_CELL_CACHE else CACHE_READ_CELL_ALL
  | None => BLANK_CELL
  end.

Definition nonneg_breakdown (b : Breakdown) : Prop :=
  0 <= input b /\ 0 <= output b /\ 0 <= cache_creation b /\ 0 <= cache_read b.

(** Token counters of one hour: not negative and below 2^63. *)
Definition counter_range (b : Breakdown) : Prop :=
  0 <= input b < 2 ^ 63 /\ 0 <= output b < 2 ^ 63 /\
  0 <= cache_creation b < 2 ^ 63 /\ 0 <= cache_read b < 2 ^ 63.

(** The factor by which the three roundings of one scaled height (of the
    quotient, of [chart_height - 1] and of the product) can exceed the
    exact value. *)
Definition rounding_slack : Q :=
  ((1 + 2 ^ (-53)) * (1 + 2 ^ (-53)) * (1 + 2 ^ (-53)))%Q.

(** Every column's active scaled heights sum to at most
    [chart_height - 1 + slack]. *)
Definition stack_fits (slack : Z) (chart_type : string) (chart_height : Z)
    (scaled : list Breakdown) : Prop :=
  Forall (fun sb => active_height_sum chart_type sb <= chart_height - 1 + slack) scaled.

(** The procedure [m] only appends to standard output, and what it appends
    and returns does not depend on what was printed before. *)
Definition appends {A} (m : IO A) (r : result A) (lines : list str) : Prop :=
  forall out, m out = (r, out ++ lines).

Definition append_only {A} (m : IO A) : Prop :=
  exists r lines, appends m r lines.

(** The procedure returns without an exception. *)
Definition completes (m : IO unit) : Prop :=
  exists lines, appends m (Ok tt) lines.

(** The calendar day of a timestamp. *)
Definition dt_date (t : datetime) : Z := t / US_PER_DAY.

(** The range of [datetime]: from 0001-01-01 00:00:00 up to, not
    including, 10000-01-01 00:00:00. *)
Definition DATETIME_END : Z := 3652059 * US_PER_DAY.

Definition datetime_in_range (t : datetime) : Prop := 0 <= t < DATETIME_END.

(** The date arithmetic of the window of [days_back] days before
    [last_time] stays within the limits of the library, outside of which
    it raises [OverflowError]: the [timedelta] has at most 999,999,999
    days, and the window start and the hour after the latest timestamp
    (the last value the [while] loop can compute) are in the range of
    [datetime]. *)
Definition window_in_range (last_time : datetime) (days_back : Z) : Prop :=
  datetime_in_range last_time /\
  -999999999 <= days_back <= 999999999 /\
  datetime_in_range (last_time - timedelta_days days_back) /\
  datetime_in_range (last_time + timedelta_hours 1).

(** Token counters of one model: not negative and below 2^63. *)
Definition stats_range (stats : ModelStats.t) : Prop :=
  0 <= ModelStats.input stats < 2 ^ 63 /\
  0 <= ModelStats.output stats < 2 ^ 63 /\
  0 <= ModelStats.cache_creation stats < 2 ^ 63 /\
  0 <= ModelStats.cache_read stats < 2 ^ 63 /\
  0 <= ModelStats.total_with_cache stats < 2 ^ 63.

(** An amount of money: the int 0 or a float between 0 and [bound]. *)
Definition amount (v : num) (bound : Q) : Prop :=
  v = Int 0 \/ exists a, v = Float a /\ (0 <= a /\ a <= bound)%Q.

(** The four running costs are amounts up to [bound]. *)
Definition costs_within (c : breakdown_costs) (bound : Q) : Prop :=
  amount (input_cost c) bound /\ amount (output_cost c) bound /\
  amount (cache_output_cost c) bound /\ amount (cache_input_cost c) bound.

(** The exact value of a number. *)
Definition num_value (v : num) : Q :=
  match v with
  | Int a => inject_Z a
  | Float x => x
  end.

(** Sample inputs. *)
Definition sample_time : datetime := 63872204400000000.

Definition sample_series : time_series :=
  [(sample_time, {[ "input"%string := 100 ]});
   (sample_time - 5 * US_PER_HOUR,
    {[ "input"%string := 40; "output"%string := 30; "cache_read"%string := 20 ]})].

Definition busy_series : time_series :=
  map (fun t => (t, {[ "input"%string := 10000 ]})) (window_axis sample_time 1).

(** ** Properties *)

Local Ltac case_eqb :=
  repeat match goal with
         | |- context [String.eqb ?a ?b] => destruct (String.eqb a b) eqn:?
         end.

(** *** Scale range *)

Lemma round_to_5_multiple_down_le (value : Z) :
  round_to_5_multiple value false <= value.
Proof.
  unfold round_to_5_multiple.
  repeat case_match; match goal with
  | |- ?v / ?u * ?u <= ?v => pose proof (Z.mul_div_le v u); lia
  end.
Qed.

Lemma round_to_5_multiple_up_ge (value : Z) :
  value <= round_to_5_multiple value true.
Proof.
  unfold round_to_5_multiple.
  repeat case_match; match goal with
  | |- ?v <= (?v + ?u - 1) / ?u * ?u =>
      pose proof (Z.mul_div_le (v + u - 1) u);
      pose proof (Z.mod_pos_bound (v + u - 1) u);
      pose proof (Z.div_mod (v + u - 1) u); lia
  end.
Qed.

Lemma foldl_min_le_max (l : list Z) (x y : Z) :
  x <= y -> foldl Z.min x l <= foldl Z.max y l.
Proof.
  revert x y. induction l as [|a l IH]; intros x y Hxy; simpl; [done|].
  apply IH. lia.
Qed.

Lemma min_or_le_max_or (l : list Z) : min_or 0 l <= max_or 1 l.
Proof.
  destruct l as [|a l]; simpl; [lia|]. by apply foldl_min_le_max.
Qed.

(** C7. For every sequence of totals (the empty one included, with raw
    maximum 1 and raw minimum 0) the scale range has [max > min]: the
    minimum is the raw minimum rounded down, the maximum the raw maximum
    rounded up, and the maximum is widened by 5,000 when the two
    coincide. *)
Theorem scale_range_max_gt_min (totals : list Z) :
  (scale_range totals).1 < (scale_range totals).2 /\
  (scale_range totals).1 = round_to_5_multiple (min_or 0 totals) false /\
  (scale_range totals).1 <= min_or 0 totals /\
  ((scale_range totals).2 = round_to_5_multiple (max_or 1 totals) true \/
   (scale_range totals).2 = (scale_range totals).1 + 5000 /\
   round_to_5_multiple (max_or 1 totals) true = (scale_range totals).1).
Proof.
  pose proof (round_to_5_multiple_down_le (min_or 0 totals)) as Hlo.
  pose proof (round_to_5_multiple_up_ge (max_or 1 totals)) as Hhi.
  pose proof (min_or_le_max_or totals) as Hmm.
  unfold scale_range.
  set (lo := round_to_5_multiple (min_or 0 totals) false) in *.
  set (hi := round_to_5_multiple (max_or 1 totals) true) in *.
  destruct (Z.eqb_spec hi lo) as [He|Hne]; cbn [fst snd].
  - split; [lia|]. split; [reflexivity|]. split; [lia|]. right. by split.
  - split; [lia|]. split; [reflexivity|]. split; [lia|]. by left.
Qed.

Example scale_range_empty : scale_range [] = (0, 5).
Proof. reflexivity. Qed.

Example scale_range_spec_example : scale_range [0; 100; 5000; 5000000] = (0, 5000000).
Proof. reflexivity. Qed.

(** *** Axis formatter *)

(** C8. On the non-negative input 9960 the axis formatter returns the six
    characters ["10.0 K"], not five: 9.96 passes the [< 10] test and is
    then rounded to one decimal. *)
Theorem format_y_axis_value_9960 :
  format_y_axis_value (Int 9960) = Ok (py "10.0 K") /\
  len (py "10.0 K") = 6.
Proof. split; reflexivity. Qed.

Example format_y_axis_value_billion :
  format_y_axis_value (Int 1000000000) = Ok (py "1000 M").
Proof. reflexivity. Qed.

Example format_y_axis_value_tiers :
  format_y_axis_value (Int 999) = Ok (py "  999") /\
  format_y_axis_value (Int 1234) = Ok (py "1.2 K") /\
  format_y_axis_value (Int 12345) = Ok (py " 12 K") /\
  format_y_axis_value (Int 123456) = Ok (py "123 K") /\
  format_y_axis_value (Int 1234567) = Ok (py "1.2 M").
Proof. repeat split; reflexivity. Qed.

Example format_total_value_examples :
  format_total_value (Int 1234567) = Ok (py "1.23M") /\
  format_total_value (Int 12345) = Ok (py "12.3K") /\
  format_total_value (Int 999) = Ok (py "999").
Proof. repeat split; reflexivity. Qed.

(** *** Series normalisation *)

Lemma hourly_axis_seqZ (current_time last_time : datetime) :
  hourly_axis current_time last_time
  = (fun i => current_time + timedelta_hours i)
      <$> seqZ 0 ((last_time - current_time) / US_PER_HOUR + 1).
Proof.
  funelim (hourly_axis current_time last_time).
  - rewrite H. clear H Heq Heqcall.
    set (n := (last_time - current_time) / US_PER_HOUR).
    assert (Hn : 0 <= n) by (apply Z.div_pos; [lia|reflexivity]).
    replace ((last_time - (current_time + timedelta_hours 1)) / US_PER_HOUR + 1)
      with n.
    2:{ unfold timedelta_hours.
        replace (last_time - (current_time + 1 * US_PER_HOUR))
          with (last_time - current_time + (-1) * US_PER_HOUR) by lia.
        rewrite Z.div_add by done. subst n. lia. }
    rewrite (seqZ_cons 0 (n + 1)) by lia.
    replace (Z.pred (n + 1)) with n by lia.
    replace (seqZ (Z.succ 0) n) with (Z.add 1 <$> seqZ 0 n)
      by apply (fmap_add_seqZ 1 0 n).
    rewrite fmap_cons, <- list_fmap_compose.
    f_equal; [unfold timedelta_hours; lia|].
    apply list_fmap_ext. intros _ i _. unfold timedelta_hours. simpl. lia.
  - rewrite seqZ_nil; [done|].
    assert ((last_time - current_time) / US_PER_HOUR < 0)
      by (apply Z.div_lt_upper_bound; [reflexivity|lia]).
    lia.
Qed.

Lemma window_axis_seqZ (last_time : datetime) (days_back : Z) :
  window_axis last_time days_back
  = (fun i => replace_minute_second_microsecond_0 (last_time - timedelta_days days_back)
              + timedelta_hours i)
      <$> seqZ 0 (24 * days_back + 1).
Proof.
  unfold window_axis. rewrite hourly_axis_seqZ. do 2 f_equal.
  unfold replace_minute_second_microsecond_0, timedelta_days, US_PER_DAY, US_PER_HOUR.
  set (s := last_time - days_back * 86400000000).
  pose proof (Z.mod_pos_bound s 3600000000 eq_refl) as Hm.
  replace (last_time - (s - s mod 3600000000))
    with (s mod 3600000000 + (24 * days_back) * 3600000000) by lia.
  rewrite Z.div_add by done. rewrite Z.div_small by lia. lia.
Qed.

Lemma window_axis_length (last_time : datetime) (days_back : Z) :
  len (window_axis last_time days_back) = Z.max 0 (24 * days_back + 1).
Proof.
  rewrite window_axis_seqZ. unfold len. rewrite length_fmap, length_seqZ. lia.
Qed.

Lemma slice_step_from_lookup {A} (k skip : nat) (l : list A) (j : nat) :
  slice_step_from (S k) skip l !! j = l !! (skip + j * S k)%nat.
Proof.
  revert skip j. induction l as [|x l IH]; intros skip j; simpl.
  - by rewrite !lookup_nil.
  - destruct skip as [|skip]; simpl.
    + destruct j as [|j]; simpl; [done|]. rewrite IH. f_equal.
    + rewrite IH. done.
Qed.

Lemma slice_step_1 {A} (l : list A) : slice_step 1 l = l.
Proof.
  apply list_eq. intros j. unfold slice_step. rewrite slice_step_from_lookup.
  f_equal. lia.
Qed.

Lemma length_by_lookup {A} (l : list A) (n : nat) :
  (forall j, is_Some (l !! j) <-> (j < n)%nat) -> length l = n.
Proof.
  intros H.
  destruct (Nat.lt_trichotomy (length l) n) as [Hlt|[->|Hgt]]; [|done|].
  - apply H in Hlt. apply lookup_lt_is_Some in Hlt. lia.
  - assert (is_Some (l !! n)) as Hs by (by apply lookup_lt_is_Some).
    apply H in Hs. lia.
Qed.

Lemma slice_step_length {A} (k : nat) (l : list A) :
  length (slice_step (S k) l) = ((length l + k) / S k)%nat.
Proof.
  apply length_by_lookup. intros j. unfold slice_step.
  rewrite slice_step_from_lookup, lookup_lt_is_Some, Nat.add_0_l.
  set (s := S k). assert (s = S k) as Hs by done. clearbody s.
  split; intros H.
  - apply Nat.div_le_lower_bound; [lia|]. nia.
  - assert (S j <= (length l + k) / s)%nat as Hle by lia.
    pose proof (Nat.Div0.mul_div_le (length l + k) s). nia.
Qed.

Lemma resample_lookup (sorted_times : list datetime) (j : nat) :
  resample sorted_times !! j
  = if 500 <? len sorted_times
    then sorted_times !! (j * Z.to_nat (resample_step sorted_times))%nat
    else sorted_times !! j.
Proof.
  unfold resample. case_match; [|done].
  unfold slice_step, resample_step.
  destruct (Z.to_nat (Z.max 1 (len sorted_times / 500))) as [|k] eqn:Hk; [lia|].
  by rewrite slice_step_from_lookup.
Qed.

Lemma resample_length (sorted_times : list datetime) :
  500 < len sorted_times ->
  len (resample sorted_times)
  = (len sorted_times + resample_step sorted_times - 1) / resample_step sorted_times.
Proof.
  intros Hn. unfold resample. rewrite (proj2 (Z.ltb_lt _ _) Hn).
  unfold resample_step.
  destruct (Z.to_nat (Z.max 1 (len sorted_times / 500))) as [|k] eqn:Hk; [lia|].
  unfold len at 1. rewrite slice_step_length.
  rewrite Nat2Z.inj_div. unfold len in *.
  replace (Z.max 1 (Z.of_nat (length sorted_times) / 500)) with (Z.of_nat (S k)) by lia.
  f_equal. lia.
Qed.

(** C4. An axis of 505 hourly points (a 21-day window) is resampled with
    stride [max(1, 505 // 500) = 1]: every point is kept, and the series
    charted has 505 columns, more than the cap of 500. *)
Theorem resample_exceeds_cap :
  len (window_axis sample_time 21) = 505 /\
  resample_step (window_axis sample_time 21) = 1 /\
  resample (window_axis sample_time 21) = window_axis sample_time 21 /\
  500 < len (resample (window_axis sample_time 21)).
Proof. vm_compute. repeat split; reflexivity. Qed.

Lemma sorted_last_max (l : list Z) (x : Z) :
  last (sorted l) = Some x -> x ∈ l /\ forall k, k ∈ l -> k <= x.
Proof.
  unfold sorted. intros Hlast.
  pose proof (merge_sort_Permutation Z.le l) as Hperm.
  pose proof (StronglySorted_merge_sort Z.le l) as Hsorted.
  apply last_Some in Hlast as [l' Hl'].
  rewrite Hl' in Hperm, Hsorted.
  split.
  - rewrite <- Hperm. set_solver.
  - intros k Hk. rewrite <- Hperm in Hk.
    apply elem_of_app in Hk as [Hk|Hk].
    + eapply (StronglySorted_app_1_elem_of Z.le); [exact Hsorted|exact Hk|].
      apply list_elem_of_here.
    + apply list_elem_of_singleton in Hk. lia.
Qed.

Lemma sorted_nonempty (l : list Z) : l <> [] -> is_Some (last (sorted l)).
Proof.
  intros Hne. destruct (last (sorted l)) eqn:Hl; [by eexists|].
  apply last_None in Hl.
  pose proof (merge_sort_Permutation Z.le l) as Hperm.
  unfold sorted in Hl. rewrite Hl in Hperm.
  apply Permutation_nil_l in Hperm. congruence.
Qed.

Lemma window_axis_lookup (last_time : datetime) (days_back : Z) (i : nat) :
  Z.of_nat i < 24 * days_back + 1 ->
  window_axis last_time days_back !! i
  = Some (replace_minute_second_microsecond_0 (last_time - timedelta_days days_back)
          + timedelta_hours (Z.of_nat i)).
Proof.
  intros Hi. rewrite window_axis_seqZ, list_lookup_fmap, lookup_seqZ_lt by done.
  simpl. done.
Qed.

Lemma window_axis_end (last_time : datetime) (days_back : Z) :
  replace_minute_second_microsecond_0 (last_time - timedelta_days days_back)
  + timedelta_hours (24 * days_back)
  = replace_minute_second_microsecond_0 last_time.
Proof.
  unfold replace_minute_second_microsecond_0, timedelta_hours, timedelta_days,
    US_PER_DAY, US_PER_HOUR.
  replace (last_time - days_back * 86400000000)
    with (last_time + (- (24 * days_back)) * 3600000000) by lia.
  rewrite Z.mod_add by done. lia.
Qed.

(** C5 (amended). When a chart is drawn, the charted series starts at the
    window's lower bound rounded down to the hour.  Its last bucket is the
    last stride multiple of the hourly axis: with [n = 24 * days_back + 1]
    points and stride [n // 500] (1 when [n <= 500]) it lies
    [stride * ((n - 1) // stride)] hours after the start, while the latest
    input timestamp, rounded down to the hour, lies [n - 1] hours after
    it.  Without resampling the last bucket is the latest input timestamp
    rounded down to the hour, the latest timestamp itself when that is on
    the hour. *)
Theorem charted_series_span (ts : time_series) (days_back : Z) (st : list datetime) :
  charted_series ts days_back = Some st ->
  exists last_time,
    last_time ∈ dict_keys ts /\
    (forall k, k ∈ dict_keys ts -> k <= last_time) /\
    let start :=
      replace_minute_second_microsecond_0 (last_time - timedelta_days days_back) in
    let n := 24 * days_back + 1 in
    let step := if 500 <? n then n / 500 else 1 in
    head st = Some start /\
    last st = Some (start + timedelta_hours (step * ((n - 1) / step))) /\
    start + timedelta_hours (n - 1) = replace_minute_second_microsecond_0 last_time /\
    (n <= 500 -> last st = Some (replace_minute_second_microsecond_0 last_time)) /\
    (n <= 500 -> last_time mod US_PER_HOUR = 0 -> last st = Some last_time).
Proof.
  unfold charted_series. intros Hcs.
  destruct (last (sorted (dict_keys ts))) as [last_time|] eqn:Hlast; [|done].
  destruct (Z.ltb_spec (len (window_axis last_time days_back)) 2) as [|Hlen]; [done|].
  injection Hcs as <-.
  apply sorted_last_max in Hlast as [Hin Hmax].
  exists last_time. split; [done|]. split; [done|].
  rewrite window_axis_length in Hlen.
  set (start := replace_minute_second_microsecond_0 _).
  set (n := 24 * days_back + 1) in *.
  assert (Hend : start + timedelta_hours (n - 1)
                 = replace_minute_second_microsecond_0 last_time).
  { subst n start. replace (24 * days_back + 1 - 1) with (24 * days_back) by lia.
    apply window_axis_end. }
  assert (Hhead : head (resample (window_axis last_time days_back)) = Some start).
  { rewrite head_lookup, resample_lookup.
    case_match; simpl; rewrite window_axis_lookup by lia;
      f_equal; unfold timedelta_hours; lia. }
  assert (Hlen' : len (window_axis last_time days_back) = n)
    by (rewrite window_axis_length; lia).
  assert (Hlast : last (resample (window_axis last_time days_back))
                  = Some (start + timedelta_hours
                                    ((if 500 <? n then n / 500 else 1)
                                     * ((n - 1) / (if 500 <? n then n / 500 else 1))))).
  { rewrite last_lookup, resample_lookup.
    destruct (Z.ltb_spec 500 n) as [Hbig|Hsmall]; rewrite Hlen'.
    - rewrite (proj2 (Z.ltb_lt _ _) Hbig).
      pose proof (resample_length (window_axis last_time days_back)) as Hrl.
      rewrite Hlen' in Hrl. specialize (Hrl Hbig).
      unfold resample_step in *. rewrite Hlen' in *.
      assert (Hq : 1 <= n / 500) by (apply Z.div_le_lower_bound; lia).
      replace (Z.max 1 (n / 500)) with (n / 500) in * by lia.
      set (step := n / 500) in *.
      unfold len in Hrl.
      assert (Hceil : (n + step - 1) / step = (n - 1) / step + 1).
      { replace (n + step - 1) with (n - 1 + 1 * step) by lia.
        by rewrite Z.div_add by lia. }
      assert (0 <= (n - 1) / step) by (apply Z.div_pos; lia).
      pose proof (Z.mul_div_le (n - 1) step ltac:(lia)).
      rewrite window_axis_lookup.
      + do 3 f_equal. nia.
      + fold n. nia.
    - rewrite (proj2 (Z.ltb_ge _ _) Hsmall).
      unfold resample. rewrite Hlen', (proj2 (Z.ltb_ge _ _) Hsmall).
      unfold len in Hlen'. rewrite window_axis_lookup by (fold n; lia).
      do 3 f_equal. rewrite Z.div_1_r. lia. }
  split; [done|]. split; [done|]. split; [done|].
  assert (n <= 500 -> last (resample (window_axis last_time days_back))
                      = Some (replace_minute_second_microsecond_0 last_time)) as Hsmall.
  { intros Hn. rewrite Hlast, (proj2 (Z.ltb_ge _ _) Hn), Z.div_1_r, <- Hend.
    do 3 f_equal. lia. }
  split; [done|].
  intros Hn Hmod. rewrite Hsmall by done.
  unfold replace_minute_second_microsecond_0. rewrite Hmod. f_equal. lia.
Qed.

Lemma charted_series_span_witness :
  exists last_time,
    last_time ∈ dict_keys sample_series /\
    (forall k, k ∈ dict_keys sample_series -> k <= last_time) /\
    let start := replace_minute_second_microsecond_0 (last_time - timedelta_days 1) in
    let n := 24 * 1 + 1 in
    let step := if 500 <? n then n / 500 else 1 in
    head (window_axis sample_time 1) = Some start /\
    last (window_axis sample_time 1)
    = Some (start + timedelta_hours (step * ((n - 1) / step))) /\
    start + timedelta_hours (n - 1) = replace_minute_second_microsecond_0 last_time /\
    (n <= 500 -> last (window_axis sample_time 1)
                 = Some (replace_minute_second_microsecond_0 last_time)) /\
    (n <= 500 -> last_time mod US_PER_HOUR = 0 ->
     last (window_axis sample_time 1) = Some last_time).
Proof.
  apply (charted_series_span sample_series 1 (window_axis sample_time 1)).
  vm_compute. reflexivity.
Defined.

(** C5, counterexample.  With a single bucket on the hour and a 106-day
    window the axis has 2545 points and stride 5; the last index kept is
    2540, so the charted series ends four hours before the latest
    timestamp of the input. *)
Lemma charted_series_drops_latest :
  sample_time mod US_PER_HOUR = 0 /\
  exists st,
    charted_series [(sample_time, ∅)] 106 = Some st /\
    last st = Some (sample_time - timedelta_hours 4) /\
    last st <> Some sample_time.
Proof.
  split; [reflexivity|].
  exists (resample (window_axis sample_time 106)). split; [by vm_compute|].
  vm_compute. split; [reflexivity|discriminate].
Qed.

(** *** Column layout *)

Lemma for_each_app {A S} (l1 l2 : list A) (s : S) (body : A -> S -> result S) :
  for_each (l1 ++ l2) s body
  = rbind (for_each l1 s body) (fun s' => for_each l2 s' body).
Proof.
  revert s. induction l1 as [|x l1 IH]; intros s; simpl; [done|].
  destruct (body x s); simpl; [apply IH|done].
Qed.

Lemma list_index_lt {A} (l : list A) (i : nat) :
  (i < length l)%nat -> exists x, l !! i = Some x /\ list_index l i = Ok x.
Proof.
  intros Hi. apply lookup_lt_is_Some in Hi as [x Hx].
  exists x. unfold list_index. by rewrite Hx.
Qed.

Lemma columns_by_rule_snoc (st : list datetime) (t : datetime) :
  columns_by_rule (st ++ [t])
  = columns_by_rule st
    ++ (if (dt_hour t =? 0) && (dt_minute t =? 0) && (0 <? length st)%nat
        then [Separator; Data (length st)]
        else [Data (length st)]).
Proof.
  unfold columns_by_rule. rewrite imap_app, concat_app. simpl.
  rewrite Nat.add_0_r, app_nil_r. done.
Qed.

Lemma build_layout_prefix (st : list datetime) (n : nat) :
  (n <= length st)%nat ->
  exists lay,
    build_layout st n = Ok lay /\
    chart_columns lay = columns_by_rule (take n st) /\
    next_col_idx lay = length (chart_columns lay).
Proof.
  unfold build_layout. induction n as [|n IH]; intros Hn.
  - eexists. simpl. split; [reflexivity|]. by rewrite take_0.
  - destruct IH as (lay & Hrun & Hcols & Hidx); [lia|].
    rewrite seq_S, for_each_app, Hrun. simpl.
    destruct (list_index_lt st n) as (t & Hlook & Hidx'); [lia|].
    unfold layout_step. rewrite Hidx'. simpl.
    eexists. split; [reflexivity|].
    rewrite (take_S_r _ _ _ Hlook), columns_by_rule_snoc, length_take_le by lia.
    destruct ((dt_hour t =? 0) && (dt_minute t =? 0) && (0 <? n)%nat); simpl;
      rewrite <- Hcols, ?length_app, ?Hidx; simpl.
    + rewrite <- app_assoc. simpl. split; [done|lia].
    + split; [done|lia].
Qed.

Lemma build_layout_columns (st : list datetime) :
  exists lay,
    build_layout st (length st) = Ok lay /\
    chart_columns lay = columns_by_rule st.
Proof.
  destruct (build_layout_prefix st (length st)) as (lay & Hrun & Hcols & _); [done|].
  exists lay. by rewrite firstn_all in Hcols.
Qed.

Lemma good_columns_mono (n m : nat) (cols : list column) :
  (n <= m)%nat -> good_columns n cols -> good_columns m cols.
Proof.
  intros Hnm Hg. induction Hg.
  - apply good_first. lia.
  - apply good_data; [done|lia].
  - apply good_separator_data; [done|lia].
Qed.

Lemma columns_by_rule_good (st : list datetime) :
  st <> [] -> good_columns (length st) (columns_by_rule st).
Proof.
  induction st as [|t st IH] using rev_ind; [done|]. intros _.
  rewrite columns_by_rule_snoc, length_app. simpl.
  destruct st as [|t' st'] using rev_ind.
  - simpl. rewrite andb_false_r. apply good_first. lia.
  - clear IHst'. specialize (IH ltac:(by destruct st')).
    apply (good_columns_mono _ (length (st' ++ [t']) + 1)) in IH; [|lia].
    case_match.
    + apply good_separator_data; [done|lia].
    + apply good_data; [done|lia].
Qed.

Lemma columns_by_rule_head (st : list datetime) :
  st <> [] -> head (columns_by_rule st) = Some (Data 0).
Proof.
  destruct st as [|t st]; [done|]. intros _.
  unfold columns_by_rule. simpl. by rewrite andb_false_r.
Qed.

Lemma good_columns_last (n : nat) (cols : list column) :
  good_columns n cols -> exists i, last cols = Some (Data i).
Proof.
  intros Hg. destruct Hg as [i|cols i|cols i]; exists i.
  - done.
  - apply last_snoc.
  - by rewrite (last_app_cons cols [Data i] Separator).
Qed.

Lemma good_columns_separator_next (n : nat) (cols : list column) (j : nat) :
  good_columns n cols ->
  cols !! j = Some Separator -> exists i, cols !! S j = Some (Data i).
Proof.
  intros Hg. revert j. induction Hg as [i Hi|cols i Hg IH Hi|cols i Hg IH Hi]; intros j Hj.
  - by destruct j as [|[|j]].
  - apply lookup_app_Some in Hj as [Hj|[Hlen Hj]].
    + destruct (IH _ Hj) as [i' Hi']. exists i'. by apply lookup_app_l_Some.
    + by destruct (j - length cols)%nat as [|[|]].
  - apply lookup_app_Some in Hj as [Hj|[Hlen Hj]].
    + destruct (IH _ Hj) as [i' Hi']. exists i'. by apply lookup_app_l_Some.
    + destruct (j - length cols)%nat as [|[|k]] eqn:Hk; [|done|done].
      exists i. rewrite lookup_app_r by lia.
      by replace (S j - length cols)%nat with 1%nat by lia.
Qed.

Lemma separator_count_app (l1 l2 : list column) :
  separator_count (l1 ++ l2) = (separator_count l1 + separator_count l2)%nat.
Proof. unfold separator_count. by rewrite List.filter_app, length_app. Qed.

Lemma enumerate_app {A} (l1 l2 : list A) :
  enumerate (l1 ++ l2)
  = enumerate l1 ++ imap (fun i x => ((length l1 + i)%nat, x)) l2.
Proof. unfold enumerate. by rewrite imap_app. Qed.

(** The daily-totals loop over a good column sequence ends inside a day,
    having closed one day per separator. *)
Lemma day_loop_good (st : list datetime) (totals : list Z) (cols : list column) :
  length totals = length st ->
  good_columns (length st) cols ->
  exists s start,
    for_each (enumerate cols) (mkDayState [] None 0 0) (day_step st totals) = Ok s /\
    current_day_start s = Some start /\
    length (daily_totals s) = separator_count cols.
Proof.
  intros Hlen Hg.
  induction Hg as [i Hi|cols i Hg IH Hi|cols i Hg IH Hi].
  - destruct (list_index_lt st i Hi) as (t & _ & Ht).
    destruct (list_index_lt totals i ltac:(lia)) as (tot & _ & Htot).
    simpl. rewrite Ht. simpl. rewrite Htot. simpl. by eexists _, _.
  - destruct IH as (s & start & Hrun & Hstart & Hcount).
    destruct (list_index_lt totals i ltac:(lia)) as (tot & _ & Htot).
    rewrite enumerate_app, for_each_app, Hrun. simpl.
    rewrite Hstart. simpl. rewrite Htot. simpl.
    eexists _, _. split; [reflexivity|]. simpl. split; [done|].
    rewrite separator_count_app. simpl. unfold separator_count at 2. simpl. lia.
  - destruct IH as (s & start & Hrun & Hstart & Hcount).
    destruct (list_index_lt st i Hi) as (t & _ & Ht).
    destruct (list_index_lt totals i ltac:(lia)) as (tot & _ & Htot).
    rewrite enumerate_app, for_each_app, Hrun. simpl.
    rewrite Hstart. simpl. rewrite Ht. simpl. rewrite Htot. simpl.
    eexists _, _. split; [reflexivity|]. simpl. split; [done|].
    rewrite separator_count_app, length_app. unfold separator_count at 2. simpl. lia.
Qed.

(** C10. For every non-empty dense series the column sequence the layout
    builds starts with a data column, every separator in it is
    immediately followed by a data column (so no two separators are
    adjacent), and the daily-totals pass over it yields one entry more
    than there are separators. *)
Theorem columns_separators_and_day_totals
    (sorted_times : list datetime) (totals : list Z) :
  sorted_times <> [] ->
  length totals = length sorted_times ->
  exists lay dts,
    build_layout sorted_times (length totals) = Ok lay /\
    daily_totals_of sorted_times totals (chart_columns lay) = Ok dts /\
    head (chart_columns lay) = Some (Data 0) /\
    (forall j, chart_columns lay !! j = Some Separator ->
               exists i, chart_columns lay !! S j = Some (Data i)) /\
    (forall j, ~ (chart_columns lay !! j = Some Separator /\
                  chart_columns lay !! S j = Some Separator)) /\
    length dts = S (separator_count (chart_columns lay)).
Proof.
  intros Hne Hlen.
  destruct (build_layout_columns sorted_times) as (lay & Hrun & Hcols).
  pose proof (columns_by_rule_good sorted_times Hne) as Hg.
  rewrite <- Hcols in Hg.
  destruct (day_loop_good sorted_times totals _ Hlen Hg)
    as (s & start & Hloop & Hstart & Hcount).
  exists lay. eexists. rewrite Hlen. split; [done|].
  unfold daily_totals_of. rewrite Hloop. simpl. rewrite Hstart.
  split; [reflexivity|].
  split; [rewrite Hcols; by apply columns_by_rule_head|].
  split; [intros j; by apply (good_columns_separator_next _ _ _ Hg)|].
  split.
  - intros j [Hj Hj']. destruct (good_columns_separator_next _ _ _ Hg Hj) as [i Hi].
    congruence.
  - rewrite length_app. simpl. lia.
Qed.

Lemma columns_separators_and_day_totals_witness :
  exists lay dts,
    build_layout (window_axis sample_time 1) (length (replicate 25 7)) = Ok lay /\
    daily_totals_of (window_axis sample_time 1) (replicate 25 7) (chart_columns lay)
    = Ok dts /\
    head (chart_columns lay) = Some (Data 0) /\
    (forall j, chart_columns lay !! j = Some Separator ->
               exists i, chart_columns lay !! S j = Some (Data i)) /\
    (forall j, ~ (chart_columns lay !! j = Some Separator /\
                  chart_columns lay !! S j = Some Separator)) /\
    length dts = S (separator_count (chart_columns lay)).
Proof.
  apply (columns_separators_and_day_totals (window_axis sample_time 1) (replicate 25 7)).
  - vm_compute. discriminate.
  - vm_compute. reflexivity.
Defined.

(** The layout rule looks at a timestamp only through its hour and
    minute. *)
Lemma columns_by_rule_ext (st st' : list datetime) :
  Forall2 (fun t t' => dt_hour t = dt_hour t' /\ dt_minute t = dt_minute t') st st' ->
  columns_by_rule st = columns_by_rule st'.
Proof.
  revert st'. induction st as [|t st IH] using rev_ind; intros st' H.
  - by apply Forall2_nil_inv_l in H as ->.
  - apply Forall2_app_inv_l in H as (k1 & k2 & H1 & H2 & ->).
    apply Forall2_cons_inv_l in H2 as (t' & k & [Hh Hm] & Hnil & ->).
    apply Forall2_nil_inv_l in Hnil as ->.
    rewrite !columns_by_rule_snoc, (IH _ H1), Hh, Hm, (Forall2_length _ _ _ H1). done.
Qed.

Lemma dt_hour_on_hour (k : Z) : dt_hour (k * US_PER_HOUR) = k mod 24.
Proof. unfold dt_hour. by rewrite Z.div_mul. Qed.

Lemma dt_minute_on_hour (k : Z) : dt_minute (k * US_PER_HOUR) = 0.
Proof.
  unfold dt_minute, US_PER_HOUR, US_PER_MINUTE.
  replace (k * 3600000000) with (k * 60 * 60000000) by lia.
  rewrite Z.div_mul by done. by rewrite Z.mod_mul.
Qed.

(** An hourly series of 241 points crosses midnight ten times, whatever
    hour it starts at. *)
Lemma hourly_241_separators (r : Z) :
  0 <= r < 24 ->
  separator_count
    (columns_by_rule ((fun i => (r + i) * US_PER_HOUR) <$> seqZ 0 241)) = 10%nat.
Proof.
  intros Hr.
  assert (r = 0 \/ r = 1 \/ r = 2 \/ r = 3 \/ r = 4 \/ r = 5 \/ r = 6 \/ r = 7 \/
          r = 8 \/ r = 9 \/ r = 10 \/ r = 11 \/ r = 12 \/ r = 13 \/ r = 14 \/
          r = 15 \/ r = 16 \/ r = 17 \/ r = 18 \/ r = 19 \/ r = 20 \/ r = 21 \/
          r = 22 \/ r = 23) as Hcases by lia.
  repeat (destruct Hcases as [->|Hcases]; [by vm_compute|]).
  subst r. by vm_compute.
Qed.

Lemma ten_day_axis_separators (last_time : datetime) :
  separator_count (columns_by_rule (window_axis last_time 10)) = 10%nat.
Proof.
  rewrite window_axis_seqZ.
  set (start := replace_minute_second_microsecond_0 (last_time - timedelta_days 10)).
  set (k := start / US_PER_HOUR).
  assert (Hstart : start = k * US_PER_HOUR).
  { subst k start. unfold replace_minute_second_microsecond_0.
    set (x := last_time - timedelta_days 10).
    pose proof (Z.div_mod x US_PER_HOUR ltac:(done)) as Hdm.
    replace (x - x mod US_PER_HOUR) with (x / US_PER_HOUR * US_PER_HOUR) by lia.
    by rewrite Z.div_mul. }
  rewrite <- (hourly_241_separators (k mod 24)) by (by apply Z.mod_pos_bound).
  f_equal. apply columns_by_rule_ext.
  apply Forall2_fmap, Forall_Forall2_diag, Forall_forall. intros i _.
  rewrite Hstart. unfold timedelta_hours.
  rewrite <- !Z.mul_add_distr_r, !dt_hour_on_hour, !dt_minute_on_hour.
  split; [|done].
  by rewrite Z.add_mod_idemp_l.
Qed.

Lemma resample_small (sorted_times : list datetime) :
  len sorted_times <= 500 -> resample sorted_times = sorted_times.
Proof. intros H. unfold resample. by rewrite (proj2 (Z.ltb_ge _ _) H). Qed.

Lemma dt_date_add_days (t : datetime) (d : Z) :
  dt_date (t + timedelta_days d) = dt_date t + d.
Proof. unfold dt_date, timedelta_days. by rewrite Z.div_add. Qed.

(** C3 (amended). For every non-empty input series charted with a 10-day
    trailing window, the column sequence is the one of the layout rule
    over the 241 hourly points of the window; it starts with a data column
    and contains exactly 10 separator columns, the last bucket lying ten
    calendar days after the first. *)
Theorem ten_day_window_separators (ts : time_series) (chart_type : string) :
  ts <> [] ->
  exists st lay first final,
    charted_series ts 10 = Some st /\
    build_layout st (length (map (total_of chart_type) (map (breakdown_at ts) st)))
    = Ok lay /\
    chart_columns lay = columns_by_rule st /\
    separator_count (chart_columns lay) = 10%nat /\
    head (chart_columns lay) = Some (Data 0) /\
    length st = 241%nat /\
    head st = Some first /\
    last st = Some final /\
    dt_date final = dt_date first + 10.
Proof.
  intros Hne.
  destruct (sorted_nonempty (dict_keys ts)) as [last_time Hlast].
  { destruct ts; [done|discriminate]. }
  pose proof (window_axis_length last_time 10) as Hlen.
  assert (Hcs : charted_series ts 10 = Some (window_axis last_time 10)).
  { unfold charted_series. rewrite Hlast, Hlen. simpl.
    rewrite resample_small by (rewrite Hlen; lia). done. }
  destruct (build_layout_columns (window_axis last_time 10)) as (lay & Hrun & Hcols).
  set (start := replace_minute_second_microsecond_0 (last_time - timedelta_days 10)).
  exists (window_axis last_time 10), lay, start, (start + timedelta_days 10).
  split; [done|].
  split; [by rewrite !length_map|].
  split; [done|].
  split; [rewrite Hcols; apply ten_day_axis_separators|].
  assert (Hn : length (window_axis last_time 10) = 241%nat) by (unfold len in Hlen; lia).
  split.
  { rewrite Hcols. apply columns_by_rule_head. intros H. by rewrite H in Hn. }
  split; [done|].
  split.
  { rewrite head_lookup, window_axis_lookup by lia.
    f_equal. unfold timedelta_hours. simpl. lia. }
  split.
  { rewrite last_lookup, Hn. simpl. rewrite window_axis_lookup by lia. done. }
  apply dt_date_add_days.
Qed.

Lemma ten_day_window_separators_witness :
  exists st lay first final,
    charted_series sample_series 10 = Some st /\
    build_layout st (length (map (total_of "io") (map (breakdown_at sample_series) st)))
    = Ok lay /\
    chart_columns lay = columns_by_rule st /\
    separator_count (chart_columns lay) = 10%nat /\
    head (chart_columns lay) = Some (Data 0) /\
    length st = 241%nat /\
    head st = Some first /\
    last st = Some final /\
    dt_date final = dt_date first + 10.
Proof.
  apply (ten_day_window_separators sample_series "io"). discriminate.
Defined.

(** C3, counterexample.  A 10-day window over the sample series gives 10
    separator columns, not 9. *)
Lemma ten_day_window_not_nine_separators :
  exists st lay,
    charted_series sample_series 10 = Some st /\
    build_layout st (length st) = Ok lay /\
    separator_count (chart_columns lay) = 10%nat /\
    separator_count (chart_columns lay) <> 9%nat.
Proof.
  eexists _, _. split; [reflexivity|]. split; [by vm_compute|].
  vm_compute. split; [reflexivity|discriminate].
Qed.

(** *** Grid cells *)

Lemma cell_visible_length (chart_type : string) (row : Z) (sb : Breakdown) :
  length (visible (cell chart_type row sb))
  = if decide (cell chart_type row sb = CACHE_READ_CELL_ALL) then 2%nat else 1%nat.
Proof.
  unfold cell. case_eqb; repeat case_match; try reflexivity; discriminate.
Qed.

(** In the two-category charts every cell shows one character. *)
Lemma cell_visible_one_io_cache (chart_type : string) (row : Z) (sb : Breakdown) :
  chart_type = "io"%string \/ chart_type = "cache"%string ->
  length (visible (cell chart_type row sb)) = 1%nat.
Proof.
  intros [-> | ->]; unfold cell; simpl; repeat case_match; reflexivity.
Qed.

(** C2. In the chart of all four categories the cell of a row inside the
    cache-read band is the two characters FULL BLOCK, LIGHT SHADE: on the
    sample series, height 10, row 5 of the column of data point 19 shows
    two glyph characters, not one. *)
Theorem all_chart_cache_read_cell_two_glyphs :
  let sorted_times := window_axis sample_time 1 in
  let breakdown_data := map (breakdown_at sample_series) sorted_times in
  scale_range (map (total_of "all") breakdown_data) = (0, 100) /\
  exists scaled lay,
    scaled_breakdown_of 0 100 10 breakdown_data = Ok scaled /\
    build_layout sorted_times (length sorted_times) = Ok lay /\
    chart_columns lay !! 20%nat = Some (Data 19) /\
    scaled !! 19%nat = Some (mkBreakdown 3 2 0 1) /\
    column_cell "all" 5 scaled (Data 19) = Ok [FULL_BLOCK; LIGHT_SHADE] /\
    length (visible [FULL_BLOCK; LIGHT_SHADE]) = 2%nat /\
    column_cell "cache" 0 scaled (Data 19) = Ok [FULL_BLOCK].
Proof.
  split; [reflexivity|].
  eexists _, _. split; [by vm_compute|]. split; [by vm_compute|].
  repeat split; reflexivity.
Qed.

(** *** Failure and completion *)

(** Without a charted series the renderer prints one message and
    returns. *)
Lemma print_stacked_bar_chart_early_return
    (ts : time_series) (height days_back : Z) (chart_type : string) (show_x_axis : bool) :
  charted_series ts days_back = None ->
  exists message,
    appends (print_stacked_bar_chart ts height days_back chart_type show_x_axis)
            (Ok tt) [message].
Proof.
  unfold charted_series, print_stacked_bar_chart. intros Hcs.
  destruct ts as [|kv ts]; [by eexists|].
  destruct (last (sorted (dict_keys (kv :: ts)))) as [last_time|]; [|by eexists].
  destruct (len (window_axis last_time days_back) <? 2); [by eexists|done].
Qed.

(** With a charted series the renderer goes on to draw it. *)
Lemma print_stacked_bar_chart_charted
    (ts : time_series) (height days_back : Z) (chart_type : string) (show_x_axis : bool)
    (st : list datetime) :
  charted_series ts days_back = Some st ->
  exists last_time,
    last (sorted (dict_keys ts)) = Some last_time /\
    2 <= len (window_axis last_time days_back) /\
    st = resample (window_axis last_time days_back) /\
    print_stacked_bar_chart ts height days_back chart_type show_x_axis
    = (resample_note (window_axis last_time days_back) ;;
       render_chart ts st height chart_type show_x_axis)%io.
Proof.
  unfold charted_series, print_stacked_bar_chart. intros Hcs.
  destruct ts as [|kv ts]; [done|].
  destruct (last (sorted (dict_keys (kv :: ts)))) as [last_time|]; [|done].
  exists last_time.
  destruct (Z.ltb_spec (len (window_axis last_time days_back)) 2); [done|].
  injection Hcs as <-. done.
Qed.

(** The renderer returns early exactly on an empty mapping or an axis of
    fewer than two points. *)
Lemma charted_series_None (ts : time_series) (days_back : Z) :
  charted_series ts days_back = None <->
  ts = [] \/
  exists last_time,
    last (sorted (dict_keys ts)) = Some last_time /\
    len (resample (window_axis last_time days_back)) < 2.
Proof.
  unfold charted_series. split.
  - destruct ts as [|kv ts]; [by left|]. intros H. right.
    destruct (sorted_nonempty (dict_keys (kv :: ts))) as [last_time Hlast]; [done|].
    rewrite Hlast in H. exists last_time. split; [done|].
    destruct (Z.ltb_spec (len (window_axis last_time days_back)) 2); [|done].
    rewrite resample_small by lia. done.
  - intros [-> | (last_time & -> & Hlen)]; [done|].
    destruct (Z.ltb_spec (len (window_axis last_time days_back)) 2) as [|Hge]; [done|].
    exfalso.
    destruct (Z.le_gt_cases (len (window_axis last_time days_back)) 500) as [Hs|Hb].
    + rewrite resample_small in Hlen by done. lia.
    + rewrite resample_length in Hlen by lia.
      unfold resample_step in Hlen.
      set (n := len (window_axis last_time days_back)) in *.
      assert (1 <= n / 500) by (apply Z.div_le_lower_bound; lia).
      replace (Z.max 1 (n / 500)) with (n / 500) in Hlen by lia.
      assert (n / 500 * 500 <= n) by (pose proof (Z.mul_div_le n 500); lia).
      assert (2 <= (n + n / 500 - 1) / (n / 500)); [|lia].
      apply Z.div_le_lower_bound; lia.
Qed.

(** C6. With chart height 1 the renderer raises [ZeroDivisionError] on the
    sample series, which has data and a 25-point axis: the Y-axis value of
    row 0 divides by [chart_height - 1]. *)
Theorem height_one_raises :
  (exists st, charted_series sample_series 1 = Some st /\ length st = 25%nat) /\
  y_value 0 100 1 0 = Raise ZeroDivisionError /\
  (print_stacked_bar_chart sample_series 1 1 "io" true []).1
  = Raise ZeroDivisionError.
Proof.
  split; [eexists; split; reflexivity|].
  split; [reflexivity|]. by vm_compute.
Qed.

Example height_ten_completes :
  (print_stacked_bar_chart sample_series 10 1 "io" true []).1 = Ok tt.
Proof. by vm_compute. Qed.

(** *** Determinism *)

Lemma append_only_ret {A} (a : A) : append_only (io_ret a).
Proof. exists (Ok a), []. intros out. unfold io_ret. by rewrite app_nil_r. Qed.

Lemma append_only_print (s : str) : append_only (print s).
Proof. by exists (Ok tt), [s]. Qed.

Lemma append_only_lift {A} (r : result A) : append_only (lift r).
Proof. exists r, []. intros out. unfold lift. by rewrite app_nil_r. Qed.

Lemma append_only_bind {A B} (m : IO A) (k : A -> IO B) :
  append_only m -> (forall a, append_only (k a)) -> append_only (io_bind m k).
Proof.
  intros (r & lines & Hm) Hk. destruct r as [a|e].
  - destruct (Hk a) as (r' & lines' & Hk').
    exists r', (lines ++ lines'). intros out.
    unfold io_bind. rewrite Hm, Hk'. by rewrite app_assoc.
  - exists (Raise e), lines. intros out. unfold io_bind. by rewrite Hm.
Qed.

Lemma append_only_for {A} (l : list A) (body : A -> IO unit) :
  (forall x, append_only (body x)) -> append_only (io_for l body).
Proof.
  intros Hbody. induction l as [|x l IH]; simpl.
  - apply append_only_ret.
  - apply append_only_bind; [apply Hbody|]. intros _. apply IH.
Qed.

Local Ltac append_only_step :=
  first
    [ apply append_only_print
    | apply append_only_lift
    | apply append_only_ret
    | apply append_only_for; intros ?
    | apply append_only_bind; [|intros ?]
    | match goal with
      | |- append_only (if ?b then _ else _) => destruct b
      | |- append_only (let '(_, _) := ?p in _) => destruct p
      end ].

Lemma append_only_render_chart (ts : time_series) (sorted_times : list datetime)
    (height : Z) (chart_type : string) (show_x_axis : bool) :
  append_only (render_chart ts sorted_times height chart_type show_x_axis).
Proof.
  unfold render_chart, print_title, print_x_labels, print_summary.
  repeat append_only_step.
Qed.

Lemma append_only_print_stacked_bar_chart (ts : time_series) (height days_back : Z)
    (chart_type : string) (show_x_axis : bool) :
  append_only (print_stacked_bar_chart ts height days_back chart_type show_x_axis).
Proof.
  unfold print_stacked_bar_chart, resample_note.
  destruct ts as [|kv ts]; [apply append_only_print|].
  destruct (last _); [|apply append_only_print].
  destruct (_ <? 2); [apply append_only_print|].
  apply append_only_bind; [|intros _; apply append_only_render_chart].
  repeat append_only_step.
Qed.

(** A dict's lookups do not depend on its insertion order. *)
Lemma dict_lookup_Permutation {V} (d d' : list (Z * V)) (k : Z) :
  NoDup (dict_keys d) -> d ≡ₚ d' -> dict_lookup k d = dict_lookup k d'.
Proof.
  intros Hnd Hperm. induction Hperm as [|[k1 v1] d d' Hperm IH
                                        |[k1 v1] [k2 v2] d|d d' d'' H1 IH1 H2 IH2].
  - done.
  - simpl. apply NoDup_cons in Hnd as [_ Hnd]. by rewrite IH.
  - simpl. destruct (Z.eqb_spec k k2), (Z.eqb_spec k k1); try done.
    exfalso. apply NoDup_cons in Hnd as [Hnotin _]. apply Hnotin.
    simpl. subst. apply list_elem_of_here.
  - rewrite IH1 by done. apply IH2.
    unfold dict_keys in *. by rewrite <- H1.
Qed.

Lemma sorted_Permutation (l l' : list Z) : l ≡ₚ l' -> sorted l = sorted l'.
Proof.
  intros Hperm. unfold sorted.
  apply (StronglySorted_unique Z.le).
  - apply StronglySorted_merge_sort; apply _.
  - apply StronglySorted_merge_sort; apply _.
  - by rewrite !merge_sort_Permutation.
Qed.

Lemma print_stacked_bar_chart_Permutation (ts ts' : time_series)
    (height days_back : Z) (chart_type : string) (show_x_axis : bool) :
  NoDup (dict_keys ts) -> ts ≡ₚ ts' ->
  print_stacked_bar_chart ts height days_back chart_type show_x_axis
  = print_stacked_bar_chart ts' height days_back chart_type show_x_axis.
Proof.
  intros Hnd Hperm. unfold print_stacked_bar_chart.
  assert (Hkeys : sorted (dict_keys ts) = sorted (dict_keys ts')).
  { apply sorted_Permutation. unfold dict_keys. by rewrite Hperm. }
  assert (Hbd : forall st, map (breakdown_at ts) st = map (breakdown_at ts') st).
  { intros st. apply map_ext. intros t. unfold breakdown_at.
    by rewrite (dict_lookup_Permutation ts ts' t Hnd Hperm). }
  destruct ts as [|kv ts], ts' as [|kv' ts'].
  - done.
  - by apply Permutation_nil_l in Hperm.
  - by apply Permutation_nil_r in Hperm.
  - rewrite Hkeys. destruct (last _); [|done].
    destruct (_ <? 2); [done|].
    unfold render_chart. by rewrite Hbd.
Qed.

(** C9. Two invocations of the renderer on the same mapping (whatever the
    insertion order of its keys) with the same height, window, chart type
    and X-axis flag return the same result and print the same sequence of
    strings, whatever was printed before each of them. *)
Theorem render_deterministic (ts ts' : time_series) (height days_back : Z)
    (chart_type : string) (show_x_axis : bool) :
  NoDup (dict_keys ts) -> ts ≡ₚ ts' ->
  exists r lines,
    forall out out',
      print_stacked_bar_chart ts height days_back chart_type show_x_axis out
      = (r, out ++ lines) /\
      print_stacked_bar_chart ts' height days_back chart_type show_x_axis out'
      = (r, out' ++ lines).
Proof.
  intros Hnd Hperm.
  destruct (append_only_print_stacked_bar_chart ts height days_back chart_type
              show_x_axis) as (r & lines & Happ).
  exists r, lines. intros out out'.
  rewrite <- (print_stacked_bar_chart_Permutation ts ts') by done.
  by rewrite !Happ.
Qed.

Lemma render_deterministic_witness :
  exists r lines,
    forall out out',
      print_stacked_bar_chart sample_series 10 1 "all" true out = (r, out ++ lines) /\
      print_stacked_bar_chart (reverse sample_series) 10 1 "all" true out'
      = (r, out' ++ lines).
Proof.
  apply (render_deterministic sample_series (reverse sample_series) 10 1 "all" true).
  - vm_compute. apply NoDup_cons. split.
    + intros H. apply list_elem_of_singleton in H. discriminate.
    + apply NoDup_singleton.
  - apply perm_swap.
Defined.


(** *** Rounding error of binary64 *)

Section Rounding.
Local Open Scope Q_scope.

Lemma Qpow2_pos (e : Z) : 0 < 2 ^ e.
Proof. by apply Qpower_0_lt. Qed.

Lemma Qpow2_succ (e : Z) : 2 ^ (e + 1) == 2 * 2 ^ e.
Proof. rewrite Qpower_plus by done. rewrite Qpower_1_r. ring. Qed.

Lemma Qpow2_Z (a : Z) : (0 <= a)%Z -> 2 ^ a == inject_Z (2 ^ a).
Proof. intros Ha. by rewrite (Zpower_Qpower 2 a Ha). Qed.

Lemma ilog2_spec (x : Q) :
  0 < x -> 2 ^ ilog2 x <= x /\ x < 2 ^ (ilog2 x + 1).
Proof.
  intros Hx. unfold ilog2.
  destruct x as [n d]. simpl Qnum. simpl Qden.
  assert (Hn : (0 < n)%Z) by (unfold Qlt in Hx; simpl in Hx; lia).
  set (a := Z.log2 n). set (b := Z.log2 (Z.pos d)).
  pose proof (Z.log2_spec n Hn) as [Ha1 Ha2]. fold a in Ha1, Ha2.
  pose proof (Z.log2_spec (Z.pos d) eq_refl) as [Hb1 Hb2]. fold b in Hb1, Hb2.
  assert (Ha0 : (0 <= a)%Z) by apply Z.log2_nonneg.
  assert (Hb0 : (0 <= b)%Z) by apply Z.log2_nonneg.
  assert (HA : 2 ^ a == inject_Z (2 ^ a)) by by apply Qpow2_Z.
  assert (HB : 2 ^ b == inject_Z (2 ^ b)) by by apply Qpow2_Z.
  assert (Hg : 2 ^ (a - b) * 2 ^ b == 2 ^ a).
  { rewrite <- Qpower_plus by done. by replace (a - b + b)%Z with a by lia. }
  pose proof (Qpow2_pos (a - b)) as Hgpos.
  pose proof (Qpow2_pos b) as Hbpos.
  assert (Hxd : (n # d) * inject_Z (Z.pos d) == inject_Z n).
  { unfold Qeq, Qmult, inject_Z. simpl. lia. }
  assert (Hn1 : inject_Z (2 ^ a) <= inject_Z n) by (rewrite <- Zle_Qle; lia).
  assert (Hn2 : inject_Z n < 2 * inject_Z (2 ^ a)).
  { rewrite <- (inject_Z_mult 2), <- Zlt_Qlt. rewrite Z.pow_succ_r in Ha2; lia. }
  assert (Hd1 : inject_Z (2 ^ b) <= inject_Z (Z.pos d)) by (rewrite <- Zle_Qle; lia).
  assert (Hd2 : inject_Z (Z.pos d) < 2 * inject_Z (2 ^ b)).
  { rewrite <- (inject_Z_mult 2), <- Zlt_Qlt. rewrite Z.pow_succ_r in Hb2; lia. }
  set (X := n # d) in *. set (P := 2 ^ (a - b)) in *.
  set (D := inject_Z (Z.pos d)) in *. set (N := inject_Z n) in *.
  rewrite HA, HB in *. set (A := inject_Z (2 ^ a)) in *. set (B := inject_Z (2 ^ b)) in *.
  assert (HBpos : 0 < B) by lra.
  assert (Hup : X < 2 * P).
  { destruct (Qlt_le_dec X (2 * P)) as [|Hc]; [done|]. exfalso. nra. }
  assert (Hlo : P < 2 * X).
  { destruct (Qlt_le_dec P (2 * X)) as [|Hc]; [done|]. exfalso. nra. }
  destruct (Qle_bool P X) eqn:Htest.
  - apply Qle_bool_iff in Htest. split; [done|]. rewrite Qpow2_succ. done.
  - assert (HltP : X < P).
    { apply Qnot_le_lt. intros Hc. apply Qle_bool_iff in Hc. congruence. }
    replace (a - b - 1 + 1)%Z with (a - b)%Z by lia. split; [|done].
    assert (Hhalf : 2 * 2 ^ (a - b - 1) == P).
    { rewrite <- Qpow2_succ. by replace (a - b - 1 + 1)%Z with (a - b)%Z by lia. }
    lra.
Qed.

Lemma round_half_even_spec (y : Q) :
  y - (1 # 2) <= inject_Z (round_half_even y) <= y + (1 # 2).
Proof.
  unfold round_half_even.
  pose proof (Qfloor_le y) as Hlo. pose proof (Qlt_floor y) as Hhi.
  rewrite inject_Z_plus in Hhi. change (inject_Z 1) with 1 in Hhi.
  destruct (y - inject_Z (Qfloor y) ?= 1 # 2) eqn:Hc.
  - apply Qeq_alt in Hc.
    destruct (Z.even (Qfloor y)); rewrite ?inject_Z_plus; change (inject_Z 1) with 1; lra.
  - apply Qlt_alt in Hc. lra.
  - apply Qgt_alt in Hc. rewrite inject_Z_plus. change (inject_Z 1) with 1. lra.
Qed.

Lemma b64_round_zero (x : Q) : Qnum x = 0%Z -> b64_round x = 0.
Proof. intros H. unfold b64_round. by rewrite H. Qed.

(** In the normal range the rounding error is at most 2^-53 relative. *)
Lemma b64_round_rel (x : Q) :
  2 ^ (-1022) <= x ->
  x * (1 - 2 ^ (-53)) <= b64_round x <= x * (1 + 2 ^ (-53)).
Proof.
  intros Hx.
  assert (Hpos : 0 < x) by (pose proof (Qpow2_pos (-1022)); lra).
  destruct (ilog2_spec x Hpos) as [Hl1 Hl2].
  assert (Hl : (-1022 <= ilog2 x)%Z).
  { assert (2 ^ (-1022) < 2 ^ (ilog2 x + 1)) as H by lra.
    apply Qpower_lt_compat_l_inv in H; [lia|reflexivity]. }
  unfold b64_round.
  destruct x as [n d].
  assert (Hn : (0 < n)%Z) by (unfold Qlt in Hpos; simpl in Hpos; lia).
  destruct n as [|p|p]; [lia| |lia].
  simpl Qnum. cbv iota.
  change (Qabs (Z.pos p # d)) with (Z.pos p # d).
  set (x := Z.pos p # d) in *.
  replace (Z.max (ilog2 x - 52) (-1074)) with (ilog2 x - 52)%Z by lia.
  rewrite Qred_correct.
  set (l := ilog2 x) in *.
  pose proof (Qpow2_pos (l - 52)) as HE.
  assert (HEP : 2 ^ (l - 52) * 2 ^ 53 == 2 * 2 ^ l).
  { rewrite <- Qpower_plus by done. replace (l - 52 + 53)%Z with (l + 1)%Z by lia.
    apply Qpow2_succ. }
  pose proof (round_half_even_spec (x / 2 ^ (l - 52))) as [Hm1 Hm2].
  assert (Hy : x / 2 ^ (l - 52) * 2 ^ (l - 52) == x).
  { field. pose proof (Qpow2_pos (l - 52)). lra. }
  assert (Hu : 2 ^ (-53) * 2 ^ 53 == 1) by reflexivity.
  set (E := 2 ^ (l - 52)) in *. set (P := 2 ^ l) in *.
  set (y := x / E) in *. set (m := inject_Z (round_half_even y)) in *.
  set (u := 2 ^ (-53)) in *. set (K := 2 ^ 53) in *.
  assert (HK : 0 < K) by reflexivity.
  assert (Hupos : 0 < u) by reflexivity.
  assert (HmE1 : (y - (1 # 2)) * E <= m * E) by (apply Qmult_le_compat_r; lra).
  assert (HmE2 : m * E <= (y + (1 # 2)) * E) by (apply Qmult_le_compat_r; lra).
  assert (HEu : E <= 2 * x * u).
  { assert (Hxu : 2 * x * u * K == 2 * x) by (rewrite <- Qmult_assoc, Hu; ring).
    assert (HEK : E * K <= 2 * x * u * K) by lra.
    by apply Qmult_le_r in HEK. }
  split; nra.
Qed.

Lemma b64_overflow_false (r : Q) : 0 <= r -> r < 2 ^ 1024 -> b64_overflow r = false.
Proof.
  intros H0 H. unfold b64_overflow.
  destruct (Qle_bool (2 ^ 1024) (Qabs r)) eqn:Ht; [|done].
  apply Qle_bool_iff in Ht. rewrite Qabs_pos in Ht by done. lra.
Qed.

(** A value in the normal range, far from overflow, rounds to a double
    within relative error 2^-53. *)
Lemma b64_normal (x : Q) :
  2 ^ (-1022) <= x -> x <= 2 ^ 1000 ->
  exists r, b64 x = Ok r /\
            x * (1 - 2 ^ (-53)) <= r <= x * (1 + 2 ^ (-53)).
Proof.
  intros Hlo Hhi. destruct (b64_round_rel x Hlo) as [H1 H2].
  exists (b64_round x). split; [|done].
  unfold b64. rewrite b64_overflow_false; [done| |].
  - assert (0 < 2 ^ (-1022)) by reflexivity.
    assert (0 < 1 - 2 ^ (-53)) by reflexivity. nra.
  - assert (1 + 2 ^ (-53) < 2) by reflexivity.
    assert (2 * 2 ^ 1000 < 2 ^ 1024) by reflexivity.
    assert (0 < 2 ^ (-1022)) by reflexivity. nra.
Qed.

Lemma b64_zero (x : Q) : Qnum x = 0%Z -> b64 x = Ok 0.
Proof. intros H. unfold b64. by rewrite b64_round_zero. Qed.

End Rounding.

Section Scaling.
Local Open Scope Q_scope.

Lemma int_of_float_nonneg (p : Q) :
  0 <= p -> (0 <= int_of_float p)%Z /\ inject_Z (int_of_float p) <= p.
Proof.
  intros Hp. destruct p as [n d]. unfold int_of_float. simpl.
  assert (Hn : (0 <= n)%Z) by (unfold Qle in Hp; simpl in Hp; lia).
  rewrite Z.quot_div_nonneg by lia. split.
  - apply Z.div_pos; lia.
  - apply (Qfloor_le (n # d)).
Qed.

Lemma inject_Z_le_0 (z : Z) : (0 <= z)%Z -> 0 <= inject_Z z.
Proof. intros H. change 0 with (inject_Z 0). by rewrite <- Zle_Qle. Qed.

Lemma inject_Z_lt_0 (z : Z) : (0 < z)%Z -> 0 < inject_Z z.
Proof. intros H. change 0 with (inject_Z 0). by rewrite <- Zlt_Qlt. Qed.

Lemma inject_Z_le_1 (z : Z) : (1 <= z)%Z -> 1 <= inject_Z z.
Proof. intros H. change 1 with (inject_Z 1). by rewrite <- Zle_Qle. Qed.

Lemma inject_Z_lt_pow2 (z k : Z) : (0 <= k)%Z -> (z < 2 ^ k)%Z -> inject_Z z < 2 ^ k.
Proof. intros Hk H. rewrite Qpow2_Z by done. by rewrite <- Zlt_Qlt. Qed.

Lemma inject_Z_le_pow2 (z k : Z) : (0 <= k)%Z -> (z <= 2 ^ k)%Z -> inject_Z z <= 2 ^ k.
Proof. intros Hk H. rewrite Qpow2_Z by done. by rewrite <- Zle_Qle. Qed.

Lemma Qnum_div_0 (b : Q) : Qnum (inject_Z 0 / b) = 0%Z.
Proof. reflexivity. Qed.

Lemma Qnum_mul_0_l (a b : Q) : Qnum a = 0%Z -> Qnum (a * b) = 0%Z.
Proof. intros H. simpl. rewrite H. done. Qed.

Lemma Qnum_mul_0_r (a b : Q) : Qnum b = 0%Z -> Qnum (a * b) = 0%Z.
Proof. intros H. simpl. rewrite H. lia. Qed.

(** One scaled height: it is computed without an exception, is not
    negative and exceeds the exact [v / (max - min) * (H - 1)] by at most
    three rounding errors. *)
Lemma scale_component_bound (v min_value max_value chart_height : Z) :
  (0 <= v < 2 ^ 63)%Z ->
  (0 < max_value - min_value < 2 ^ 66)%Z ->
  (1 <= chart_height <= 2 ^ 31)%Z ->
  exists z,
    scale_component v min_value max_value chart_height = Ok z /\
    (0 <= z)%Z /\
    inject_Z z <= inject_Z v / inject_Z (max_value - min_value)
                  * inject_Z (chart_height - 1)
                  * rounding_slack.
Proof.
  intros Hv HD HH. unfold scale_component, int_truediv, rounding_slack.
  rewrite Z.sub_0_r.
  set (D := (max_value - min_value)%Z) in *.
  set (h := (chart_height - 1)%Z).
  destruct (Z.eqb_spec D 0) as [|_]; [lia|].
  assert (HDq : 0 < inject_Z D) by (apply inject_Z_lt_0; lia).
  assert (HDq2 : inject_Z D < 2 ^ 66) by (apply inject_Z_lt_pow2; lia).
  assert (Hhq : 0 <= inject_Z h) by (apply inject_Z_le_0; lia).
  assert (Hhq2 : inject_Z h <= 2 ^ 31) by (apply inject_Z_le_pow2; lia).
  assert (Hvq0 : 0 <= inject_Z v) by (apply inject_Z_le_0; lia).
  assert (Hvq2 : inject_Z v < 2 ^ 63) by (apply inject_Z_lt_pow2; lia).
  set (u := 2 ^ (-53)).
  assert (Hu : u == 1 # 9007199254740992) by reflexivity.
  assert (Hx0 : 0 <= inject_Z v / inject_Z D).
  { apply Qle_shift_div_l; [done|]. lra. }
  destruct (Z.eq_dec v 0%Z) as [->|Hv0].
  { (* a zero counter *)
    rewrite b64_zero by apply Qnum_div_0. cbn [rbind].
    assert (exists hf, float_of_int h = Ok hf) as [hf ->].
    { unfold float_of_int. destruct (Z.eq_dec h 0%Z) as [->|Hh0].
      - eexists. by apply b64_zero.
      - destruct (b64_normal (inject_Z h)) as (r & Hr & _); [| |by exists r].
        + assert (1 <= inject_Z h) by (apply inject_Z_le_1; lia).
          assert (2 ^ (-1022) <= 1) by done. lra.
        + assert (2 ^ 31 <= 2 ^ 1000) by done. lra. }
    cbn [rbind]. unfold float_mul. rewrite b64_zero by done. cbn [rbind].
    exists 0%Z. split; [done|]. split; [done|].
    change (inject_Z 0) with 0 at 1.
    apply Qmult_le_0_compat; [by apply Qmult_le_0_compat|done]. }
  assert (Hv1 : 1 <= inject_Z v) by (apply inject_Z_le_1; lia).
  (* the quotient *)
  assert (Hxlo : 2 ^ (-66) <= inject_Z v / inject_Z D).
  { apply Qle_shift_div_l; [done|].
    assert (2 ^ (-66) * 2 ^ 66 == 1) by reflexivity. nra. }
  assert (Hxhi : inject_Z v / inject_Z D <= 2 ^ 63).
  { apply Qle_shift_div_r; [done|].
    assert (1 <= inject_Z D) by (apply inject_Z_le_1; lia).
    assert (0 < 2 ^ 63) by reflexivity. nra. }
  set (x := inject_Z v / inject_Z D) in *.
  destruct (b64_normal x) as (q & -> & Hq1 & Hq2).
  { assert (2 ^ (-1022) <= 2 ^ (-66)) by done. lra. }
  { assert (2 ^ 63 <= 2 ^ 1000) by done. lra. }
  fold u in Hq1, Hq2. cbn [rbind].
  destruct (Z.eq_dec h 0%Z) as [Hh0|Hh0].
  { (* height one: everything is scaled by zero *)
    rewrite Hh0. unfold float_of_int. rewrite b64_zero by done. cbn [rbind].
    unfold float_mul. rewrite b64_zero by (by apply Qnum_mul_0_r). cbn [rbind].
    exists 0%Z. split; [done|]. split; [done|].
    change (inject_Z 0) with 0 at 1.
    apply Qmult_le_0_compat; [by apply Qmult_le_0_compat|done]. }
  assert (Hh1 : 1 <= inject_Z h) by (apply inject_Z_le_1; lia).
  unfold float_of_int.
  destruct (b64_normal (inject_Z h)) as (hf & -> & Hf1 & Hf2).
  { assert (2 ^ (-1022) <= 1) by done. lra. }
  { assert (2 ^ 31 <= 2 ^ 1000) by done. lra. }
  fold u in Hf1, Hf2. cbn [rbind].
  assert (Hq0 : 2 ^ (-67) <= q).
  { assert (2 ^ (-67) == 2 ^ (-66) * (1 # 2)) by reflexivity. nra. }
  assert (Hqhi : q <= 2 ^ 64).
  { assert (2 ^ 64 == 2 ^ 63 * 2) by reflexivity. nra. }
  assert (Hf0 : 1 # 2 <= hf) by nra.
  assert (Hfhi : hf <= 2 ^ 32).
  { assert (2 ^ 32 == 2 ^ 31 * 2) by reflexivity. nra. }
  assert (Hqpos : 0 < 2 ^ (-67)) by reflexivity.
  unfold float_mul.
  destruct (b64_normal (q * hf)) as (p & -> & Hp1 & Hp2).
  { assert (2 ^ (-1022) <= 2 ^ (-67) * (1 # 2)) by done. nra. }
  { assert (2 ^ 64 * 2 ^ 32 <= 2 ^ 1000) by done.
    assert (0 < 2 ^ 64) by reflexivity. nra. }
  fold u in Hp1, Hp2. cbn [rbind].
  assert (Hp0 : 0 <= p) by nra.
  destruct (int_of_float_nonneg p Hp0) as [Hz0 Hz].
  exists (int_of_float p). split; [done|]. split; [done|].
  assert (Hqh : q * hf <= x * inject_Z h * ((1 + u) * (1 + u))).
  { assert (q * hf <= x * (1 + u) * (inject_Z h * (1 + u))); [|lra].
    apply Qmult_le_compat_nonneg; split; lra. }
  assert (Hfin : q * hf * (1 + u) <= x * inject_Z h * ((1 + u) * (1 + u)) * (1 + u)).
  { apply Qmult_le_compat_r; lra. }
  lra.
Qed.

End Scaling.

(** *** Stacking *)

Lemma band_at_split (sb : Breakdown) (cats : list category) (base row : Z)
    (c : category) :
  (exists below above,
      cats = below ++ c :: above /\
      base + Zsum (map (height_of sb) below) <= row
      < base + Zsum (map (height_of sb) below) + height_of sb c)
  <-> band_at sb cats base row c.
Proof.
  revert base. induction cats as [|c' rest IH]; intros base; simpl.
  - split; [|done]. intros (below & above & Heq & _). by destruct below.
  - rewrite <- IH. split.
    + intros (below & above & Heq & Hrow). destruct below as [|c'' below].
      * injection Heq as <- <-. left. simpl in Hrow. split; [done|lia].
      * injection Heq as <- ->. right. exists below, above.
        split; [done|]. simpl in Hrow. lia.
    + intros [[-> Hrow]|(below & above & -> & Hrow)].
      * exists [], rest. split; [done|]. simpl. lia.
      * exists (c' :: below), above. split; [done|]. simpl. lia.
Qed.

Lemma in_band_Some (chart_type : string) (sb : Breakdown) (row : Z) (c : category) :
  in_band chart_type sb row (Some c)
  <-> band_at sb (active_categories chart_type) 0 row c.
Proof.
  rewrite <- band_at_split. unfold in_band.
  split; intros (below & above & Heq & Hrow); exists below, above; (split; [done|lia]).
Qed.

Local Ltac unfold_band Hio Hc :=
  rewrite ?in_band_Some;
  unfold in_band, active_height_sum, active_categories;
  rewrite ?Hio, ?Hc; simpl.

Local Ltac unfold_band_in H Hio Hc :=
  rewrite ?in_band_Some in H;
  unfold in_band, active_height_sum, active_categories in H;
  rewrite ?Hio, ?Hc in H; simpl in H.

Local Ltac band_candidate b Hio Hc :=
  exists b;
  assert (forall A B C : Prop, B -> (B -> A) -> (B -> C) -> A /\ B /\ C) as Hsplit
    by tauto;
  apply Hsplit; clear Hsplit;
  [ unfold band_cell; rewrite ?Hc; reflexivity
  | intros _; unfold_band Hio Hc; intuition (first [lia | congruence])
  | intros _;
    let Hb := fresh "Hb" in
    intros [[]|] Hb; try reflexivity; exfalso;
    unfold_band_in Hb Hio Hc; intuition (first [lia | congruence]) ].

(** Each row of a column with non-negative scaled heights is in exactly
    one band (or blank), and the grid appends the cell of that band. *)
Lemma cell_exactly_one_band (chart_type : string) (sb : Breakdown) (row : Z) :
  nonneg_breakdown sb -> 0 <= row ->
  exists b,
    in_band chart_type sb row b /\
    cell chart_type row sb = band_cell chart_type b /\
    forall b', in_band chart_type sb row b' -> b' = b.
Proof.
  intros (Hi & Ho & Hcc & Hcr) Hrow.
  unfold cell.
  destruct (String.eqb chart_type "io") eqn:Hio;
    [|destruct (String.eqb chart_type "cache") eqn:Hc];
    repeat match goal with
           | |- context [Z.ltb ?a ?b] => destruct (Z.ltb_spec a b)
           end;
    first [ band_candidate (Some CatInput) Hio Hc
          | band_candidate (Some CatOutput) Hio Hc
          | band_candidate (Some CatCacheCreation) Hio Hc
          | band_candidate (Some CatCacheRead) Hio Hc
          | band_candidate (@None category) Hio Hc ].
Qed.

Lemma foldl_max_ge (l : list Z) (x : Z) :
  x <= foldl Z.max x l /\ forall y, y ∈ l -> y <= foldl Z.max x l.
Proof.
  revert x. induction l as [|a l IH]; intros x; simpl.
  - split; [lia|]. intros y Hy. by apply elem_of_nil in Hy.
  - destruct (IH (Z.max x a)) as [H1 H2]. split; [lia|].
    intros y Hy. apply elem_of_cons in Hy as [->|Hy]; [lia|by apply H2].
Qed.

Lemma foldl_max_le (l : list Z) (x bound : Z) :
  x <= bound -> Forall (fun y => y <= bound) l -> foldl Z.max x l <= bound.
Proof.
  revert x. induction l as [|a l IH]; intros x Hx Hl; simpl; [done|].
  apply Forall_cons in Hl as [Ha Hl]. apply IH; [lia|done].
Qed.

Lemma round_to_5_multiple_up_le (value : Z) :
  round_to_5_multiple value true <= value + 5000000000.
Proof.
  unfold round_to_5_multiple.
  repeat case_match; match goal with
  | |- (?v + ?u - 1) / ?u * ?u <= _ =>
      pose proof (Z.mul_div_le (v + u - 1) u); lia
  end.
Qed.

Lemma scale_range_ordered (totals : list Z) :
  (scale_range totals).1 < (scale_range totals).2.
Proof.
  pose proof (round_to_5_multiple_down_le (min_or 0 totals)).
  pose proof (round_to_5_multiple_up_ge (max_or 1 totals)).
  pose proof (min_or_le_max_or totals).
  unfold scale_range.
  set (lo := round_to_5_multiple (min_or 0 totals) false) in *.
  set (hi := round_to_5_multiple (max_or 1 totals) true) in *.
  destruct (Z.eqb_spec hi lo); cbn [fst snd]; lia.
Qed.

Lemma scale_range_max_ge (totals : list Z) (x : Z) :
  x ∈ totals -> x <= (scale_range totals).2.
Proof.
  intros Hx.
  assert (x <= max_or 1 totals) as Hmax.
  { destruct totals as [|a l]; [by apply elem_of_nil in Hx|]. simpl.
    destruct (foldl_max_ge l a) as [H1 H2].
    apply elem_of_cons in Hx as [->|Hx]; [done|by apply H2]. }
  pose proof (round_to_5_multiple_up_ge (max_or 1 totals)).
  unfold scale_range.
  set (lo := round_to_5_multiple (min_or 0 totals) false) in *.
  set (hi := round_to_5_multiple (max_or 1 totals) true) in *.
  destruct (Z.eqb_spec hi lo); cbn [fst snd]; lia.
Qed.

Lemma scale_range_max_le (totals : list Z) (bound : Z) :
  1 <= bound -> Forall (fun y => y <= bound) totals ->
  (scale_range totals).2 <= Z.max (bound + 5000000000) ((scale_range totals).1 + 5000).
Proof.
  intros Hb Hl.
  assert (max_or 1 totals <= bound) as Hmax.
  { destruct totals as [|a l]; simpl; [done|].
    apply Forall_cons in Hl as [Ha Hl]. by apply foldl_max_le. }
  pose proof (round_to_5_multiple_up_le (max_or 1 totals)).
  unfold scale_range.
  set (lo := round_to_5_multiple (min_or 0 totals) false) in *.
  set (hi := round_to_5_multiple (max_or 1 totals) true) in *.
  destruct (Z.eqb_spec hi lo); cbn [fst snd]; lia.
Qed.

Lemma active_sum_total (chart_type : string) (b : Breakdown) :
  Zsum (map (height_of b) (active_categories chart_type)) = total_of chart_type b.
Proof. unfold active_categories, total_of. case_eqb; simpl; lia. Qed.

Section Stacking.
Local Open Scope Q_scope.

Lemma scale_breakdown_bound (min_value max_value chart_height : Z) (b : Breakdown) :
  counter_range b ->
  (0 < max_value - min_value < 2 ^ 66)%Z ->
  (1 <= chart_height <= 2 ^ 31)%Z ->
  exists sb,
    scale_breakdown min_value max_value chart_height b = Ok sb /\
    forall c,
      (0 <= height_of sb c)%Z /\
      inject_Z (height_of sb c)
      <= inject_Z (height_of b c) / inject_Z (max_value - min_value)
         * inject_Z (chart_height - 1) * rounding_slack.
Proof.
  intros (Hi & Ho & Hcc & Hcr) HD HH. unfold scale_breakdown.
  destruct (Z.eqb_spec max_value min_value) as [|_]; [lia|].
  destruct (scale_component_bound (input b) min_value max_value chart_height)
    as (i & -> & Hi0 & Hi1); [done..|].
  destruct (scale_component_bound (output b) min_value max_value chart_height)
    as (o & -> & Ho0 & Ho1); [done..|].
  destruct (scale_component_bound (cache_creation b) min_value max_value chart_height)
    as (cc & -> & Hcc0 & Hcc1); [done..|].
  destruct (scale_component_bound (cache_read b) min_value max_value chart_height)
    as (cr & -> & Hcr0 & Hcr1); [done..|].
  cbn [rbind]. eexists. split; [reflexivity|].
  intros []; simpl; by split.
Qed.

Lemma active_sum_bound (sb b : Breakdown) (D h : Z) (cats : list category) :
  (0 < D)%Z ->
  (forall c, inject_Z (height_of sb c)
             <= inject_Z (height_of b c) / inject_Z D * inject_Z h * rounding_slack) ->
  inject_Z (Zsum (map (height_of sb) cats))
  <= inject_Z (Zsum (map (height_of b) cats)) / inject_Z D * inject_Z h * rounding_slack.
Proof.
  intros HD Hc. assert (HDq : 0 < inject_Z D) by (by apply inject_Z_lt_0).
  induction cats as [|c cats IH]; simpl.
  - change (inject_Z 0) with 0. unfold Qdiv. rewrite !Qmult_0_l. apply Qle_refl.
  - rewrite !inject_Z_plus. specialize (Hc c).
    setoid_replace ((inject_Z (height_of b c)
                     + inject_Z (Zsum (map (height_of b) cats)))
                    / inject_Z D * inject_Z h * rounding_slack)
      with (inject_Z (height_of b c) / inject_Z D * inject_Z h * rounding_slack
            + inject_Z (Zsum (map (height_of b) cats)) / inject_Z D * inject_Z h * rounding_slack)
      using relation Qeq.
    + lra.
    + field. lra.
Qed.

Lemma sum_within_height (S T D h : Z) :
  (0 <= T <= D)%Z -> (0 < D)%Z -> (0 <= h < 2 ^ 31)%Z ->
  inject_Z S <= inject_Z T / inject_Z D * inject_Z h * rounding_slack ->
  (S <= h)%Z.
Proof.
  intros HT HD Hh HS.
  assert (HDq : 0 < inject_Z D) by (by apply inject_Z_lt_0).
  assert (HTq : 0 <= inject_Z T) by (apply inject_Z_le_0; lia).
  assert (HTD : inject_Z T <= inject_Z D) by (rewrite <- Zle_Qle; lia).
  assert (Hhq : 0 <= inject_Z h) by (apply inject_Z_le_0; lia).
  assert (Hhq2 : inject_Z h <= 2 ^ 31) by (apply inject_Z_le_pow2; lia).
  assert (Ht0 : 0 <= inject_Z T / inject_Z D) by (apply Qle_shift_div_l; lra).
  assert (Ht1 : inject_Z T / inject_Z D <= 1) by (apply Qle_shift_div_r; lra).
  set (t := inject_Z T / inject_Z D) in *.
  assert (Hc1 : 1 <= rounding_slack) by done.
  assert (Hc2 : rounding_slack <= 1 + (1 # 2251799813685248)) by done.
  set (c := rounding_slack) in *. clearbody c.
  assert (Hp : 2 ^ 31 == 2147483648) by reflexivity.
  assert (Hth : t * inject_Z h <= inject_Z h) by nra.
  assert (Hth0 : 0 <= t * inject_Z h) by (by apply Qmult_le_0_compat).
  assert (inject_Z S < inject_Z (h + 1)); [|rewrite <- Zlt_Qlt in *; lia].
  rewrite inject_Z_plus. change (inject_Z 1) with 1.
  set (y := t * inject_Z h) in *. nra.
Qed.

End Stacking.

Lemma foldl_min_ge (l : list Z) (x bound : Z) :
  bound <= x -> Forall (fun y => bound <= y) l -> bound <= foldl Z.min x l.
Proof.
  revert x. induction l as [|a l IH]; intros x Hx Hl; simpl; [done|].
  apply Forall_cons in Hl as [Ha Hl]. apply IH; [lia|done].
Qed.

Lemma round_to_5_multiple_down_nonneg (value : Z) :
  0 <= value -> 0 <= round_to_5_multiple value false.
Proof.
  intros Hv. unfold round_to_5_multiple.
  repeat case_match; match goal with
  | |- 0 <= ?v / ?u * ?u => assert (0 <= v / u) by (apply Z.div_pos; lia); lia
  end.
Qed.

(** The scale range of totals between 0 and [bound]. *)
Lemma scale_range_bounds (totals : list Z) (bound : Z) :
  1 <= bound -> Forall (fun t => 0 <= t <= bound) totals ->
  0 <= (scale_range totals).1 < (scale_range totals).2 /\
  (scale_range totals).2 <= bound + 5000000000.
Proof.
  intros Hb Hall.
  assert (Hmax : max_or 1 totals <= bound).
  { destruct totals as [|a l]; simpl; [done|].
    apply Forall_cons in Hall as [Ha Hl]. apply foldl_max_le; [lia|].
    eapply Forall_impl; [exact Hl|]. simpl. lia. }
  assert (Hmin : 0 <= min_or 0 totals).
  { destruct totals as [|a l]; simpl; [done|].
    apply Forall_cons in Hall as [Ha Hl]. apply foldl_min_ge; [lia|].
    eapply Forall_impl; [exact Hl|]. simpl. lia. }
  pose proof (round_to_5_multiple_down_nonneg _ Hmin).
  pose proof (round_to_5_multiple_down_le (min_or 0 totals)).
  pose proof (round_to_5_multiple_up_le (max_or 1 totals)).
  pose proof (round_to_5_multiple_up_ge (max_or 1 totals)).
  pose proof (min_or_le_max_or totals).
  unfold scale_range.
  set (lo := round_to_5_multiple (min_or 0 totals) false) in *.
  set (hi := round_to_5_multiple (max_or 1 totals) true) in *.
  destruct (Z.eqb_spec hi lo); cbn [fst snd]; lia.
Qed.

Lemma scaled_breakdown_loop (min_value max_value chart_height : Z)
    (breakdown_data acc : list Breakdown) (P : Breakdown -> Prop) :
  (forall b, b ∈ breakdown_data ->
             exists sb, scale_breakdown min_value max_value chart_height b = Ok sb /\ P sb) ->
  exists scaled,
    for_each breakdown_data acc
      (fun b acc => rbind (scale_breakdown min_value max_value chart_height b)
                      (fun sb => Ok (acc ++ [sb])))
    = Ok (acc ++ scaled) /\
    length scaled = length breakdown_data /\
    Forall P scaled.
Proof.
  revert acc. induction breakdown_data as [|b bd IH]; intros acc Hall.
  - exists []. simpl. by rewrite app_nil_r.
  - destruct (Hall b) as (sb & Hsb & HP); [apply list_elem_of_here|].
    destruct (IH (acc ++ [sb])) as (scaled & Hrun & Hlen & Hscaled).
    { intros b' Hb'. apply Hall. by apply list_elem_of_further. }
    exists (sb :: scaled). simpl. rewrite Hsb. simpl. rewrite Hrun.
    rewrite <- app_assoc. simpl. split; [done|]. split; [by rewrite Hlen|].
    by apply Forall_cons.
Qed.

(** C1 (amended). For every dense series of token counters (non-negative,
    below 2^63), every chart type and every chart height from 1 to 2^31,
    the scaled heights are computed over the scale range without an
    exception; when the scale minimum is 0 the sum of the active
    categories' scaled heights is at most [chart_height - 1] in every
    column; and for any scale range every row of a column lies in exactly
    one category band or is blank, the grid appending the cell of that
    band. *)
Theorem stack_within_height_at_zero_minimum
    (breakdown_data : list Breakdown) (chart_type : string) (chart_height : Z) :
  Forall counter_range breakdown_data ->
  1 <= chart_height <= 2 ^ 31 ->
  exists scaled,
    scaled_breakdown_of
      (scale_range (map (total_of chart_type) breakdown_data)).1
      (scale_range (map (total_of chart_type) breakdown_data)).2
      chart_height breakdown_data = Ok scaled /\
    length scaled = length breakdown_data /\
    ((scale_range (map (total_of chart_type) breakdown_data)).1 = 0 ->
     stack_fits 0 chart_type chart_height scaled) /\
    forall sb row,
      sb ∈ scaled -> 0 <= row ->
      exists b,
        in_band chart_type sb row b /\
        cell chart_type row sb = band_cell chart_type b /\
        forall b', in_band chart_type sb row b' -> b' = b.
Proof.
  intros Hrange HH.
  set (totals := map (total_of chart_type) breakdown_data) in *.
  assert (Htot : Forall (fun t => 0 <= t <= 2 ^ 65) totals).
  { subst totals. apply Forall_fmap. eapply Forall_impl; [exact Hrange|].
    intros b (Hi & Ho & Hcc & Hcr). simpl. unfold total_of. case_eqb; lia. }
  destruct (scale_range_bounds totals (2 ^ 65) ltac:(lia) Htot) as [[Hlo Hord] Hle].
  set (lo := (scale_range totals).1) in *.
  set (hi := (scale_range totals).2) in *.
  destruct (scaled_breakdown_loop lo hi chart_height breakdown_data []
              (fun sb => nonneg_breakdown sb /\
                         (lo = 0 -> active_height_sum chart_type sb <= chart_height - 1)))
    as (scaled & Hrun & Hlen & Hall).
  { intros b Hb.
    assert (Hcr : counter_range b) by (by eapply Forall_forall in Hrange).
    destruct (scale_breakdown_bound lo hi chart_height b) as (sb & Hsb & Hbound);
      [done|lia|done|].
    exists sb. split; [done|]. split.
    - repeat split; [apply (Hbound CatInput)|apply (Hbound CatOutput)
                    |apply (Hbound CatCacheCreation)|apply (Hbound CatCacheRead)].
    - intros Hzero. unfold active_height_sum.
      apply (sum_within_height _ (total_of chart_type b) (hi - lo)).
      + split.
        * destruct Hcr as (Hi & Ho & Hcc & Hcrd). unfold total_of. case_eqb; lia.
        * rewrite Hzero, Z.sub_0_r. apply scale_range_max_ge.
          subst totals. apply list_elem_of_fmap. by exists b.
      + lia.
      + lia.
      + rewrite <- active_sum_total. apply active_sum_bound; [lia|].
        intros c. apply Hbound. }
  exists scaled. split; [exact Hrun|]. split; [done|]. split.
  - intros Hzero. unfold stack_fits. eapply Forall_impl; [exact Hall|].
    intros sb [_ Hsum]. simpl. specialize (Hsum Hzero). lia.
  - intros sb row Hsb Hrow. eapply Forall_forall in Hall as [Hnn _]; [|exact Hsb].
    by apply cell_exactly_one_band.
Qed.

Lemma stack_within_height_at_zero_minimum_witness :
  exists scaled,
    scaled_breakdown_of
      (scale_range (map (total_of "io")
                      [mkBreakdown 40 30 0 20; mkBreakdown 0 0 0 0;
                       mkBreakdown 100 0 7 0])).1
      (scale_range (map (total_of "io")
                      [mkBreakdown 40 30 0 20; mkBreakdown 0 0 0 0;
                       mkBreakdown 100 0 7 0])).2
      10 [mkBreakdown 40 30 0 20; mkBreakdown 0 0 0 0; mkBreakdown 100 0 7 0]
    = Ok scaled /\
    length scaled
    = length [mkBreakdown 40 30 0 20; mkBreakdown 0 0 0 0; mkBreakdown 100 0 7 0] /\
    ((scale_range (map (total_of "io")
                     [mkBreakdown 40 30 0 20; mkBreakdown 0 0 0 0;
                      mkBreakdown 100 0 7 0])).1 = 0 ->
     stack_fits 0 "io" 10 scaled) /\
    forall sb row,
      sb ∈ scaled -> 0 <= row ->
      exists b,
        in_band "io" sb row b /\
        cell "io" row sb = band_cell "io" b /\
        forall b', in_band "io" sb row b' -> b' = b.
Proof.
  apply (stack_within_height_at_zero_minimum
           [mkBreakdown 40 30 0 20; mkBreakdown 0 0 0 0; mkBreakdown 100 0 7 0]
           "io" 10).
  - repeat (apply Forall_cons; split; [unfold counter_range; simpl; lia|]).
    apply Forall_nil. done.
  - lia.
Defined.

(** C1, counterexample.  When every hour of the window has the same
    positive total (10,000 input tokens) the scale range is
    (10000, 15000); heights are scaled from zero over the span of 5,000,
    so with chart height 10 the input band alone is 18 rows high: more
    than [chart_height - 1 = 9], even with one row of slack for each of
    the four categories. *)
Lemma stack_exceeds_height_with_positive_minimum :
  let breakdown_data := map (breakdown_at busy_series) (window_axis sample_time 1) in
  breakdown_data = replicate 25 (mkBreakdown 10000 0 0 0) /\
  counter_range (mkBreakdown 10000 0 0 0) /\
  scale_range (map (total_of "all") breakdown_data) = (10000, 15000) /\
  exists scaled,
    scaled_breakdown_of 10000 15000 10 breakdown_data = Ok scaled /\
    scaled !! 0%nat = Some (mkBreakdown 18 0 0 0) /\
    ~ stack_fits 4 "all" 10 scaled.
Proof.
  split; [by vm_compute|].
  split; [unfold counter_range; simpl; lia|].
  split; [reflexivity|].
  eexists. split; [by vm_compute|]. split; [reflexivity|].
  intros Hfit. apply Forall_cons in Hfit as [Hfit _].
  vm_compute in Hfit. by apply Hfit.
Qed.

(** *** The float model against the Standard Library's IEEE 754
    specification *)

Example int_truediv_agrees :
  result_option (int_truediv 29 100)
  = Q_of_spec_float (SFdiv 53 1024 (SFint 29) (SFint 100)) /\
  result_option (int_truediv 9960 1000)
  = Q_of_spec_float (SFdiv 53 1024 (SFint 9960) (SFint 1000)) /\
  result_option (int_truediv 1 3)
  = Q_of_spec_float (SFdiv 53 1024 (SFint 1) (SFint 3)).
Proof. repeat split; reflexivity. Qed.

Example scale_product_agrees :
  result_option (rbind (int_truediv 29 100)
                   (fun q => rbind (float_of_int 100) (float_mul q)))
  = Q_of_spec_float
      (SFmul 53 1024 (SFdiv 53 1024 (SFint 29) (SFint 100)) (SFint 100)).
Proof. reflexivity. Qed.

Example y_value_agrees :
  result_option (y_value 10000 15000 10 7)
  = Q_of_spec_float
      (SFadd 53 1024 (SFint 10000) (SFdiv 53 1024 (SFint 35000) (SFint 9))).
Proof. reflexivity. Qed.

(** Rounding decides the scaled height: 29/100*100 computed in binary64
    is just below 29. *)
Example scale_component_truncates : scale_component 29 0 100 101 = Ok 28.
Proof. reflexivity. Qed.

Example scale_component_spec_example : scale_component 100 0 100 10 = Ok 9.
Proof. reflexivity. Qed.

(** *** Completion *)

Section Completion.
Local Open Scope Q_scope.

Lemma int_truediv_ok (a b : Z) :
  (0 <= a < 2 ^ 200)%Z -> (0 < b < 2 ^ 200)%Z ->
  exists q, int_truediv a b = Ok q /\
            (a = 0%Z -> q = 0) /\
            ((0 < a)%Z -> 2 ^ (-201) <= q /\ q <= 2 ^ 201) /\
            ((b <= a)%Z -> 1 # 2 <= q).
Proof.
  intros Ha Hb. unfold int_truediv.
  destruct (Z.eqb_spec b 0) as [|_]; [lia|].
  destruct (Z.eq_dec a 0%Z) as [->|Ha0].
  { rewrite b64_zero by apply Qnum_div_0. eexists. split; [done|].
    split; [done|]. split; intros; lia. }
  assert (Haq : 1 <= inject_Z a) by (apply inject_Z_le_1; lia).
  assert (Haq2 : inject_Z a < 2 ^ 200) by (apply inject_Z_lt_pow2; lia).
  assert (Hbq : 1 <= inject_Z b) by (apply inject_Z_le_1; lia).
  assert (Hbq2 : inject_Z b < 2 ^ 200) by (apply inject_Z_lt_pow2; lia).
  assert (Hp : 0 < 2 ^ 200) by reflexivity.
  assert (Hxlo : 2 ^ (-200) <= inject_Z a / inject_Z b).
  { apply Qle_shift_div_l; [lra|].
    assert (2 ^ (-200) * 2 ^ 200 == 1) by reflexivity. nra. }
  assert (Hxhi : inject_Z a / inject_Z b <= 2 ^ 200).
  { apply Qle_shift_div_r; [lra|]. nra. }
  set (x := inject_Z a / inject_Z b) in *.
  destruct (b64_normal x) as (q & -> & Hq1 & Hq2).
  { assert (2 ^ (-1022) <= 2 ^ (-200)) by done. lra. }
  { assert (2 ^ 200 <= 2 ^ 1000) by done. lra. }
  exists q. split; [done|]. split; [intros; lia|].
  assert (Hu : 2 ^ (-53) == 1 # 9007199254740992) by reflexivity.
  rewrite Hu in Hq1, Hq2.
  assert (H201 : 2 ^ (-201) == 2 ^ (-200) * (1 # 2)) by reflexivity.
  assert (H201' : 2 ^ 201 == 2 ^ 200 * 2) by reflexivity.
  assert (Hm : 0 < 2 ^ (-200)) by reflexivity.
  split; [intros _; split; nra|].
  intros Hba.
  assert (1 <= x); [|nra].
  apply Qle_shift_div_l; [lra|]. rewrite Qmult_1_l. rewrite <- Zle_Qle. lia.
Qed.

Lemma float_of_int_ok (z : Z) :
  (0 <= z < 2 ^ 200)%Z ->
  exists f, float_of_int z = Ok f /\
            (z = 0%Z -> f = 0) /\
            ((0 < z)%Z -> 1 # 2 <= f /\ f <= 2 ^ 201).
Proof.
  intros Hz. unfold float_of_int.
  destruct (Z.eq_dec z 0%Z) as [->|Hz0].
  { rewrite b64_zero by done. eexists. split; [done|]. split; [done|]. intros; lia. }
  assert (Hzq : 1 <= inject_Z z) by (apply inject_Z_le_1; lia).
  assert (Hzq2 : inject_Z z < 2 ^ 200) by (apply inject_Z_lt_pow2; lia).
  destruct (b64_normal (inject_Z z)) as (f & -> & Hf1 & Hf2).
  { assert (2 ^ (-1022) <= 1) by done. lra. }
  { assert (2 ^ 200 <= 2 ^ 1000) by done. lra. }
  exists f. split; [done|]. split; [intros; lia|]. intros _.
  assert (Hu : 2 ^ (-53) == 1 # 9007199254740992) by reflexivity.
  rewrite Hu in Hf1, Hf2.
  assert (H201' : 2 ^ 201 == 2 ^ 200 * 2) by reflexivity.
  split; nra.
Qed.

(** The Y-axis value of a row is computed without an exception when the
    chart is at least two rows high. *)
Lemma y_value_ok (min_value max_value chart_height row : Z) :
  (0 <= min_value < max_value)%Z -> (max_value < 2 ^ 100)%Z ->
  (2 <= chart_height <= 2 ^ 31)%Z -> (0 <= row < chart_height)%Z ->
  exists y, y_value min_value max_value chart_height row = Ok y /\ y <= 2 ^ 300.
Proof.
  intros Hmin Hmax HH Hrow. unfold y_value.
  destruct (int_truediv_ok ((max_value - min_value) * row) (chart_height - 1))
    as (q & -> & Hq0 & Hq1 & _).
  { split; [nia|].
    apply Z.lt_le_trans with (2 ^ 100 * 2 ^ 31)%Z; [nia|]. done. }
  { split; [lia|]. apply Z.lt_le_trans with (2 ^ 31)%Z; [lia|done]. }
  destruct (float_of_int_ok min_value) as (m & -> & Hm0 & Hm1).
  { split; [lia|]. apply Z.lt_le_trans with (2 ^ 100)%Z; [lia|done]. }
  cbn [rbind]. unfold float_add.
  assert (Hbig : 2 ^ 201 + 2 ^ 201 <= 2 ^ 1000) by done.
  assert (Hsmall : 2 ^ (-1022) <= 2 ^ (-201)) by done.
  assert (Hhalf : 2 ^ (-1022) <= 1 # 2) by done.
  assert (Hpos201 : 0 < 2 ^ (-201)) by reflexivity.
  assert (H300 : 2 * (2 ^ 201 + 2 ^ 201) <= 2 ^ 300) by done.
  assert (Hu : 2 ^ (-53) == 1 # 9007199254740992) by reflexivity.
  destruct (Z.eq_dec min_value 0%Z) as [Hz|Hnz],
           (Z.eq_dec ((max_value - min_value) * row)%Z 0%Z) as [Hr|Hr].
  - rewrite (Hm0 Hz), (Hq0 Hr), b64_zero by done. eexists. split; [done|]. done.
  - rewrite (Hm0 Hz). destruct Hq1 as [Hq1 Hq2]; [nia|].
    destruct (b64_normal (0 + q)) as (y & -> & Hy1 & Hy2); [lra|lra|].
    exists y. split; [done|]. rewrite Hu in Hy2. nra.
  - rewrite (Hq0 Hr). destruct Hm1 as [Hm1 Hm2]; [lia|].
    destruct (b64_normal (m + 0)) as (y & -> & Hy1 & Hy2); [lra|lra|].
    exists y. split; [done|]. rewrite Hu in Hy2. nra.
  - destruct Hq1 as [Hq1 Hq2]; [nia|]. destruct Hm1 as [Hm1 Hm2]; [lia|].
    destruct (b64_normal (m + q)) as (y & -> & Hy1 & Hy2); [lra|lra|].
    exists y. split; [done|]. rewrite Hu in Hy2. nra.
Qed.

Lemma float_of_int_1000000 : float_of_int 1000000 = Ok (inject_Z 1000000).
Proof. reflexivity. Qed.

Lemma float_of_int_1000 : float_of_int 1000 = Ok (inject_Z 1000).
Proof. reflexivity. Qed.

Lemma float_div_const_ok (y : Q) (d : Z) :
  (1 <= d <= 2 ^ 30)%Z -> inject_Z d <= y -> y <= 2 ^ 300 ->
  exists r, float_div y (inject_Z d) = Ok r.
Proof.
  intros Hd Hy Hy2. unfold float_div.
  assert (Hdq : 1 <= inject_Z d) by (apply inject_Z_le_1; lia).
  destruct (Qeq_bool (inject_Z d) 0) eqn:He.
  { apply Qeq_bool_iff in He. lra. }
  destruct (b64_normal (y / inject_Z d)) as (r & Hr & _).
  - assert (1 <= y / inject_Z d); [apply Qle_shift_div_l; lra|].
    assert (2 ^ (-1022) <= 1) by done. lra.
  - apply Qle_shift_div_r; [lra|].
    assert (2 ^ 300 <= 2 ^ 1000) by done.
    assert (0 < 2 ^ 1000) by reflexivity. nra.
  - by exists r.
Qed.

(** The axis formatter returns for every float up to 2^300. *)
Lemma format_y_axis_value_ok (y : Q) :
  y <= 2 ^ 300 -> exists s, format_y_axis_value (Float y) = Ok s.
Proof.
  intros Hy. unfold format_y_axis_value, num_ge, num_truediv.
  destruct (Qle_bool (inject_Z 1000000) y) eqn:Hm.
  - apply Qle_bool_iff in Hm. rewrite float_of_int_1000000. cbn [rbind].
    destruct (float_div_const_ok y 1000000) as (r & ->); [lia|done|done|].
    cbn [rbind]. repeat case_match; by eexists.
  - destruct (Qle_bool (inject_Z 1000) y) eqn:Hk; [|by eexists].
    apply Qle_bool_iff in Hk. rewrite float_of_int_1000. cbn [rbind].
    destruct (float_div_const_ok y 1000) as (r & ->); [lia|done|done|].
    cbn [rbind]. repeat case_match; by eexists.
Qed.

(** The totals formatter returns for every int below 2^200. *)
Lemma format_total_value_ok (total : Z) :
  (total < 2 ^ 200)%Z -> exists s, format_total_value (Int total) = Ok s.
Proof.
  intros Ht. unfold format_total_value, num_ge, num_truediv.
  repeat match goal with
         | |- context [Z.leb ?a ?b] => destruct (Z.leb_spec a b)
         end;
    try (by eexists);
    match goal with
    | |- context [int_truediv total ?d] =>
        destruct (int_truediv_ok total d) as (q & -> & _); [lia|done|]
    end;
    cbn [rbind]; repeat case_match; by eexists.
Qed.

End Completion.

Lemma completes_ret : completes (io_ret tt).
Proof. exists []. intros out. unfold io_ret. by rewrite app_nil_r. Qed.

Lemma completes_print (s : str) : completes (print s).
Proof. by exists [s]. Qed.

Lemma completes_seq (m : IO unit) (k : unit -> IO unit) :
  completes m -> completes (k tt) -> completes (io_bind m k).
Proof.
  intros [l1 H1] [l2 H2]. exists (l1 ++ l2). intros out.
  unfold io_bind. rewrite H1, H2. by rewrite app_assoc.
Qed.

Lemma completes_lift {A} (r : result A) (a : A) (k : A -> IO unit) :
  r = Ok a -> completes (k a) -> completes (io_bind (lift r) k).
Proof.
  intros -> [l H]. exists l. intros out. unfold io_bind, lift. apply H.
Qed.

Lemma completes_for {A} (l : list A) (body : A -> IO unit) :
  (forall x, x ∈ l -> completes (body x)) -> completes (io_for l body).
Proof.
  induction l as [|x l IH]; intros Hbody; simpl.
  - apply completes_ret.
  - apply completes_seq.
    + apply Hbody, list_elem_of_here.
    + apply IH. intros y Hy. by apply Hbody, list_elem_of_further.
Qed.

Lemma str_index_elem (c : char) (s : str) :
  c ∈ s -> exists i, str_index c s = Ok i.
Proof.
  induction s as [|d s IH]; intros Hc; [by apply elem_of_nil in Hc|]. simpl.
  destruct (N.eqb_spec c d) as [|Hne]; [by eexists|].
  apply elem_of_cons in Hc as [|Hc]; [done|].
  destruct (IH Hc) as [i ->]. by eexists.
Qed.

Lemma rbind_Ok {A B} (a : A) (k : A -> result B) : rbind (Ok a) k = k a.
Proof. reflexivity. Qed.

Lemma header_step_ok (d : day_total) (s : header_state) :
  d.1.2 < 2 ^ 200 -> exists s', header_step d s = Ok s'.
Proof.
  destruct d as [[mid_col total] day_start]. intros Htotal. simpl in Htotal.
  unfold header_step.
  destruct (format_total_value_ok total Htotal) as [total_str ->]. rewrite rbind_Ok.
  pose proof (Z.mod_pos_bound (day_start / US_PER_DAY) 7 eq_refl) as Hwd.
  destruct (list_index_lt weekday_abbr (Z.to_nat (dt_weekday day_start)))
    as (weekday & _ & ->).
  { unfold dt_weekday. simpl. lia. }
  rewrite rbind_Ok. cbv zeta.
  destruct (str_index_elem COLON (weekday ++ py " : " ++ total_str)) as [ci ->].
  { apply elem_of_app. right. apply elem_of_app. left.
    apply list_elem_of_further, list_elem_of_here. }
  rewrite rbind_Ok.
  destruct (str_index_elem SLASH (strftime_m_d day_start)) as [si ->].
  { unfold strftime_m_d. apply elem_of_app. right. apply elem_of_app. right.
    apply elem_of_app. left. apply list_elem_of_further, list_elem_of_here. }
  rewrite rbind_Ok. repeat case_match; by eexists.
Qed.

Lemma header_lines_ok (dts : list day_total) :
  Forall (fun d => d.1.2 < 2 ^ 200) dts -> exists hdr, header_lines dts = Ok hdr.
Proof.
  unfold header_lines. generalize (mkHeader (str_mul SPACE 7) (str_mul SPACE 7) 0).
  induction dts as [|d dts IH]; intros s Hall; simpl; [by eexists|].
  apply Forall_cons in Hall as [Hd Hall].
  destruct (header_step_ok d s Hd) as [s' ->]. simpl. by apply IH.
Qed.

Lemma good_columns_data_lt (n : nat) (cols : list column) (i : nat) :
  good_columns n cols -> Data i ∈ cols -> (i < n)%nat.
Proof.
  intros Hg. induction Hg as [i' Hi|cols i' Hg IH Hi|cols i' Hg IH Hi]; intros Hin.
  - apply list_elem_of_singleton in Hin. by injection Hin as ->.
  - apply elem_of_app in Hin as [Hin|Hin]; [by apply IH|].
    apply list_elem_of_singleton in Hin. by injection Hin as ->.
  - apply elem_of_app in Hin as [Hin|Hin]; [by apply IH|].
    apply elem_of_cons in Hin as [Hin|Hin]; [done|].
    apply list_elem_of_singleton in Hin. by injection Hin as ->.
Qed.

Lemma chart_line_ok (chart_type : string) (row : Z) (scaled : list Breakdown)
    (cols : list column) :
  (forall i, Data i ∈ cols -> (i < length scaled)%nat) ->
  exists line, chart_line chart_type row scaled cols = Ok line.
Proof.
  unfold chart_line. generalize (@nil char).
  induction cols as [|col cols IH]; intros line Hall; simpl; [by eexists|].
  assert (exists c, column_cell chart_type row scaled col = Ok c) as [c ->].
  { destruct col as [|i]; simpl; [by eexists|].
    destruct (list_index_lt scaled i) as (b & _ & ->).
    - apply Hall, list_elem_of_here.
    - by eexists. }
  simpl. apply IH. intros i Hi. by apply Hall, list_elem_of_further.
Qed.

Lemma hour_labels_lengths (sorted_times : list datetime) (d2c : gmap nat nat) :
  length (labels (hour_labels sorted_times d2c))
  = length (positions (hour_labels sorted_times d2c)).
Proof.
  unfold hour_labels.
  assert (length (labels (mkLabels [] [])) = length (positions (mkLabels [] [])))
    as Hinit by done.
  revert Hinit. generalize (mkLabels [] []). generalize (enumerate sorted_times).
  intros l. induction l as [|[i time] l IH]; intros s Hs; simpl; [done|].
  apply IH. repeat case_match; try done; simpl; rewrite !length_app, Hs; done.
Qed.

Lemma label_char_ok (lbls : list str) (col_idx char_idx : nat)
    (entries : list (nat * nat)) :
  (forall e, e ∈ entries -> (e.1 < length lbls)%nat) ->
  exists c, label_char lbls col_idx char_idx entries = Ok c.
Proof.
  induction entries as [|[label_idx pos] rest IH]; intros Hall; simpl; [by eexists|].
  assert (Hrest : forall e, e ∈ rest -> (e.1 < length lbls)%nat)
    by (intros e He; by apply Hall, list_elem_of_further).
  destruct (col_idx =? pos)%nat; [|by apply IH].
  destruct (list_index_lt lbls label_idx) as (label & _ & ->).
  { apply (Hall (label_idx, pos)), list_elem_of_here. }
  rewrite rbind_Ok.
  destruct (Nat.ltb_spec char_idx (length label)) as [Hlt|]; [|by apply IH].
  rewrite rbind_Ok.
  destruct (list_index_lt label char_idx Hlt) as (c & _ & ->). by eexists.
Qed.

Lemma enumerate_elem {A} (l : list A) (i : nat) (x : A) :
  (i, x) ∈ enumerate l -> l !! i = Some x.
Proof.
  unfold enumerate. intros H. apply elem_of_lookup_imap in H as (j & y & Heq & Hl).
  by injection Heq as -> ->.
Qed.

Lemma label_line_ok (ls : label_state) (cols : list column) (char_idx : nat) :
  length (labels ls) = length (positions ls) ->
  exists line, label_line ls cols char_idx = Ok line.
Proof.
  intros Hlen. unfold label_line. generalize (str_mul SPACE 7).
  generalize (enumerate cols). intros l.
  induction l as [|[col_idx col] l IH]; intros line; simpl; [by eexists|].
  destruct col as [|i]; simpl; [apply IH|].
  destruct (label_char_ok (labels ls) col_idx char_idx (enumerate (positions ls)))
    as [c ->]; [|simpl; apply IH].
  intros [idx pos] He. simpl. apply enumerate_elem in He.
  rewrite Hlen. by eapply lookup_lt_Some.
Qed.

(** The daily-totals loop over the columns of the layout rule: it ends
    inside a day, and the totals of the closed days and of the open one
    add up to the totals of the data points walked so far. *)
Lemma day_loop_rule (st : list datetime) (totals : list Z) (k : nat) :
  length totals = length st -> (1 <= k <= length st)%nat ->
  exists s start,
    for_each (enumerate (columns_by_rule (take k st))) (mkDayState [] None 0 0)
      (day_step st totals) = Ok s /\
    current_day_start s = Some start /\
    Zsum (map (fun d : day_total => d.1.2) (daily_totals s)) + current_day_total s
    = Zsum (take k totals) /\
    (Forall (fun t => 0 <= t) totals ->
     Forall (fun d : day_total => 0 <= d.1.2) (daily_totals s)
     /\ 0 <= current_day_total s).
Proof.
  intros Hlen [Hk1 Hk2]. induction k as [|k IH]; [lia|].
  destruct (list_index_lt st k ltac:(lia)) as (t & Ht & Hit).
  destruct (list_index_lt totals k ltac:(lia)) as (tot & Htot & Hitot).
  rewrite (take_S_r _ _ _ Ht), (take_S_r _ _ _ Htot), columns_by_rule_snoc.
  rewrite length_take_le by lia.
  assert (Hsum : Zsum (take k totals ++ [tot]) = Zsum (take k totals) + tot).
  { unfold Zsum. rewrite foldr_app. simpl.
    generalize (take k totals). intros l. induction l as [|a l IHl]; simpl; lia. }
  assert (Htot0 : Forall (fun t => 0 <= t) totals -> 0 <= tot).
  { intros Hall. eapply Forall_forall in Hall; [exact Hall|].
    by eapply list_elem_of_lookup_2. }
  destruct k as [|k'].
  { (* the first data point *)
    rewrite take_0. simpl. rewrite andb_false_r. simpl.
    rewrite Hit. simpl. rewrite Hitot. simpl.
    eexists _, _. split; [reflexivity|]. simpl. split; [done|].
    split; [rewrite take_0 in Hsum; simpl in *; lia|].
    intros Hall. split; [done|]. specialize (Htot0 Hall). lia. }
  destruct IH as (s & start & Hrun & Hstart & Hacc & Hnn); [lia|lia|].
  rewrite enumerate_app, for_each_app, Hrun, rbind_Ok.
  destruct ((dt_hour t =? 0) && (dt_minute t =? 0) && (0 <? S k')%nat).
  - simpl. rewrite Hstart. simpl. rewrite Hit. simpl. rewrite Hitot. simpl.
    eexists _, _. split; [reflexivity|]. simpl. split; [done|]. split.
    + rewrite Hsum, <- Hacc, map_app. unfold Zsum. rewrite foldr_app. simpl.
      generalize (map (fun d : day_total => d.1.2) (daily_totals s)).
      intros l. induction l as [|a l IHl]; simpl; lia.
    + intros Hall. destruct (Hnn Hall) as [Hd Hc]. specialize (Htot0 Hall).
      split; [|lia]. apply Forall_app. split; [done|].
      apply Forall_singleton. done.
  - simpl. rewrite Hstart. simpl. rewrite Hitot. simpl.
    eexists _, _. split; [reflexivity|]. simpl. split; [done|]. split.
    + rewrite Hsum. lia.
    + intros Hall. destruct (Hnn Hall) as [Hd Hc]. specialize (Htot0 Hall).
      split; [done|lia].
Qed.

Lemma Zsum_app (l1 l2 : list Z) : Zsum (l1 ++ l2) = Zsum l1 + Zsum l2.
Proof. unfold Zsum. induction l1 as [|a l1 IH]; simpl; lia. Qed.

Lemma Zsum_nonneg (l : list Z) : Forall (fun t => 0 <= t) l -> 0 <= Zsum l.
Proof. induction 1; simpl; lia. Qed.

Lemma Zsum_elem_le (l : list Z) (x : Z) :
  Forall (fun t => 0 <= t) l -> x ∈ l -> x <= Zsum l.
Proof.
  intros Hall Hx. induction Hall as [|a l Ha Hall IH]; [by apply elem_of_nil in Hx|].
  pose proof (Zsum_nonneg l Hall). simpl.
  apply elem_of_cons in Hx as [->|Hx]; [lia|]. specialize (IH Hx). lia.
Qed.

Lemma Zsum_le_bound (l : list Z) (bound : Z) :
  Forall (fun t => t <= bound) l -> Zsum l <= Z.of_nat (length l) * bound.
Proof. induction 1; simpl length; simpl Zsum; lia. Qed.

(** The day totals account for every data point once: over the columns of
    the layout rule the daily totals add up to the sum of all totals. *)
Lemma daily_totals_rule (st : list datetime) (totals : list Z) :
  st <> [] -> length totals = length st ->
  exists dts,
    daily_totals_of st totals (columns_by_rule st) = Ok dts /\
    Zsum (map (fun d : day_total => d.1.2) dts) = Zsum totals /\
    (Forall (fun t => 0 <= t) totals ->
     Forall (fun d : day_total => 0 <= d.1.2 <= Zsum totals) dts).
Proof.
  intros Hne Hlen.
  destruct (day_loop_rule st totals (length st) Hlen) as (s & start & Hrun & Hstart & Hacc & Hnn).
  { destruct st; [done|simpl; lia]. }
  rewrite firstn_all in Hrun. rewrite <- Hlen, firstn_all in Hacc.
  unfold daily_totals_of. rewrite Hrun, rbind_Ok, Hstart.
  eexists. split; [reflexivity|].
  assert (Hsum : Zsum (map (fun d : day_total => d.1.2)
                         (daily_totals s
                          ++ [(((current_day_start_col s + length (columns_by_rule st)) / 2)%nat,
                               current_day_total s, start)]))
                 = Zsum totals).
  { rewrite map_app, Zsum_app. simpl. lia. }
  split; [exact Hsum|].
  intros Hall. destruct (Hnn Hall) as [Hd Hc].
  assert (Hall' : Forall (fun t => 0 <= t)
                    (map (fun d : day_total => d.1.2)
                       (daily_totals s
                        ++ [(((current_day_start_col s + length (columns_by_rule st)) / 2)%nat,
                             current_day_total s, start)]))).
  { apply Forall_fmap, Forall_app. split; [done|]. by apply Forall_singleton. }
  apply Forall_forall. intros d Hd'. split.
  - eapply Forall_forall in Hall'; [exact Hall'|]. apply list_elem_of_fmap. by exists d.
  - rewrite <- Hsum. apply Zsum_elem_le; [done|]. apply list_elem_of_fmap. by exists d.
Qed.

Lemma resample_length_le (sorted_times : list datetime) :
  (length (resample sorted_times) <= length sorted_times)%nat.
Proof.
  unfold resample. destruct (Z.ltb_spec 500 (len sorted_times)) as [Hbig|]; [|done].
  unfold slice_step, resample_step.
  destruct (Z.to_nat (Z.max 1 (len sorted_times / 500))) as [|k] eqn:Hk; [lia|].
  change (slice_step_from (S k) 0 sorted_times) with (slice_step (S k) sorted_times).
  rewrite slice_step_length. unfold len in Hbig.
  apply Nat.Div0.div_le_upper_bound. nia.
Qed.

Lemma resample_nonempty (sorted_times : list datetime) :
  sorted_times <> [] -> resample sorted_times <> [].
Proof.
  intros Hne Hnil.
  assert (resample sorted_times !! 0%nat = None) as H0 by (by rewrite Hnil).
  rewrite resample_lookup in H0. destruct sorted_times; [done|].
  by case_match.
Qed.

Lemma total_of_range (chart_type : string) (b : Breakdown) :
  counter_range b -> 0 <= total_of chart_type b <= 2 ^ 65.
Proof. intros (Hi & Ho & Hcc & Hcr). unfold total_of. case_eqb; lia. Qed.

Lemma completes_print_title (chart_type : string) (show_x_axis : bool) :
  completes (print_title chart_type show_x_axis).
Proof.
  unfold print_title.
  apply completes_seq; repeat case_match;
    repeat first [apply completes_print | apply completes_seq].
Qed.

Lemma render_chart_completes (ts : time_series) (sorted_times : list datetime)
    (height : Z) (chart_type : string) (show_x_axis : bool) :
  (forall t, counter_range (breakdown_at ts t)) ->
  sorted_times <> [] ->
  len sorted_times < 2 ^ 64 ->
  2 <= height <= 2 ^ 31 ->
  completes (render_chart ts sorted_times height chart_type show_x_axis).
Proof.
  intros Hts Hne Hn HH. unfold render_chart.
  set (breakdown_data := map (breakdown_at ts) sorted_times).
  set (totals := map (total_of chart_type) breakdown_data).
  assert (Hbd : Forall counter_range breakdown_data).
  { subst breakdown_data. apply Forall_fmap, Forall_forall. intros t _. apply Hts. }
  assert (Htot : Forall (fun t => 0 <= t <= 2 ^ 65) totals).
  { subst totals. apply Forall_fmap. eapply Forall_impl; [exact Hbd|].
    intros b Hb. by apply total_of_range. }
  assert (Hlen : length totals = length sorted_times).
  { subst totals breakdown_data. by rewrite !length_map. }
  destruct (scale_range_bounds totals (2 ^ 65) ltac:(lia) Htot) as [Hmm Hmax].
  destruct (scale_range totals) as [min_value max_value]. simpl in Hmm, Hmax.
  apply completes_seq; [apply completes_print_title|].
  (* scaled heights *)
  destruct (scaled_breakdown_loop min_value max_value height breakdown_data []
              (fun _ => True)) as (scaled & Hscaled & Hslen & _).
  { intros b Hb. eapply Forall_forall in Hbd; [|exact Hb].
    destruct (scale_breakdown_bound min_value max_value height b) as (sb & Hsb & _);
      [done|lia|lia|]. by exists sb. }
  apply (completes_lift _ scaled); [exact Hscaled|].
  (* layout *)
  destruct (build_layout_columns sorted_times) as (lay & Hlay & Hcols).
  rewrite Hlen. apply (completes_lift _ lay); [exact Hlay|].
  pose proof (columns_by_rule_good sorted_times Hne) as Hgood.
  rewrite <- Hcols in Hgood.
  apply completes_seq; [apply completes_print|].
  (* day totals and header *)
  destruct (daily_totals_rule sorted_times totals Hne Hlen) as (dts & Hdts & _ & Hdbound).
  rewrite <- Hcols in Hdts.
  apply (completes_lift _ dts); [exact Hdts|].
  destruct (header_lines_ok dts) as (hdr & Hhdr).
  { assert (Hnn : Forall (fun t => 0 <= t) totals)
      by (eapply Forall_impl; [exact Htot|]; simpl; lia).
    assert (Hle : Forall (fun t => t <= 2 ^ 65) totals)
      by (eapply Forall_impl; [exact Htot|]; simpl; lia).
    pose proof (Zsum_le_bound totals _ Hle) as Hsum. rewrite Hlen in Hsum.
    eapply Forall_impl; [exact (Hdbound Hnn)|]. intros d [_ Hd]. simpl in *.
    unfold len in Hn.
    apply Z.le_lt_trans with (2 ^ 64 * 2 ^ 65); [nia|done]. }
  apply (completes_lift _ hdr); [exact Hhdr|].
  apply completes_seq; [apply completes_print|].
  apply completes_seq; [apply completes_print|].
  (* rows *)
  apply completes_seq.
  { apply completes_for. intros row Hrow.
    unfold rows_top_down in Hrow. apply elem_of_reverse, elem_of_seqZ in Hrow.
    unfold chart_row.
    destruct (y_value_ok min_value max_value height row) as (y & Hy & Hybound);
      [lia|lia|lia|lia|].
    destruct (format_y_axis_value_ok y Hybound) as (y_label & Hlabel).
    destruct (chart_line_ok chart_type row scaled (chart_columns lay)) as (line & Hline).
    { intros i Hi. rewrite Hslen. subst breakdown_data. rewrite length_map.
      by eapply good_columns_data_lt. }
    rewrite Hy, rbind_Ok, Hlabel, rbind_Ok, Hline, rbind_Ok.
    eapply completes_lift; [reflexivity|]. apply completes_print. }
  apply completes_seq; [apply completes_print|].
  apply completes_seq.
  { destruct show_x_axis; [|apply completes_ret].
    unfold print_x_labels. apply completes_seq; [apply completes_print|].
    apply completes_for. intros char_idx _.
    destruct (label_line_ok (hour_labels sorted_times (data_to_col lay))
                (chart_columns lay) char_idx) as (line & Hline).
    { apply hour_labels_lengths. }
    apply (completes_lift _ line); [exact Hline|]. apply completes_print. }
  destruct show_x_axis; [|apply completes_ret].
  unfold print_summary. apply completes_seq; [apply completes_print|].
  destruct sorted_times as [|t0 rest] eqn:Hst; [done|].
  eapply completes_lift; [reflexivity|].
  destruct (last (t0 :: rest)) as [final|] eqn:Hlast.
  - eapply completes_lift; [reflexivity|].
    apply completes_seq; apply completes_print.
  - by apply last_None in Hlast.
Qed.

Lemma completes_resample_note (sorted_times : list datetime) :
  len sorted_times < 2 ^ 64 -> completes (resample_note sorted_times).
Proof.
  intros Hn. unfold resample_note.
  destruct (Z.ltb_spec 500 (len sorted_times)) as [Hbig|]; [|apply completes_ret].
  destruct (int_truediv_ok (len sorted_times) 500) as (q & Hq & _).
  { split; [lia|]. apply Z.lt_le_trans with (2 ^ 64); [lia|done]. }
  { done. }
  apply (completes_lift _ q); [exact Hq|]. apply completes_print.
Qed.

(** X1. For every mapping whose counters are token counts (non-negative,
    below 2^63), every chart height from 2 to 2^31, every window whose date
    arithmetic stays in the range of [datetime], every chart type and
    X-axis flag, the renderer returns without raising an exception. *)
Theorem print_stacked_bar_chart_completes (ts : time_series) (height days_back : Z)
    (chart_type : string) (show_x_axis : bool) :
  (forall t, counter_range (breakdown_at ts t)) ->
  2 <= height <= 2 ^ 31 ->
  (forall last_time, last (sorted (dict_keys ts)) = Some last_time ->
                     window_in_range last_time days_back) ->
  completes (print_stacked_bar_chart ts height days_back chart_type show_x_axis).
Proof.
  intros Hts HH Hwin. unfold print_stacked_bar_chart.
  destruct ts as [|kv ts']; [apply completes_print|].
  destruct (last (sorted (dict_keys (kv :: ts')))) as [last_time|];
    [|apply completes_print].
  destruct (Hwin last_time eq_refl) as (_ & Hd & _ & _).
  pose proof (window_axis_length last_time days_back) as Hlen.
  destruct (Z.ltb_spec (len (window_axis last_time days_back)) 2) as [|Hge];
    [apply completes_print|].
  assert (Hn : len (window_axis last_time days_back) < 2 ^ 64).
  { rewrite Hlen. apply Z.lt_le_trans with (24 * 2 ^ 50 + 1); [lia|done]. }
  apply completes_seq; [by apply completes_resample_note|].
  apply render_chart_completes; [done| | |done].
  - apply resample_nonempty. intros Hnil. rewrite Hnil in Hge. unfold len in Hge. simpl in Hge. lia.
  - pose proof (resample_length_le (window_axis last_time days_back)).
    unfold len in *. lia.
Qed.

Lemma print_stacked_bar_chart_completes_witness :
  completes (print_stacked_bar_chart sample_series 10 1 "all" true).
Proof.
  apply (print_stacked_bar_chart_completes sample_series 10 1 "all" true).
  - intros t. unfold breakdown_at, sample_series. cbn [dict_lookup].
    destruct (t =? sample_time);
      [|destruct (t =? sample_time - 5 * US_PER_HOUR)];
      vm_compute; repeat split; congruence.
  - lia.
  - intros last_time Hlast. vm_compute in Hlast. injection Hlast as <-.
    vm_compute. repeat split; congruence.
Defined.

(** X2. With data in the mapping and a window whose date arithmetic stays
    in the range of [datetime], the chart is drawn exactly when the window
    is at least one day: for [days_back <= 0] the renderer prints only
    "Not enough data points for chart." and returns, and for
    [days_back >= 1] it goes on to render a series of at least 25
    buckets. *)
Theorem chart_drawn_iff_window_positive (ts : time_series) (height days_back : Z)
    (chart_type : string) (show_x_axis : bool) (last_time : datetime) :
  last (sorted (dict_keys ts)) = Some last_time ->
  window_in_range last_time days_back ->
  (days_back <= 0 ->
   charted_series ts days_back = None /\
   appends (print_stacked_bar_chart ts height days_back chart_type show_x_axis)
           (Ok tt) [py "Not enough data points for chart."]) /\
  (1 <= days_back ->
   25 <= len (window_axis last_time days_back) /\
   charted_series ts days_back = Some (resample (window_axis last_time days_back)) /\
   print_stacked_bar_chart ts height days_back chart_type show_x_axis
   = (resample_note (window_axis last_time days_back) ;;
      render_chart ts (resample (window_axis last_time days_back))
        height chart_type show_x_axis)%io).
Proof.
  intros Hlast _.
  pose proof (window_axis_length last_time days_back) as Hlen.
  unfold charted_series, print_stacked_bar_chart. rewrite Hlast.
  destruct ts as [|kv ts']; [done|].
  split; intros Hd.
  - destruct (Z.ltb_spec (len (window_axis last_time days_back)) 2); [|lia].
    split; [done|]. intros out. done.
  - destruct (Z.ltb_spec (len (window_axis last_time days_back)) 2); [lia|].
    split; [lia|]. done.
Qed.

Lemma chart_drawn_iff_window_positive_witness :
  (charted_series sample_series 0 = None /\
   appends (print_stacked_bar_chart sample_series 10 0 "io" false)
           (Ok tt) [py "Not enough data points for chart."]) /\
  (25 <= len (window_axis sample_time 1) /\
   charted_series sample_series 1 = Some (resample (window_axis sample_time 1)) /\
   print_stacked_bar_chart sample_series 10 1 "io" false
   = (resample_note (window_axis sample_time 1) ;;
      render_chart sample_series (resample (window_axis sample_time 1))
        10 "io" false)%io).
Proof.
  split.
  - apply (chart_drawn_iff_window_positive sample_series 10 0 "io" false sample_time);
      [by vm_compute|vm_compute; repeat split; congruence|lia].
  - apply (chart_drawn_iff_window_positive sample_series 10 1 "io" false sample_time);
      [by vm_compute|vm_compute; repeat split; congruence|lia].
Defined.

(** *** Further properties of the series normalisation *)

(** X3. For a window of [days_back >= 0] days the dense axis has exactly
    [24 * days_back + 1] buckets: bucket [i] lies [i] hours after the
    window start (the latest timestamp minus the window, rounded down to
    the hour), every bucket is on the hour, and the last one is the latest
    timestamp rounded down to the hour. *)
Theorem window_axis_dense (last_time : datetime) (days_back : Z) :
  0 <= days_back ->
  let start := replace_minute_second_microsecond_0
                 (last_time - timedelta_days days_back) in
  len (window_axis last_time days_back) = 24 * days_back + 1 /\
  (forall i t, window_axis last_time days_back !! i = Some t ->
               t = start + timedelta_hours (Z.of_nat i) /\
               t mod US_PER_HOUR = 0) /\
  head (window_axis last_time days_back) = Some start /\
  last (window_axis last_time days_back)
  = Some (replace_minute_second_microsecond_0 last_time).
Proof.
  intros Hd start.
  pose proof (window_axis_length last_time days_back) as Hlen.
  split; [lia|]. split; [|split].
  - intros i t Hi.
    assert (Z.of_nat i < 24 * days_back + 1) as Hlt.
    { apply lookup_lt_Some in Hi. unfold len, datetime in Hlen. lia. }
    rewrite window_axis_lookup in Hi by done. injection Hi as <-.
    split; [done|]. subst start.
    unfold replace_minute_second_microsecond_0, timedelta_hours.
    set (x := last_time - timedelta_days days_back).
    replace (x - x mod US_PER_HOUR + Z.of_nat i * US_PER_HOUR)
      with ((x / US_PER_HOUR + Z.of_nat i) * US_PER_HOUR).
    + by apply Z.mod_mul.
    + pose proof (Z.div_mod x US_PER_HOUR ltac:(done)). lia.
  - rewrite head_lookup, window_axis_lookup by lia.
    f_equal. unfold timedelta_hours. simpl. lia.
  - rewrite last_lookup.
    replace (Init.Nat.pred (length (window_axis last_time days_back)))
      with (Z.to_nat (24 * days_back)) by (unfold len in Hlen; lia).
    rewrite window_axis_lookup by lia. f_equal.
    rewrite Z2Nat.id by lia. apply window_axis_end.
Qed.

Lemma window_axis_dense_witness :
  let start := replace_minute_second_microsecond_0 (sample_time - timedelta_days 2) in
  len (window_axis sample_time 2) = 24 * 2 + 1 /\
  (forall i t, window_axis sample_time 2 !! i = Some t ->
               t = start + timedelta_hours (Z.of_nat i) /\
               t mod US_PER_HOUR = 0) /\
  head (window_axis sample_time 2) = Some start /\
  last (window_axis sample_time 2)
  = Some (replace_minute_second_microsecond_0 sample_time).
Proof. apply (window_axis_dense sample_time 2). lia. Defined.

(** X4. An axis of more than 500 points is resampled to between 500 and
    999 points: point [j] of the result is point [j * stride] of the axis
    with [stride = len // 500], so the selection starts at index 0 and
    keeps the order. *)
Theorem resample_stride_and_length (sorted_times : list datetime) :
  500 < len sorted_times ->
  let stride := len sorted_times / 500 in
  resample_step sorted_times = stride /\
  (forall j, resample sorted_times !! j = sorted_times !! (j * Z.to_nat stride)%nat) /\
  500 <= len (resample sorted_times) <= 999.
Proof.
  intros Hn stride.
  assert (Hq : 1 <= stride) by (apply Z.div_le_lower_bound; lia).
  assert (Hstep : resample_step sorted_times = stride)
    by (unfold resample_step; fold stride; lia).
  split; [done|]. split.
  - intros j. rewrite resample_lookup, (proj2 (Z.ltb_lt _ _) Hn), Hstep. done.
  - rewrite resample_length, Hstep by done.
    set (n := len sorted_times) in *.
    pose proof (Z.mul_div_le n 500 ltac:(lia)) as Hlo.
    pose proof (Z.mul_succ_div_gt n 500 ltac:(lia)) as Hhi.
    fold stride in Hlo, Hhi. split.
    + apply Z.div_le_lower_bound; lia.
    + apply Z.lt_succ_r, Z.div_lt_upper_bound; [lia|]. nia.
Qed.

Lemma resample_stride_and_length_witness :
  let stride := len (window_axis sample_time 50) / 500 in
  resample_step (window_axis sample_time 50) = stride /\
  (forall j, resample (window_axis sample_time 50) !! j
             = window_axis sample_time 50 !! (j * Z.to_nat stride)%nat) /\
  500 <= len (resample (window_axis sample_time 50)) <= 999.
Proof.
  apply (resample_stride_and_length (window_axis sample_time 50)).
  rewrite window_axis_length. lia.
Defined.

(** *** Further properties of the scale range *)

Lemma foldl_min_le (l : list Z) (x : Z) :
  foldl Z.min x l <= x /\ forall y, y ∈ l -> foldl Z.min x l <= y.
Proof.
  revert x. induction l as [|a l IH]; intros x; simpl.
  - split; [lia|]. intros y Hy. by apply elem_of_nil in Hy.
  - destruct (IH (Z.min x a)) as [H1 H2]. split; [lia|].
    intros y Hy. apply elem_of_cons in Hy as [->|Hy]; [lia|by apply H2].
Qed.

Lemma round_to_5_multiple_divide (value : Z) (round_up : bool) :
  (5 | round_to_5_multiple value round_up).
Proof.
  unfold round_to_5_multiple.
  repeat case_match;
    match goal with
    | |- (5 | ?q * 5000000000) => exists (q * 1000000000)
    | |- (5 | ?q * 5000000) => exists (q * 1000000)
    | |- (5 | ?q * 5000) => exists (q * 1000)
    | |- (5 | ?q * 5) => exists q
    end; lia.
Qed.

(** X5. Every total lies within the scale range, and both ends of the range
    are multiples of 5. *)
Theorem scale_range_contains_totals (totals : list Z) :
  (forall x, x ∈ totals -> (scale_range totals).1 <= x <= (scale_range totals).2) /\
  (5 | (scale_range totals).1) /\
  (5 | (scale_range totals).2).
Proof.
  split; [|split].
  - intros x Hx. split; [|by apply scale_range_max_ge].
    assert (min_or 0 totals <= x) as Hmin.
    { destruct totals as [|a l]; [by apply elem_of_nil in Hx|]. simpl.
      destruct (foldl_min_le l a) as [H1 H2].
      apply elem_of_cons in Hx as [->|Hx]; [done|by apply H2]. }
    pose proof (round_to_5_multiple_down_le (min_or 0 totals)).
    unfold scale_range. case_match; cbn [fst]; lia.
  - unfold scale_range. case_match; cbn [fst]; apply round_to_5_multiple_divide.
  - pose proof (round_to_5_multiple_divide (min_or 0 totals) false) as [k Hk].
    unfold scale_range. case_match; cbn [snd].
    + rewrite Hk. exists (k + 1000). lia.
    + apply round_to_5_multiple_divide.
Qed.

(** X6. [round_to_5_multiple] rounds within the unit of the value's
    magnitude: the unit is 5,000,000,000 from 5,000,000,000 on, 5,000,000
    from 5,000,000 on, 5,000 from 5,000 on and 5 below; rounding up gives
    the least multiple of that unit at or above the value, rounding down
    the greatest one at or below it, and a multiple of the unit is left
    unchanged. *)
Theorem round_to_5_multiple_within_unit (value : Z) :
  exists unit,
    (5000000000 <= value -> unit = 5000000000) /\
    (5000000 <= value < 5000000000 -> unit = 5000000) /\
    (5000 <= value < 5000000 -> unit = 5000) /\
    (value < 5000 -> unit = 5) /\
    (unit | round_to_5_multiple value true) /\
    (unit | round_to_5_multiple value false) /\
    value <= round_to_5_multiple value true < value + unit /\
    value - unit < round_to_5_multiple value false <= value /\
    ((unit | value) ->
     round_to_5_multiple value true = value /\
     round_to_5_multiple value false = value).
Proof.
  unfold round_to_5_multiple.
  repeat case_match;
    match goal with
    | |- context [value / ?u * ?u] =>
        exists u;
        pose proof (Z.div_mod value u ltac:(lia));
        pose proof (Z.mod_pos_bound value u ltac:(lia));
        pose proof (Z.div_mod (value + u - 1) u ltac:(lia));
        pose proof (Z.mod_pos_bound (value + u - 1) u ltac:(lia))
    end;
    (split; [lia|]);
    (split; [lia|]);
    (split; [lia|]);
    (split; [lia|]);
    (split; [eexists; reflexivity|]);
    (split; [eexists; reflexivity|]);
    (split; [lia|]);
    (split; [lia|]);
    intros [k ->];
    (split;
     [ match goal with
       | |- (?a + ?u - 1) / ?u * ?u = _ =>
           replace (a + u - 1) with (u - 1 + k * u) by lia;
           rewrite Z.div_add by lia; rewrite Z.div_small by lia; lia
       end
     | rewrite Z.div_mul by lia; reflexivity ]).
Qed.

(** *** Further properties of the column layout *)

Lemma build_layout_index (st : list datetime) (n : nat) :
  (n <= length st)%nat ->
  exists lay,
    build_layout st n = Ok lay /\
    next_col_idx lay = length (chart_columns lay) /\
    (length (chart_columns lay) <= 2 * n)%nat /\
    (forall i, (i < n)%nat ->
               exists c, data_to_col lay !! i = Some c /\
                         chart_columns lay !! c = Some (Data i) /\ (i <= c)%nat) /\
    (forall i, (n <= i)%nat -> data_to_col lay !! i = None).
Proof.
  unfold build_layout. induction n as [|n IH]; intros Hn.
  - eexists. split; [reflexivity|]. simpl. split; [done|]. split; [done|].
    split; [intros; lia|]. intros. apply lookup_empty.
  - destruct IH as (lay & Hrun & Hidx & Hlen & Hsome & Hnone); [lia|].
    rewrite seq_S, for_each_app, Hrun, rbind_Ok. simpl.
    destruct (list_index_lt st n) as (t & _ & Ht); [lia|].
    unfold layout_step. rewrite Ht, rbind_Ok.
    eexists. split; [reflexivity|].
    destruct ((dt_hour t =? 0) && (dt_minute t =? 0) && (0 <? n)%nat) eqn:Hsep;
      simpl; rewrite ?length_app, ?Hidx; simpl.
    + split; [lia|]. split; [lia|]. split.
      * intros i Hi. destruct (decide (i = n)) as [->|Hne].
        -- exists (length (chart_columns lay) + 1)%nat.
           rewrite lookup_insert_eq. split; [done|]. split.
           ++ rewrite lookup_app_r; rewrite length_app; simpl; [|lia].
              by replace (length (chart_columns lay) + 1
                          - (length (chart_columns lay) + 1))%nat with 0%nat by lia.
           ++ assert (forall j, (j < n)%nat -> (j < length (chart_columns lay))%nat)
                as Hmono.
              { intros j Hj. destruct (Hsome j Hj) as (c & _ & Hc & Hjc).
                apply lookup_lt_Some in Hc. lia. }
              destruct n as [|n']; [lia|]. specialize (Hmono n' ltac:(lia)). lia.
        -- destruct (Hsome i ltac:(lia)) as (c & Hd & Hc & Hic).
           exists c. rewrite lookup_insert_ne by done. split; [done|]. split; [|done].
           rewrite <- app_assoc. by apply lookup_app_l_Some.
      * intros i Hi. rewrite lookup_insert_ne by lia. apply Hnone. lia.
    + split; [lia|]. split; [lia|]. split.
      * intros i Hi. destruct (decide (i = n)) as [->|Hne].
        -- exists (length (chart_columns lay)).
           rewrite lookup_insert_eq. split; [done|]. split.
           ++ rewrite lookup_app_r by lia. by rewrite Nat.sub_diag.
           ++ destruct n as [|n']; [lia|].
              destruct (Hsome n' ltac:(lia)) as (c & _ & Hc & Hjc).
              apply lookup_lt_Some in Hc. lia.
        -- destruct (Hsome i ltac:(lia)) as (c & Hd & Hc & Hic).
           exists c. rewrite lookup_insert_ne by done. split; [done|]. split; [|done].
           by apply lookup_app_l_Some.
      * intros i Hi. rewrite lookup_insert_ne by lia. apply Hnone. lia.
Qed.

Lemma build_layout_column_index (st : list datetime) (n : nat) (lay : layout) :
  (n <= length st)%nat ->
  build_layout st n = Ok lay ->
  forall c i, chart_columns lay !! c = Some (Data i) -> data_to_col lay !! i = Some c.
Proof.
  revert lay. induction n as [|n IH]; intros lay Hn.
  - intros [= <-] c i Hc. done.
  - unfold build_layout. rewrite seq_S, for_each_app.
    fold (build_layout st n).
    destruct (build_layout_index st n) as (lay0 & Hrun & Hidx & _ & Hsome & Hnone); [lia|].
    rewrite Hrun, rbind_Ok. cbn [for_each]. rewrite Nat.add_0_l.
    destruct (list_index_lt st n) as (t & _ & Ht); [lia|].
    unfold layout_step. rewrite Ht, !rbind_Ok.
    assert (Hold : forall c i, chart_columns lay0 !! c = Some (Data i) ->
                               data_to_col lay0 !! i = Some c /\ i <> n).
    { intros c i Hc. pose proof (IH lay0 ltac:(lia) Hrun c i Hc) as Hd.
      split; [done|]. intros ->. rewrite Hnone in Hd by lia. done. }
    intros [= <-] c i Hc.
    destruct ((dt_hour t =? 0) && (dt_minute t =? 0) && (0 <? n)%nat);
      cbn [chart_columns data_to_col next_col_idx] in *.
    + apply lookup_app_Some in Hc as [Hc|[Hge Hc]].
      * apply lookup_app_Some in Hc as [Hc|[Hge Hc]].
        -- destruct (Hold c i Hc) as [Hd Hne]. by rewrite lookup_insert_ne.
        -- by apply list_lookup_singleton_Some in Hc as [_ ?].
      * apply list_lookup_singleton_Some in Hc as [Hc [= <-]].
        rewrite lookup_insert_eq. f_equal. rewrite length_app in *. simpl in *. lia.
    + apply lookup_app_Some in Hc as [Hc|[Hge Hc]].
      * destruct (Hold c i Hc) as [Hd Hne]. by rewrite lookup_insert_ne.
      * apply list_lookup_singleton_Some in Hc as [Hc [= <-]].
        rewrite lookup_insert_eq. f_equal. lia.
Qed.

(** X7. The layout records where each data point is drawn: after the
    layout loop [data_to_col] maps data point [i] to column [c] exactly
    when column [c] of [chart_columns] is [('data', i)]; every data point of
    the series is in the map, at or to the right of position [i], and no
    other index is; [col_idx] ends as the number of columns, and there are
    at most twice as many columns as data points. *)
Theorem data_to_col_locates_columns (sorted_times : list datetime) :
  exists lay,
    build_layout sorted_times (length sorted_times) = Ok lay /\
    (forall i c, data_to_col lay !! i = Some c <->
                 chart_columns lay !! c = Some (Data i)) /\
    (forall i, (i < length sorted_times)%nat ->
               exists c, data_to_col lay !! i = Some c /\ (i <= c)%nat) /\
    (forall i, (length sorted_times <= i)%nat -> data_to_col lay !! i = None) /\
    next_col_idx lay = length (chart_columns lay) /\
    (length sorted_times <= length (chart_columns lay) <= 2 * length sorted_times)%nat.
Proof.
  destruct (build_layout_index sorted_times (length sorted_times))
    as (lay & Hrun & Hidx & Hlen & Hsome & Hnone); [done|].
  exists lay. split; [done|]. split; [|split; [|split; [done|split; [done|]]]].
  - intros i c. split.
    + intros Hd. destruct (decide (i < length sorted_times)%nat) as [Hi|Hi].
      * destruct (Hsome i Hi) as (c' & Hd' & Hc' & _). congruence.
      * rewrite Hnone in Hd by lia. done.
    + by apply (build_layout_column_index sorted_times (length sorted_times)).
  - intros i Hi. destruct (Hsome i Hi) as (c & Hd & _ & Hic). by exists c.
  - split; [|done].
    destruct (length sorted_times) as [|n] eqn:Hn; [lia|].
    destruct (Hsome n ltac:(lia)) as (c & _ & Hc & Hnc).
    apply lookup_lt_Some in Hc. lia.
Qed.

(** X8. The day totals of the header account for every bucket exactly once:
    for every non-empty dense series the totals of the days add up to the
    sum of all bucket totals, and with non-negative bucket totals every
    day total lies between 0 and that sum. *)
Theorem daily_totals_conserve_sum (sorted_times : list datetime) (totals : list Z) :
  sorted_times <> [] ->
  length totals = length sorted_times ->
  exists lay dts,
    build_layout sorted_times (length totals) = Ok lay /\
    daily_totals_of sorted_times totals (chart_columns lay) = Ok dts /\
    Zsum (map (fun d : day_total => d.1.2) dts) = Zsum totals /\
    (Forall (fun t => 0 <= t) totals ->
     Forall (fun d : day_total => 0 <= d.1.2 <= Zsum totals) dts).
Proof.
  intros Hne Hlen.
  destruct (build_layout_columns sorted_times) as (lay & Hrun & Hcols).
  destruct (daily_totals_rule sorted_times totals Hne Hlen) as (dts & Hdts & Hsum & Hb).
  exists lay, dts. rewrite Hlen, Hcols. done.
Qed.

Lemma daily_totals_conserve_sum_witness :
  exists lay dts,
    build_layout (window_axis sample_time 1) (length (replicate 25 7)) = Ok lay /\
    daily_totals_of (window_axis sample_time 1) (replicate 25 7) (chart_columns lay)
    = Ok dts /\
    Zsum (map (fun d : day_total => d.1.2) dts) = Zsum (replicate 25 7) /\
    (Forall (fun t => 0 <= t) (replicate 25 7) ->
     Forall (fun d : day_total => 0 <= d.1.2 <= Zsum (replicate 25 7)) dts).
Proof.
  apply (daily_totals_conserve_sum (window_axis sample_time 1) (replicate 25 7)).
  - vm_compute. discriminate.
  - vm_compute. reflexivity.
Defined.

(** *** Alignment of the printed lines *)

Lemma cell_visible_app (chart_type : string) (row : Z) (sb : Breakdown) (s : str) :
  visible (cell chart_type row sb ++ s) = visible (cell chart_type row sb) ++ visible s.
Proof.
  unfold cell. case_eqb; repeat case_match; reflexivity.
Qed.

Lemma cell_visible_not_bar (chart_type : string) (row : Z) (sb : Breakdown) :
  chart_type = "io"%string \/ chart_type = "cache"%string ->
  exists ch, visible (cell chart_type row sb) = [ch] /\ ch <> 124%N.
Proof.
  intros [-> | ->]; unfold cell; simpl; repeat case_match; by eexists.
Qed.

Lemma chart_line_visible (chart_type : string) (row : Z) (scaled : list Breakdown)
    (cols done : list column) (acc line : str) :
  (forall s, visible (acc ++ s) = visible acc ++ visible s) ->
  (length done <= length (visible acc) <= 2 * length done)%nat ->
  (chart_type = "io"%string \/ chart_type = "cache"%string ->
   Forall2 (fun col ch => col = Separator <-> ch = 124%N) done (visible acc)) ->
  for_each cols acc
    (fun col line =>
       rbind (column_cell chart_type row scaled col) (fun c => Ok (line ++ c)))
  = Ok line ->
  (length (done ++ cols) <= length (visible line) <= 2 * length (done ++ cols))%nat /\
  (chart_type = "io"%string \/ chart_type = "cache"%string ->
   Forall2 (fun col ch => col = Separator <-> ch = 124%N) (done ++ cols) (visible line)).
Proof.
  revert done acc. induction cols as [|col cols IH]; intros done acc Happ Hlen Hall; simpl.
  - intros [= <-]. by rewrite app_nil_r.
  - destruct (column_cell chart_type row scaled col) as [c|] eqn:Hc; [simpl|done].
    intros Hrun.
    assert (Hcell : (forall s, visible (c ++ s) = visible c ++ visible s) /\
                    (1 <= length (visible c) <= 2)%nat /\
                    (chart_type = "io"%string \/ chart_type = "cache"%string ->
                     exists ch, visible c = [ch] /\ (col = Separator <-> ch = 124%N))).
    { destruct col as [|i]; simpl in Hc.
      - injection Hc as <-. split; [done|]. split; [simpl; lia|].
        intros _. by exists 124%N.
      - destruct (list_index scaled i) as [b|]; [|done]. injection Hc as <-.
        split; [apply cell_visible_app|]. split.
        + rewrite cell_visible_length. case_match; lia.
        + intros Hct. destruct (cell_visible_not_bar chart_type row b Hct) as (ch & Hch & Hne).
          exists ch. split; [done|]. split; [done|]. intros ->. done. }
    destruct Hcell as (Hcapp & Hclen & Hcall).
    replace (done ++ col :: cols) with ((done ++ [col]) ++ cols) by by rewrite <- app_assoc.
    apply (IH (done ++ [col]) (acc ++ c)); [| | |done].
    + intros s. rewrite <- app_assoc, !Happ, Hcapp, app_assoc. done.
    + rewrite Happ, !length_app. simpl. lia.
    + intros Hct. rewrite Happ. apply Forall2_app; [by apply Hall|].
      destruct (Hcall Hct) as (ch & -> & Hiff). by constructor.
Qed.

(** X9. Every chart row has between one and two visible characters per
    column, and in the 'io' and 'cache' charts exactly one: there the
    visible character at a position is the bar [|] exactly when the column
    at that position is a day separator. *)
Theorem chart_line_aligned (chart_type : string) (row : Z) (scaled : list Breakdown)
    (cols : list column) (line : str) :
  chart_line chart_type row scaled cols = Ok line ->
  (length cols <= length (visible line) <= 2 * length cols)%nat /\
  (chart_type = "io"%string \/ chart_type = "cache"%string ->
   length (visible line) = length cols /\
   forall c col, cols !! c = Some col ->
                 exists ch, visible line !! c = Some ch /\
                            (col = Separator <-> ch = 124%N)).
Proof.
  intros Hrun.
  destruct (chart_line_visible chart_type row scaled cols [] [] line) as [Hlen Hall];
    [done|simpl; lia|by constructor|done|].
  simpl in Hlen, Hall. split; [done|]. intros Hct. specialize (Hall Hct).
  split; [symmetry; by eapply Forall2_length|].
  intros c col Hc.
  destruct (Forall2_lookup_l _ _ _ _ _ Hall Hc) as (ch & Hch & Hiff). by exists ch.
Qed.

Lemma chart_line_aligned_witness :
  exists line,
    chart_line "io" 0 [mkBreakdown 1 0 0 0; mkBreakdown 0 0 0 0]
               [Data 0; Separator; Data 1] = Ok line /\
    (length [Data 0; Separator; Data 1] <= length (visible line)
     <= 2 * length [Data 0; Separator; Data 1])%nat /\
    ("io"%string = "io"%string \/ "io"%string = "cache"%string ->
     length (visible line) = length [Data 0; Separator; Data 1] /\
     forall c col, [Data 0; Separator; Data 1] !! c = Some col ->
                   exists ch, visible line !! c = Some ch /\
                              (col = Separator <-> ch = 124%N)).
Proof.
  eexists. split; [reflexivity|].
  apply (chart_line_aligned "io" 0 [mkBreakdown 1 0 0 0; mkBreakdown 0 0 0 0]
           [Data 0; Separator; Data 1]).
  reflexivity.
Defined.






(** *** Header lines *)

Lemma ord2ymd_month (n0 : Z) : 1 <= (ord2ymd n0).1.2 <= 12.
Proof.
  unfold ord2ymd. cbv zeta.
  set (n := ((n0 mod 146097) mod 36524 mod 1461) mod 365).
  assert (0 <= n < 365) as Hn by (apply Z.mod_pos_bound; lia).
  destruct (_ || _); [simpl; lia|].
  set (leap := (_ =? 3) && _). clearbody leap.
  rewrite Z.shiftr_div_pow2 by lia. change (2 ^ 5) with 32.
  set (m := (n + 50) / 32).
  assert (1 <= m <= 12) as Hm.
  { subst m. split; [apply Z.div_le_lower_bound; lia|].
    apply Z.lt_succ_r, Z.div_lt_upper_bound; lia. }
  destruct (n <? _) eqn:Hlt; cbn [fst snd]; [|lia].
  destruct (Z.eq_dec m 1) as [E|]; [|lia].
  rewrite E in Hlt. simpl in Hlt. lia.
Qed.

Lemma month_two_digits (m : Z) :
  1 <= m <= 12 ->
  exists d1 d2, zfill 2 (str_of_Z m) = [d1; d2] /\ d1 <> SLASH /\ d2 <> SLASH.
Proof.
  intros Hm.
  assert (m = 1 \/ m = 2 \/ m = 3 \/ m = 4 \/ m = 5 \/ m = 6 \/ m = 7 \/ m = 8 \/
          m = 9 \/ m = 10 \/ m = 11 \/ m = 12) as Hcases by lia.
  repeat (destruct Hcases as [-> | Hcases]); try subst m;
    (eexists _, _; split; [vm_compute; reflexivity|split; discriminate]).
Qed.

Lemma strftime_m_d_slash (t : datetime) : str_index SLASH (strftime_m_d t) = Ok 4.
Proof.
  unfold strftime_m_d, dt_month.
  destruct (month_two_digits _ (ord2ymd_month (t / US_PER_DAY))) as (d1 & d2 & -> & H1 & H2).
  cbn -[N.eqb]. destruct (N.eqb_spec SLASH d1) as [E|_]; [exfalso; apply H1; by rewrite <- E|].
  destruct (N.eqb_spec SLASH d2) as [E|_]; [exfalso; apply H2; by rewrite <- E|]. done.
Qed.

Lemma weekday_total_colon (t : datetime) (total_str : str) :
  exists weekday,
    list_index weekday_abbr (Z.to_nat (dt_weekday t)) = Ok weekday /\
    length weekday = 3%nat /\
    str_index COLON (weekday ++ py " : " ++ total_str) = Ok 4.
Proof.
  pose proof (Z.mod_pos_bound (t / US_PER_DAY) 7 eq_refl) as Hwd.
  unfold dt_weekday.
  assert (exists k, Z.to_nat ((t / US_PER_DAY) mod 7) = k /\ (k < 7)%nat) as (k & -> & Hk).
  { eexists. split; [done|lia]. }
  do 7 (destruct k as [|k]; [by eexists|]). lia.
Qed.

Lemma str_mul_nonpos (c : char) (n : Z) : n <= 0 -> str_mul c n = [].
Proof. intros Hn. unfold str_mul. by replace (Z.to_nat n) with 0%nat by lia. Qed.

Lemma len_app {A} (l1 l2 : list A) : len (l1 ++ l2) = len l1 + len l2.
Proof. unfold len. rewrite length_app. lia. Qed.

Lemma len_str_mul (c : char) (n : Z) : len (str_mul c n) = Z.max 0 n.
Proof. unfold len, str_mul. rewrite length_replicate. lia. Qed.

Lemma len_ljust (width : Z) (s : str) : len (ljust width s) = Z.max width (len s).
Proof. unfold ljust. rewrite len_app, len_str_mul. unfold len. lia. Qed.

Lemma header_step_form (mid_col : nat) (total : Z) (day_start : datetime)
    (s s' : header_state) :
  header_step (mid_col, total, day_start) s = Ok s' ->
  exists weekday total_str,
    format_total_value (Int total) = Ok total_str /\
    list_index weekday_abbr (Z.to_nat (dt_weekday day_start)) = Ok weekday /\
    str_index COLON (weekday ++ py " : " ++ total_str) = Ok 4 /\
    str_index SLASH (strftime_m_d day_start) = Ok 4 /\
    let weekday_total := weekday ++ py " : " ++ total_str in
    let date_str := strftime_m_d day_start in
    let max_len := Z.max (len weekday_total) (len date_str) in
    let start_pos := Z.of_nat mid_col - 4 in
    let pad := str_mul SPACE (start_pos - prev_end s) in
    s' = mkHeader (weekday_line s ++ pad ++ ljust max_len weekday_total)
                  (date_line s ++ pad ++ ljust max_len date_str)
                  (start_pos + max_len).
Proof.
  unfold header_step.
  destruct (format_total_value (Int total)) as [total_str|]; [|done].
  rewrite rbind_Ok.
  destruct (weekday_total_colon day_start total_str) as (weekday & Hw & _ & Hcolon).
  rewrite Hw, rbind_Ok. cbv zeta. rewrite Hcolon, rbind_Ok, strftime_m_d_slash, rbind_Ok.
  change (4 <? 4) with false. cbv iota.
  intros Hs'. exists weekday, total_str. repeat (split; [done|]). cbv zeta.
  destruct (Z.ltb_spec 0 (Z.of_nat mid_col - 4 - prev_end s)) as [Hpad|Hpad].
  - injection Hs' as <-. by rewrite <- !app_assoc.
  - injection Hs' as <-. rewrite (str_mul_nonpos _ _ Hpad). done.
Qed.

(** X11. In every header entry the colon of "Www : total" and the slash of
    " MM / DD" are both at offset 4, so the re-alignment of the two
    strings never applies: an entry appends the same padding and the two
    strings, left-justified to their common length, to the two lines. *)
Theorem header_step_never_realigns (mid_col : nat) (total : Z) (day_start : datetime)
    (s s' : header_state) :
  header_step (mid_col, total, day_start) s = Ok s' ->
  exists weekday total_str,
    format_total_value (Int total) = Ok total_str /\
    list_index weekday_abbr (Z.to_nat (dt_weekday day_start)) = Ok weekday /\
    str_index COLON (weekday ++ py " : " ++ total_str) = Ok 4 /\
    str_index SLASH (strftime_m_d day_start) = Ok 4 /\
    let weekday_total := weekday ++ py " : " ++ total_str in
    let date_str := strftime_m_d day_start in
    let max_len := Z.max (len weekday_total) (len date_str) in
    let start_pos := Z.of_nat mid_col - 4 in
    let pad := str_mul SPACE (start_pos - prev_end s) in
    s' = mkHeader (weekday_line s ++ pad ++ ljust max_len weekday_total)
                  (date_line s ++ pad ++ ljust max_len date_str)
                  (start_pos + max_len).
Proof. apply header_step_form. Qed.


Lemma header_step_never_realigns_witness :
  exists s',
    header_step (12%nat, 1500, sample_time) (mkHeader (str_mul SPACE 7) (str_mul SPACE 7) 0)
    = Ok s' /\
    exists weekday total_str,
      format_total_value (Int 1500) = Ok total_str /\
      list_index weekday_abbr (Z.to_nat (dt_weekday sample_time)) = Ok weekday /\
      str_index COLON (weekday ++ py " : " ++ total_str) = Ok 4 /\
      str_index SLASH (strftime_m_d sample_time) = Ok 4 /\
      let weekday_total := weekday ++ py " : " ++ total_str in
      let date_str := strftime_m_d sample_time in
      let max_len := Z.max (len weekday_total) (len date_str) in
      let start_pos := Z.of_nat 12 - 4 in
      let pad := str_mul SPACE
                   (start_pos - prev_end (mkHeader (str_mul SPACE 7) (str_mul SPACE 7) 0)) in
      s' = mkHeader (weekday_line (mkHeader (str_mul SPACE 7) (str_mul SPACE 7) 0)
                     ++ pad ++ ljust max_len weekday_total)
                    (date_line (mkHeader (str_mul SPACE 7) (str_mul SPACE 7) 0)
                     ++ pad ++ ljust max_len date_str)
                    (start_pos + max_len).
Proof.
  eexists. split; [by vm_compute|].
  apply (header_step_never_realigns 12 1500 sample_time
           (mkHeader (str_mul SPACE 7) (str_mul SPACE 7) 0)).
  by vm_compute.
Defined.

Lemma str_index_lookup (c : char) (s : str) (i : Z) :
  str_index c s = Ok i -> 0 <= i /\ s !! Z.to_nat i = Some c.
Proof.
  revert i. induction s as [|d s IH]; intros i; simpl; [done|].
  destruct (N.eqb_spec c d) as [->|_].
  - intros [= <-]. done.
  - destruct (str_index c s) as [j|]; [|done]. simpl. intros [= <-].
    destruct (IH j eq_refl) as [Hj Hlk]. split; [lia|].
    replace (Z.to_nat (j + 1)) with (S (Z.to_nat j)) by lia. done.
Qed.

Lemma ljust_lookup (width : Z) (s : str) (i : nat) (c : char) :
  s !! i = Some c -> ljust width s !! i = Some c.
Proof. intros Hi. unfold ljust. by apply lookup_app_l_Some. Qed.

Lemma header_line_lookup (line pad entry : str) (prev start : Z) (mid_col : nat) (c : char) :
  len line = 7 + prev -> prev <= start -> start = Z.of_nat mid_col - 4 ->
  pad = str_mul SPACE (start - prev) ->
  entry !! 4%nat = Some c ->
  (line ++ pad ++ entry) !! (7 + mid_col)%nat = Some c.
Proof.
  intros Hlen Hroom -> -> Hc.
  assert (7 + mid_col = length line + (length (str_mul SPACE (Z.of_nat mid_col - 4 - prev)) + 4))%nat
    as ->.
  { unfold len in Hlen. unfold str_mul. rewrite length_replicate. lia. }
  unfold str, char in *.
  rewrite lookup_app_r by lia. rewrite Nat.add_sub'.
  rewrite lookup_app_r by lia. by rewrite Nat.add_sub'.
Qed.

(** X12. An entry that has room is centred on its day: when the two lines
    end where the previous entry ended and that is at or before
    [mid_col - 4], the entry puts its colon and its slash at column
    [7 + mid_col] of the weekday line and of the date line, and the lines
    again end where the entry ends. *)
Theorem header_entry_at_mid_col (mid_col : nat) (total : Z) (day_start : datetime)
    (s s' : header_state) :
  header_step (mid_col, total, day_start) s = Ok s' ->
  len (weekday_line s) = 7 + prev_end s ->
  len (date_line s) = 7 + prev_end s ->
  prev_end s <= Z.of_nat mid_col - 4 ->
  weekday_line s' !! (7 + mid_col)%nat = Some COLON /\
  date_line s' !! (7 + mid_col)%nat = Some SLASH /\
  len (weekday_line s') = 7 + prev_end s' /\
  len (date_line s') = 7 + prev_end s'.
Proof.
  intros Hrun Hwl Hdl Hroom.
  destruct (header_step_form _ _ _ _ _ Hrun)
    as (weekday & total_str & _ & _ & Hcolon & Hslash & ->).
  apply str_index_lookup in Hcolon as [_ Hcolon].
  apply str_index_lookup in Hslash as [_ Hslash].
  cbn [weekday_line date_line prev_end].
  split; [|split].
  - eapply header_line_lookup; [done..|]. by apply ljust_lookup.
  - eapply header_line_lookup; [done..|]. by apply ljust_lookup.
  - rewrite !len_app, !len_ljust, !len_str_mul, ?len_app. lia.
Qed.

Lemma header_entry_at_mid_col_witness :
  exists s',
    header_step (12%nat, 1500, sample_time) (mkHeader (str_mul SPACE 7) (str_mul SPACE 7) 0)
    = Ok s' /\
    weekday_line s' !! (7 + 12)%nat = Some COLON /\
    date_line s' !! (7 + 12)%nat = Some SLASH /\
    len (weekday_line s') = 7 + prev_end s' /\
    len (date_line s') = 7 + prev_end s'.
Proof.
  eexists. split; [by vm_compute|].
  apply (header_entry_at_mid_col 12 1500 sample_time
           (mkHeader (str_mul SPACE 7) (str_mul SPACE 7) 0)); by vm_compute.
Defined.

Lemma header_loop_invariant (dts : list day_total) (s hdr : header_state) :
  for_each dts s header_step = Ok hdr ->
  len (weekday_line s) = len (date_line s) ->
  7 + prev_end s <= len (weekday_line s) ->
  len (weekday_line hdr) = len (date_line hdr) /\
  7 + prev_end hdr <= len (weekday_line hdr) /\
  weekday_line s `prefix_of` weekday_line hdr /\
  date_line s `prefix_of` date_line hdr.
Proof.
  revert s. induction dts as [|[[mid_col total] day_start] dts IH]; intros s;
    cbn [for_each].
  - intros [= <-] Heq Hend. split; [done|]. split; [done|]. split; reflexivity.
  - destruct (header_step (mid_col, total, day_start) s) as [s1|] eqn:Hstep;
      cbn [rbind]; [|done].
    intros Hrun Heq Hend.
    destruct (header_step_form _ _ _ _ _ Hstep)
      as (weekday & total_str & _ & _ & _ & _ & Hs1).
    cbv zeta in Hs1.
    destruct (IH s1 Hrun) as (H1 & H2 & H3 & H4).
    + rewrite Hs1. cbn [weekday_line date_line].
      rewrite !len_app, !len_ljust, !len_str_mul, ?len_app. lia.
    + rewrite Hs1. cbn [weekday_line prev_end].
      rewrite !len_app, !len_ljust, !len_str_mul, ?len_app. lia.
    + split; [done|]. split; [done|]. rewrite Hs1 in H3, H4.
      cbn [weekday_line date_line] in H3, H4. split.
      * etrans; [|exact H3]. by apply prefix_app_r.
      * etrans; [|exact H4]. by apply prefix_app_r.
Qed.

(** X13. The two header lines always have the same length; both start with
    the seven spaces under which the Y axis is printed, and they end at or
    after the recorded end of the last entry. *)
Theorem header_lines_same_length (dts : list day_total) (hdr : header_state) :
  header_lines dts = Ok hdr ->
  len (weekday_line hdr) = len (date_line hdr) /\
  str_mul SPACE 7 `prefix_of` weekday_line hdr /\
  str_mul SPACE 7 `prefix_of` date_line hdr /\
  7 + prev_end hdr <= len (weekday_line hdr).
Proof.
  intros Hrun.
  destruct (header_loop_invariant dts _ hdr Hrun) as (H1 & H2 & H3 & H4);
    [done|by vm_compute|done].
Qed.

Lemma header_lines_same_length_witness :
  exists hdr,
    header_lines [(12%nat, 1500, sample_time)] = Ok hdr /\
    len (weekday_line hdr) = len (date_line hdr) /\
    str_mul SPACE 7 `prefix_of` weekday_line hdr /\
    str_mul SPACE 7 `prefix_of` date_line hdr /\
    7 + prev_end hdr <= len (weekday_line hdr).
Proof.
  eexists. split; [by vm_compute|].
  apply (header_lines_same_length [(12%nat, 1500, sample_time)]). by vm_compute.
Defined.

(** *** Hours without data *)

Lemma scale_component_zero (min_value max_value chart_height z : Z) :
  max_value <> min_value ->
  scale_component 0 min_value max_value chart_height = Ok z -> z = 0.
Proof.
  intros Hne. unfold scale_component, int_truediv.
  destruct (Z.eqb_spec (max_value - min_value) 0) as [|_]; [lia|].
  change (0 - 0) with 0. rewrite b64_zero by apply Qnum_div_0. rewrite rbind_Ok.
  destruct (float_of_int (chart_height - 1)) as [h|]; [|done]. rewrite rbind_Ok.
  unfold float_mul. rewrite b64_zero by (by apply Qnum_mul_0_l). rewrite rbind_Ok.
  by intros [= <-].
Qed.

(** X14. An hour that is not in the mapping counts as zero tokens in every
    category and total, and it is drawn as an empty column: its scaled
    heights are all 0 whatever the scale range, so every row of its column
    is the blank cell. *)
Theorem missing_hour_blank_column (ts : time_series) (time : datetime)
    (chart_type : string) (min_value max_value chart_height : Z) (sb : Breakdown) :
  dict_lookup time ts = None ->
  scale_breakdown min_value max_value chart_height (breakdown_at ts time) = Ok sb ->
  breakdown_at ts time = mkBreakdown 0 0 0 0 /\
  total_of chart_type (breakdown_at ts time) = 0 /\
  sb = mkBreakdown 0 0 0 0 /\
  forall row, 0 <= row -> cell chart_type row sb = BLANK_CELL.
Proof.
  intros Hmiss. unfold breakdown_at. rewrite Hmiss. intros Hsb.
  split; [done|]. split; [unfold total_of; by case_eqb|].
  assert (sb = mkBreakdown 0 0 0 0) as ->.
  { unfold scale_breakdown in Hsb.
    destruct (Z.eqb_spec max_value min_value) as [|Hne]; [by injection Hsb|].
    cbn [input output cache_creation cache_read] in Hsb.
    destruct (scale_component 0 min_value max_value chart_height) as [z|] eqn:Hz;
      [|done].
    apply scale_component_zero in Hz as ->; [|done]. by injection Hsb. }
  split; [done|]. intros row Hrow. unfold cell.
  cbn [input output cache_creation cache_read]. rewrite !Z.add_0_r.
  destruct (Z.ltb_spec row 0); [lia|]. by case_eqb.
Qed.

Lemma missing_hour_blank_column_witness :
  breakdown_at sample_series (sample_time - US_PER_HOUR) = mkBreakdown 0 0 0 0 /\
  total_of "all" (breakdown_at sample_series (sample_time - US_PER_HOUR)) = 0 /\
  mkBreakdown 0 0 0 0 = mkBreakdown 0 0 0 0 /\
  forall row, 0 <= row -> cell "all" row (mkBreakdown 0 0 0 0) = BLANK_CELL.
Proof.
  apply (missing_hour_blank_column sample_series (sample_time - US_PER_HOUR) "all" 0 100 10).
  - reflexivity.
  - by vm_compute.
Defined.

(** *** Width of the axis labels *)

Lemma str_of_Z_small (n : Z) :
  0 <= n < 1000 ->
  len (str_of_Z n) = if n <? 10 then 1 else if n <? 100 then 2 else 3.
Proof.
  intros Hn.
  assert (forallb (fun n => len (str_of_Z n)
                            =? (if n <? 10 then 1 else if n <? 100 then 2 else 3))
            (seqZ 0 1000) = true) as Hall by (by vm_compute).
  rewrite forallb_forall in Hall. apply Z.eqb_eq, Hall.
  apply list_elem_of_In, elem_of_seqZ. lia.
Qed.

Lemma len_rjust (width : Z) (s : str) : len (rjust width s) = Z.max width (len s).
Proof. unfold rjust. rewrite len_app, len_str_mul. unfold len. lia. Qed.

Lemma len_zfill (width : Z) (s : str) : len (zfill width s) = Z.max width (len s).
Proof. unfold zfill, len. rewrite length_app. unfold str_mul. rewrite length_replicate. lia. Qed.

Section LabelWidth.
Local Open Scope Q_scope.

Lemma int_of_float_between (r : Q) (k m : Z) :
  0 <= r -> inject_Z k <= r -> r < inject_Z m ->
  (k <= int_of_float r < m)%Z.
Proof.
  intros H0 Hk Hm.
  assert (int_of_float r = Qfloor r) as ->.
  { destruct r as [n d]. unfold int_of_float, Qfloor. cbn [Qnum Qden].
    apply Z.quot_div_nonneg; [|lia].
    unfold Qle in H0. simpl in H0. lia. }
  pose proof (Qfloor_le r) as Hlo. pose proof (Qlt_floor r) as Hhi.
  split.
  - assert (inject_Z k < inject_Z (Qfloor r + 1)) as H by lra.
    rewrite <- Zlt_Qlt in H. lia.
  - assert (inject_Z (Qfloor r) < inject_Z m) as H by lra.
    by rewrite <- Zlt_Qlt in H.
Qed.

Lemma format_f_3_1_width (r : Q) :
  0 <= r -> r < 995 # 100 -> len (format_f 3 1 r) = 3%Z.
Proof.
  intros H0 Hr. unfold format_f. cbv zeta.
  change (10 ^ Z.of_nat 1)%Z with 10%Z.
  set (n := round_half_even (Qabs r * inject_Z 10)).
  assert (0 <= n <= 99)%Z as Hn.
  { pose proof (round_half_even_spec (Qabs r * inject_Z 10)) as [Hlo Hhi].
    fold n in Hlo, Hhi. rewrite Qabs_pos in Hlo, Hhi by done.
    change (inject_Z 10) with 10 in Hlo, Hhi.
    split.
    - assert (inject_Z (-1) < inject_Z n) as H by (change (inject_Z (-1)) with (-1); lra).
      rewrite <- Zlt_Qlt in H. lia.
    - assert (inject_Z n < inject_Z 100) as H by (change (inject_Z 100) with 100; lra).
      rewrite <- Zlt_Qlt in H. lia. }
  assert (Qle_bool 0 r = true) as -> by by apply Qle_bool_iff.
  rewrite len_rjust, !len_app, len_zfill.
  rewrite (str_of_Z_small (n / 10)), (str_of_Z_small (n mod 10));
    [|pose proof (Z.mod_pos_bound n 10); lia
     |split; [apply Z.div_pos; lia|apply Z.div_lt_upper_bound; lia]].
  assert (n / 10 < 10)%Z by (apply Z.div_lt_upper_bound; lia).
  assert (0 <= n mod 10 < 10)%Z by (apply Z.mod_pos_bound; lia).
  destruct (Z.ltb_spec (n / 10) 10); [|lia].
  destruct (Z.ltb_spec (n mod 10) 10); [|lia].
  reflexivity.
Qed.

(** The label of a quotient [r] with its unit. *)
Lemma unit_label_width (r : Q) (unit : str) :
  0 <= r -> r < 1000 -> (r < 10 -> r < 995 # 100) -> len unit = 2%Z ->
  len (if Qle_bool 100 r then format_d 3 (int_of_float r) ++ unit
       else if Qle_bool 10 r then py " " ++ format_d 2 (int_of_float r) ++ unit
       else format_f 3 1 r ++ unit) = 5%Z.
Proof.
  intros H0 Hhi Hgap Hunit.
  destruct (Qle_bool 100 r) eqn:H100.
  - apply Qle_bool_iff in H100.
    destruct (int_of_float_between r 100 1000) as [? ?]; [done..|].
    unfold format_d. rewrite len_app, len_rjust, str_of_Z_small, Hunit by lia.
    destruct (Z.ltb_spec (int_of_float r) 10); [lia|].
    destruct (Z.ltb_spec (int_of_float r) 100); [lia|]. reflexivity.
  - assert (r < 100) as Hlt.
    { apply Qnot_le_lt. intros Hc. apply Qle_bool_iff in Hc. congruence. }
    destruct (Qle_bool 10 r) eqn:H10.
    + apply Qle_bool_iff in H10.
      destruct (int_of_float_between r 10 100) as [? ?]; [done..|].
      unfold format_d. rewrite !len_app, len_rjust, str_of_Z_small, Hunit by lia.
      destruct (Z.ltb_spec (int_of_float r) 10); [lia|].
      destruct (Z.ltb_spec (int_of_float r) 100); [|lia]. reflexivity.
    + assert (r < 10) as Hlt10.
      { apply Qnot_le_lt. intros Hc. apply Qle_bool_iff in Hc. congruence. }
      rewrite len_app, format_f_3_1_width, Hunit by auto. reflexivity.
Qed.

End LabelWidth.

Section LabelRange.
Local Open Scope Q_scope.

Lemma num_ge_value (v : num) (n : Z) :
  num_ge v n = Qle_bool (inject_Z n) (num_value v).
Proof.
  destruct v as [a|x]; [|done]. unfold num_ge, num_value, Qle_bool. simpl.
  by rewrite !Z.mul_1_r.
Qed.

Lemma num_truediv_value (v : num) (d : Z) :
  d = 1000%Z \/ d = 1000000%Z ->
  num_truediv v d = b64 (num_value v / inject_Z d).
Proof.
  intros [-> | ->]; (destruct v as [a|x]; [done|]); unfold num_truediv.
  - by rewrite float_of_int_1000.
  - by rewrite float_of_int_1000000.
Qed.

(** The rounded quotient of a value in the range of its unit. *)
Lemma unit_quotient (x : Q) (d : Z) :
  (1 <= d)%Z ->
  (inject_Z d <= x /\ x <= (9949 # 1000) * inject_Z d) \/
  ((10001 # 1000) * inject_Z d <= x /\ x <= (999999 # 1000) * inject_Z d) ->
  exists r, b64 (x / inject_Z d) = Ok r /\
            0 <= r /\ r < 1000 /\ (r < 10 -> r < 995 # 100).
Proof.
  intros Hd Hx.
  assert (Hdq : 1 <= inject_Z d) by (apply inject_Z_le_1; lia).
  set (D := inject_Z d) in *.
  assert (Hq : (1 <= x / D /\ x / D <= 9949 # 1000) \/
               (10001 # 1000 <= x / D /\ x / D <= 999999 # 1000)).
  { destruct Hx as [[H1 H2]|[H1 H2]]; [left|right]; split;
      (apply Qle_shift_div_l; [lra|]) || (apply Qle_shift_div_r; [lra|]); lra. }
  set (q := x / D) in *.
  destruct (b64_normal q) as (r & -> & Hr1 & Hr2).
  { assert (2 ^ (-1022) <= 1) by done. lra. }
  { assert (1000 <= 2 ^ 1000) by done. lra. }
  assert (Hu : 2 ^ (-53) == 1 # 9007199254740992) by reflexivity.
  rewrite Hu in Hr1, Hr2.
  exists r. split; [done|]. split; [|split]; [nra|nra|].
  intros Hr10. destruct Hq as [[H1 H2]|[H1 H2]]; nra.
Qed.

End LabelRange.

(** X15. A Y-axis label is exactly five characters wide for every value,
    int or float, from 0 to 9,949, from 10,001 to 999,999, from 1,000,000
    to 9,949,000 and from 10,001,000 to 999,999,000; the formatter raises
    no exception there. *)
Theorem format_y_axis_value_five_wide (value : num) :
  (0 <= num_value value /\ num_value value <= 9949)%Q \/
  (10001 <= num_value value /\ num_value value <= 999999)%Q \/
  (1000000 <= num_value value /\ num_value value <= 9949000)%Q \/
  (10001000 <= num_value value /\ num_value value <= 999999000)%Q ->
  exists s, format_y_axis_value value = Ok s /\ len s = 5.
Proof.
  intros Hx. unfold format_y_axis_value.
  rewrite !num_ge_value.
  destruct (Qle_bool (inject_Z 1000000) (num_value value)) eqn:Hm.
  - apply Qle_bool_iff in Hm. change (inject_Z 1000000) with 1000000%Q in Hm.
    rewrite num_truediv_value by auto.
    destruct (unit_quotient (num_value value) 1000000) as (r & -> & H0 & H1 & H2);
      [lia| |].
    { change (inject_Z 1000000) with 1000000%Q. lra. }
    rewrite rbind_Ok.
    pose proof (unit_label_width r (py " M") H0 H1 H2 eq_refl) as Hlen.
    repeat case_match; by eexists.
  - assert (num_value value < 1000000)%Q as Hlt.
    { apply Qnot_le_lt. intros Hc. apply Qle_bool_iff in Hc.
      change 1000000%Q with (inject_Z 1000000) in Hc. congruence. }
    destruct (Qle_bool (inject_Z 1000) (num_value value)) eqn:Hk.
    + apply Qle_bool_iff in Hk. change (inject_Z 1000) with 1000%Q in Hk.
      rewrite num_truediv_value by auto.
      destruct (unit_quotient (num_value value) 1000) as (r & -> & H0 & H1 & H2);
        [lia| |].
      { change (inject_Z 1000) with 1000%Q. lra. }
      rewrite rbind_Ok.
      pose proof (unit_label_width r (py " K") H0 H1 H2 eq_refl) as Hlen.
      repeat case_match; by eexists.
    + assert (num_value value < 1000)%Q as Hlt'.
      { apply Qnot_le_lt. intros Hc. apply Qle_bool_iff in Hc.
        change 1000%Q with (inject_Z 1000) in Hc. congruence. }
      eexists. split; [done|]. unfold format_d.
      assert (0 <= int_of_num value < 1000) as Hn.
      { destruct value as [a|x]; simpl in *.
        - assert (inject_Z (-1) < inject_Z a)%Q as Ha
              by (change (inject_Z (-1)) with (-1)%Q; lra).
          assert (inject_Z a < inject_Z 1000)%Q as Hb
              by (change (inject_Z 1000) with 1000%Q; lra).
          rewrite <- Zlt_Qlt in Ha, Hb. lia.
        - apply int_of_float_between; [lra|change (inject_Z 0) with 0%Q; lra|].
          change (inject_Z 1000) with 1000%Q. lra. }
      rewrite len_rjust, str_of_Z_small by done. repeat case_match; lia.
Qed.

Lemma format_y_axis_value_five_wide_witness :
  exists s, format_y_axis_value (Float 2500%Q) = Ok s /\ len s = 5.
Proof.
  apply (format_y_axis_value_five_wide (Float 2500%Q)).
  left. split; by vm_compute.
Defined.

Section LabelOverflow.
Local Open Scope Q_scope.

Lemma format_f_3_1_ten (r : Q) :
  995 # 100 < r -> r < 10 -> format_f 3 1 r = py "10.0".
Proof.
  intros Hlo Hhi. unfold format_f. cbv zeta.
  change (10 ^ Z.of_nat 1)%Z with 10%Z.
  assert (round_half_even (Qabs r * inject_Z 10) = 100%Z) as ->.
  { pose proof (round_half_even_spec (Qabs r * inject_Z 10)) as [H1 H2].
    set (n := round_half_even _) in *. rewrite Qabs_pos in H1, H2 by lra.
    change (inject_Z 10) with 10 in H1, H2.
    assert (inject_Z 99 < inject_Z n) as Ha by (change (inject_Z 99) with 99; lra).
    assert (inject_Z n < inject_Z 101) as Hb by (change (inject_Z 101) with 101; lra).
    rewrite <- Zlt_Qlt in Ha, Hb. lia. }
  assert (Qle_bool 0 r = true) as -> by (apply Qle_bool_iff; lra).
  reflexivity.
Qed.

Lemma unit_quotient_ten (x : Q) (d : Z) :
  (1 <= d)%Z ->
  (9951 # 1000) * inject_Z d <= x -> x <= (9999 # 1000) * inject_Z d ->
  exists r, b64 (x / inject_Z d) = Ok r /\ 995 # 100 < r /\ r < 10.
Proof.
  intros Hd H1 H2.
  assert (Hdq : 1 <= inject_Z d) by (apply inject_Z_le_1; lia).
  set (D := inject_Z d) in *.
  assert (Hq : 9951 # 1000 <= x / D /\ x / D <= 9999 # 1000).
  { split; [apply Qle_shift_div_l|apply Qle_shift_div_r]; lra. }
  set (q := x / D) in *.
  destruct (b64_normal q) as (r & -> & Hr1 & Hr2).
  { assert (2 ^ (-1022) <= 1) by done. lra. }
  { assert (1000 <= 2 ^ 1000) by done. lra. }
  assert (Hu : 2 ^ (-53) == 1 # 9007199254740992) by reflexivity.
  rewrite Hu in Hr1, Hr2.
  exists r. split; [done|]. split; nra.
Qed.

End LabelOverflow.

(** X16. Just below a change of unit the label is six characters wide: every
    value, int or float, from 9,951 to 9,999 is labelled "10.0 K" and every
    value from 9,951,000 to 9,999,000 is labelled "10.0 M". *)
Theorem format_y_axis_value_six_wide (value : num) :
  ((9951 <= num_value value /\ num_value value <= 9999)%Q ->
   format_y_axis_value value = Ok (py "10.0 K")) /\
  ((9951000 <= num_value value /\ num_value value <= 9999000)%Q ->
   format_y_axis_value value = Ok (py "10.0 M")).
Proof.
  unfold format_y_axis_value. rewrite !num_ge_value. split; intros [Hlo Hhi].
  - assert (Qle_bool (inject_Z 1000000) (num_value value) = false) as ->.
    { apply not_true_is_false. intros Hc. apply Qle_bool_iff in Hc.
      change (inject_Z 1000000) with 1000000%Q in Hc. lra. }
    assert (Qle_bool (inject_Z 1000) (num_value value) = true) as ->.
    { apply Qle_bool_iff. change (inject_Z 1000) with 1000%Q. lra. }
    rewrite num_truediv_value by auto.
    destruct (unit_quotient_ten (num_value value) 1000) as (r & -> & H1 & H2);
      [lia|change (inject_Z 1000) with 1000%Q; lra..|].
    rewrite rbind_Ok.
    assert (Qle_bool 100 r = false) as ->.
    { apply not_true_is_false. intros Hc. apply Qle_bool_iff in Hc. lra. }
    assert (Qle_bool 10 r = false) as ->.
    { apply not_true_is_false. intros Hc. apply Qle_bool_iff in Hc. lra. }
    by rewrite format_f_3_1_ten.
  - assert (Qle_bool (inject_Z 1000000) (num_value value) = true) as ->.
    { apply Qle_bool_iff. change (inject_Z 1000000) with 1000000%Q. lra. }
    rewrite num_truediv_value by auto.
    destruct (unit_quotient_ten (num_value value) 1000000) as (r & -> & H1 & H2);
      [lia|change (inject_Z 1000000) with 1000000%Q; lra..|].
    rewrite rbind_Ok.
    assert (Qle_bool 100 r = false) as ->.
    { apply not_true_is_false. intros Hc. apply Qle_bool_iff in Hc. lra. }
    assert (Qle_bool 10 r = false) as ->.
    { apply not_true_is_false. intros Hc. apply Qle_bool_iff in Hc. lra. }
    by rewrite format_f_3_1_ten.
Qed.

Lemma format_y_axis_value_six_wide_witness :
  format_y_axis_value (Float 9975%Q) = Ok (py "10.0 K").
Proof.
  apply (proj1 (format_y_axis_value_six_wide (Float 9975%Q))). split; by vm_compute.
Defined.

(** *** Thousands separators *)

Lemma group_thousands_cases (l : str) :
  ((length l <= 3)%nat /\ group_thousands l = l) \/
  exists a b c rest,
    l = a :: b :: c :: rest /\ rest <> [] /\
    group_thousands l = a :: b :: c :: COMMA :: group_thousands rest.
Proof.
  destruct l as [|a [|b [|c [|d rest]]]]; try (left; split; [simpl; lia|done]).
  right. exists a, b, c, (d :: rest). done.
Qed.

Lemma group_thousands_spec (l : str) :
  Forall (fun c => c <> COMMA) l ->
  filter (fun c => c <> COMMA) (group_thousands l) = l /\
  length (group_thousands l) = (length l + (length l - 1) / 3)%nat /\
  forall i c, group_thousands l !! i = Some c -> (c = COMMA <-> i mod 4 = 3)%nat.
Proof.
  unfold str, char in *.
  remember (length l) as n eqn:Hn. revert l Hn.
  induction n as [n IH] using lt_wf_ind. intros l Hn Hall.
  destruct (group_thousands_cases l) as [[Hlen ->]|(a & b & c & rest & -> & Hne & ->)];
    unfold str, char in *.
  - split; [|split].
    + clear Hn Hlen IH. induction Hall as [|x l Hx Hall IH]; [done|].
      rewrite filter_cons_True by done. by rewrite IH.
    + subst n. rewrite (Nat.div_small (length l - 1) 3) by lia. lia.
    + intros i c Hi. pose proof (lookup_lt_Some _ _ _ Hi) as Hlt.
      assert (i mod 4 = i)%nat as -> by (apply Nat.mod_small; lia).
      apply list_elem_of_lookup_2 in Hi.
      rewrite Forall_forall in Hall. specialize (Hall c Hi). split; [done|lia].
  - apply Forall_cons in Hall as [Ha Hall]. apply Forall_cons in Hall as [Hb Hall].
    apply Forall_cons in Hall as [Hc Hall].
    simpl in Hn.
    destruct (IH (length rest) ltac:(lia) rest eq_refl Hall) as (IH1 & IH2 & IH3).
    split; [|split].
    + rewrite !filter_cons_True by done. rewrite filter_cons_False by (by intros []).
      by rewrite IH1.
    + cbn [length]. rewrite IH2. subst n.
      assert (length rest <> 0)%nat by (by destruct rest).
      replace (S (S (S (length rest))) - 1)%nat with (1 * 3 + (length rest - 1))%nat by lia.
      rewrite Nat.div_add_l by lia. lia.
    + intros i ch Hi.
      destruct i as [|[|[|[|i]]]]; simpl in Hi.
      * injection Hi as <-. split; [done|]. by rewrite Nat.mod_small by lia.
      * injection Hi as <-. split; [done|]. by rewrite Nat.mod_small by lia.
      * injection Hi as <-. split; [done|]. by rewrite Nat.mod_small by lia.
      * injection Hi as <-. done.
      * rewrite (IH3 i ch Hi).
        replace (S (S (S (S i)))) with (i + 1 * 4)%nat by lia.
        by rewrite Nat.Div0.mod_add.
Qed.

Lemma str_of_Z_sign (z : Z) :
  str_of_Z z = (if z <? 0 then py "-" else []) ++ str_of_Z (Z.abs z).
Proof. by destruct z. Qed.

Lemma string_of_uint_digits (d : Decimal.uint) :
  Forall (fun c => (48 <= c <= 57)%N) (py (NilEmpty.string_of_uint d)).
Proof.
  induction d; simpl; [by constructor|..]; (constructor; [simpl; lia|done]).
Qed.

Lemma str_of_Z_digits (z : Z) :
  0 <= z -> Forall (fun c => (48 <= c <= 57)%N) (str_of_Z z).
Proof.
  intros Hz. unfold str_of_Z.
  destruct z as [|p|p]; [by repeat constructor| |lia].
  cbn [Z.to_int NilZero.string_of_int].
  pose proof (string_of_uint_digits (Pos.to_uint p)) as Hd.
  destruct (Pos.to_uint p); [by repeat constructor|exact Hd..].
Qed.

Lemma format_number_spec (num : Z) :
  filter (fun c => c <> COMMA) (format_number num) = str_of_Z num /\
  length (format_number num)
  = (length (str_of_Z num) + (length (str_of_Z (Z.abs num)) - 1) / 3)%nat /\
  forall i c, reverse (format_number num) !! i = Some c -> c <> 45%N ->
              (c = COMMA <-> i mod 4 = 3)%nat.
Proof.
  unfold format_number, format_comma.
  pose proof (str_of_Z_digits (Z.abs num) ltac:(lia)) as Hd.
  set (digits := str_of_Z (Z.abs num)) in *.
  assert (Forall (fun c => c <> COMMA) (reverse digits)) as Hrev.
  { apply Forall_reverse. eapply Forall_impl; [exact Hd|].
    intros c Hc ->. unfold COMMA in Hc. lia. }
  destruct (group_thousands_spec (reverse digits) Hrev) as (H1 & H2 & H3).
  rewrite length_reverse in H2.
  rewrite (str_of_Z_sign num). fold digits. unfold str, char in *.
  split; [|split].
  - rewrite filter_app, filter_reverse, H1, reverse_involutive.
    by destruct (num <? 0).
  - rewrite !length_app, length_reverse, H2. lia.
  - intros i c Hi Hc. rewrite reverse_app, reverse_involutive in Hi.
    apply lookup_app_Some in Hi as [Hi|[_ Hi]]; [by apply H3|].
    destruct (num <? 0); [|by destruct (i - _)%nat].
    destruct (i - _)%nat as [|k]; [|by destruct k]. by injection Hi as <-.
Qed.

(** X17. [format_number] only inserts commas: deleting them gives back
    [str(num)]; it inserts one comma per complete group of three digits
    that has a digit to its left, and, counted from the right end, the
    commas are exactly the characters at positions 3, 7, 11, ... *)
Theorem format_number_round_trip (num : Z) :
  filter (fun c => c <> COMMA) (format_number num) = str_of_Z num /\
  length (format_number num)
  = (length (str_of_Z num) + (length (str_of_Z (Z.abs num)) - 1) / 3)%nat /\
  forall i c, reverse (format_number num) !! i = Some c -> c <> 45%N ->
              (c = COMMA <-> i mod 4 = 3)%nat.
Proof. apply format_number_spec. Qed.

(** *** The model breakdown table *)

Lemma breakdown_row_length (stats : ModelStats.t) :
  len (breakdown_row stats)
  = 15
    + Z.max 35 (len (ModelStats.model stats))
    + Z.max 10 (len (str_of_Z (ModelStats.count stats)))
    + Z.max 15 (len (format_number (ModelStats.input stats)))
    + Z.max 15 (len (format_number (ModelStats.output stats)))
    + Z.max 15 (len (format_number (ModelStats.total stats)))
    + Z.max 15 (len (format_number (ModelStats.cache_creation stats)))
    + Z.max 15 (len (format_number (ModelStats.cache_read stats)))
    + Z.max 19 (len (format_number (ModelStats.total_with_cache stats))).
Proof.
  unfold breakdown_row. rewrite !len_app, !len_rjust, len_ljust.
  change (len (py "| ")) with 2. change (len (py " ")) with 1.
  change (len (py " | ")) with 3. change (len (py " |")) with 2. lia.
Qed.

Lemma format_number_fits (n : Z) (digits : nat) :
  0 <= n ->
  (len (format_number n) <= Z.of_nat (digits + (digits - 1) / 3)
   <-> len (str_of_Z n) <= Z.of_nat digits).
Proof.
  intros Hn. destruct (format_number_spec n) as (_ & Hlen & _).
  rewrite Z.abs_eq in Hlen by done. unfold len. rewrite Hlen.
  set (d := length (str_of_Z n)).
  pose proof (Nat.Div0.div_le_mono (d - 1) (digits - 1) 3).
  pose proof (Nat.Div0.div_le_mono (digits - 1) (d - 1) 3).
  split; intros H1.
  - destruct (decide (d <= digits)%nat) as [|Hgt]; [lia|].
    assert ((digits - 1) / 3 <= (d - 1) / 3)%nat by (apply Nat.Div0.div_le_mono; lia). lia.
  - assert ((d - 1) / 3 <= (digits - 1) / 3)%nat by (apply Nat.Div0.div_le_mono; lia). lia.
Qed.

(** X18. A row of the model table is never narrower than the rules and the
    header of the table, which are 154 characters wide; with non-negative
    token counts it is exactly 154 characters wide when, and only when,
    every field fits its column: at most 35 characters of model name, 10
    of message count, 12 digits in each of the five token counts and 15
    digits in the cache total. *)
Theorem breakdown_row_width (stats : ModelStats.t) :
  0 <= ModelStats.input stats /\ 0 <= ModelStats.output stats /\
  0 <= ModelStats.total stats /\ 0 <= ModelStats.cache_creation stats /\
  0 <= ModelStats.cache_read stats /\ 0 <= ModelStats.total_with_cache stats ->
  len breakdown_header = 154 /\
  len (str_mul EQUALS 154) = 154 /\
  len (py "|" ++ str_mul HYPHEN 152 ++ py "|") = 154 /\
  154 <= len (breakdown_row stats) /\
  (len (breakdown_row stats) = 154 <->
   len (ModelStats.model stats) <= 35 /\
   len (str_of_Z (ModelStats.count stats)) <= 10 /\
   len (str_of_Z (ModelStats.input stats)) <= 12 /\
   len (str_of_Z (ModelStats.output stats)) <= 12 /\
   len (str_of_Z (ModelStats.total stats)) <= 12 /\
   len (str_of_Z (ModelStats.cache_creation stats)) <= 12 /\
   len (str_of_Z (ModelStats.cache_read stats)) <= 12 /\
   len (str_of_Z (ModelStats.total_with_cache stats)) <= 15).
Proof.
  intros (Hi & Ho & Ht & Hcc & Hcr & Htc).
  split; [done|]. split; [done|]. split; [done|].
  rewrite breakdown_row_length.
  pose proof (format_number_fits _ 12 Hi) as Fi.
  pose proof (format_number_fits _ 12 Ho) as Fo.
  pose proof (format_number_fits _ 12 Ht) as Ft.
  pose proof (format_number_fits _ 12 Hcc) as Fcc.
  pose proof (format_number_fits _ 12 Hcr) as Fcr.
  pose proof (format_number_fits _ 15 Htc) as Ftc.
  change (Z.of_nat (12 + (12 - 1) / 3)) with 15 in *.
  change (Z.of_nat (15 + (15 - 1) / 3)) with 19 in *.
  change (Z.of_nat 12) with 12 in *. change (Z.of_nat 15) with 15 in *.
  lia.
Qed.

Lemma breakdown_row_width_witness :
  len breakdown_header = 154 /\
  len (str_mul EQUALS 154) = 154 /\
  len (py "|" ++ str_mul HYPHEN 152 ++ py "|") = 154 /\
  154 <= len (breakdown_row
                (ModelStats.mk (py "claude-opus-4-5-20251101") 12 3400 560000 563400
                               1200000 88000000 89763400)) /\
  (len (breakdown_row
          (ModelStats.mk (py "claude-opus-4-5-20251101") 12 3400 560000 563400
                         1200000 88000000 89763400)) = 154 <->
   len (py "claude-opus-4-5-20251101") <= 35 /\
   len (str_of_Z 12) <= 10 /\
   len (str_of_Z 3400) <= 12 /\
   len (str_of_Z 560000) <= 12 /\
   len (str_of_Z 563400) <= 12 /\
   len (str_of_Z 1200000) <= 12 /\
   len (str_of_Z 88000000) <= 12 /\
   len (str_of_Z 89763400) <= 15).
Proof.
  apply (breakdown_row_width
           (ModelStats.mk (py "claude-opus-4-5-20251101") 12 3400 560000 563400
                          1200000 88000000 89763400)).
  simpl. lia.
Defined.

Lemma breakdown_projection_no_days (total_cost : num) (sum_total_with_cache : Z)
    (days_in_data : Z) :
  days_in_data <= 0 ->
  breakdown_projection total_cost sum_total_with_cache days_in_data
  = Ok (py ("Daily: $0.00, Weekly: $0.00, Monthly(30d): $0.00, "
            ++ "Monthly Saving $-200.00, $0.00 / MTok")).
Proof.
  intros Hd. unfold breakdown_projection.
  destruct (Z.ltb_spec 0 days_in_data) as [|_]; [lia|]. by vm_compute.
Qed.




(** *** Arithmetic of the cost projection *)

Section Bounded.
Local Open Scope Q_scope.

(** Away from overflow every value rounds to a double: the error is at
    most 2^-53 relative plus half the smallest subnormal, and the sign is
    kept. *)
Lemma b64_bounded (x B : Q) :
  Qabs x <= B -> B <= 2 ^ 1000 ->
  exists r, b64 x = Ok r /\
            Qabs r <= B * (1 + 2 ^ (-53)) + 2 ^ (-1075) /\
            (0 <= x -> 0 <= r) /\ (x <= 0 -> r <= 0).
Proof.
  intros HB Hbig.
  pose proof (Qabs_nonneg x) as Hx0.
  assert (Hu : 2 ^ (-53) == 1 # 9007199254740992) by reflexivity.
  assert (Heps : 0 < 2 ^ (-1075)) by reflexivity.
  destruct (Z.eq_dec (Qnum x) 0%Z) as [Hz|Hnz].
  { rewrite b64_zero by done. exists 0. split; [done|].
    change (Qabs 0) with 0. split; [rewrite Hu; nra|]. split; intros; apply Qle_refl. }
  assert (Hpos : 0 < Qabs x).
  { destruct x as [n d]. simpl in Hnz. unfold Qlt, Qabs. simpl. lia. }
  destruct (ilog2_spec (Qabs x) Hpos) as [Hl1 _].
  set (l := ilog2 (Qabs x)) in *.
  set (e := Z.max (l - 52) (-1074)).
  assert (HE : 0 < 2 ^ e) by apply Qpow2_pos.
  assert (HEle : 2 ^ e <= Qabs x * 2 ^ (-52) + 2 ^ (-1074)).
  { assert (0 < 2 ^ (-1074)) by reflexivity. assert (0 < 2 ^ (-52)) by reflexivity.
    destruct (Z.max_spec (l - 52) (-1074)) as [[_ He]|[_ He]]; subst e; rewrite He.
    - nra.
    - assert (2 ^ (l - 52) == 2 ^ l * 2 ^ (-52)) as ->.
      { rewrite <- Qpower_plus by done. by replace (l + -52)%Z with (l - 52)%Z by lia. }
      nra. }
  set (E := 2 ^ e) in *.
  pose proof (round_half_even_spec (x / E)) as [Hm1 Hm2].
  set (m := inject_Z (round_half_even (x / E))) in *.
  assert (Hy : x / E * E == x) by (field; lra).
  assert (Hr : b64_round x = Qred (m * E)).
  { unfold b64_round. destruct (Qnum x) eqn:Hq; [done|done|done]. }
  assert (Hlo : x - E * (1 # 2) <= m * E) by nra.
  assert (Hhi : m * E <= x + E * (1 # 2)) by nra.
  assert (H52 : 2 ^ (-52) == 2 * 2 ^ (-53)) by reflexivity.
  assert (H1074 : 2 ^ (-1074) == 2 * 2 ^ (-1075)) by reflexivity.
  assert (Habs : Qabs (m * E) <= B * (1 + 2 ^ (-53)) + 2 ^ (-1075)).
  { apply Qabs_Qle_condition. apply Qabs_Qle_condition in HB as [HB1 HB2].
    assert (Qabs x <= B) by (apply Qabs_Qle_condition; done).
    assert (0 < 2 ^ (-53)) by reflexivity. split; nra. }
  assert (Hsign1 : 0 <= x -> 0 <= m * E).
  { intros Hx. assert (0 <= x / E) by (apply Qle_shift_div_l; lra).
    assert (inject_Z (-1) < m) as Hm by (change (inject_Z (-1)) with (-1); lra).
    unfold m in Hm. rewrite <- Zlt_Qlt in Hm.
    assert (0 <= m) by (apply inject_Z_le_0; lia). nra. }
  assert (Hsign2 : x <= 0 -> m * E <= 0).
  { intros Hx. assert (x / E <= 0) by (apply Qle_shift_div_r; lra).
    assert (m < inject_Z 1) as Hm by (change (inject_Z 1) with 1; lra).
    unfold m in Hm. rewrite <- Zlt_Qlt in Hm.
    assert (m <= 0).
    { change 0 with (inject_Z 0). unfold m. rewrite <- Zle_Qle. lia. }
    nra. }
  assert (Hred : Qabs (Qred (m * E)) == Qabs (m * E)) by apply Qabs_wd, Qred_correct.
  exists (Qred (m * E)). split; [|split; [|split]].
  - unfold b64. rewrite Hr. unfold b64_overflow.
    destruct (Qle_bool (2 ^ 1024) (Qabs (Qred (m * E)))) eqn:Ht; [|done].
    apply Qle_bool_iff in Ht. rewrite Hred in Ht.
    assert (2 ^ 1000 * (1 + 2 ^ (-53)) + 2 ^ (-1075) < 2 ^ 1024) by reflexivity.
    assert (0 < 2 ^ (-53)) by reflexivity. nra.
  - by rewrite Hred.
  - intros Hx. rewrite Qred_correct. by apply Hsign1.
  - intros Hx. rewrite Qred_correct. by apply Hsign2.
Qed.

End Bounded.

Section Amounts.
Local Open Scope Q_scope.

Lemma b64_nonneg (x B : Q) :
  0 <= x -> x <= B -> 1 <= B -> B <= 2 ^ 999 ->
  exists r, b64 x = Ok r /\ 0 <= r /\ r <= 2 * B.
Proof.
  intros H0 HB H1 Hbig.
  destruct (b64_bounded x B) as (r & Hr & Habs & Hs & _).
  { rewrite Qabs_pos by done. done. }
  { assert (2 ^ 999 <= 2 ^ 1000) by done. lra. }
  exists r. split; [done|]. specialize (Hs H0). split; [done|].
  rewrite Qabs_pos in Habs by done.
  assert (2 ^ (-53) <= 1 # 2) by done. assert (2 ^ (-1075) <= 1 # 2) by done. nra.
Qed.

Lemma float_of_int_0 : float_of_int 0 = Ok 0.
Proof. reflexivity. Qed.

Lemma float_of_int_7 : float_of_int 7 = Ok (inject_Z 7).
Proof. reflexivity. Qed.

Lemma float_of_int_30 : float_of_int 30 = Ok (inject_Z 30).
Proof. reflexivity. Qed.

Lemma float_of_int_200 : float_of_int 200 = Ok (inject_Z 200).
Proof. reflexivity. Qed.

Lemma pricing_bounds (model : str) :
  let pricing := dict_get MODEL_PRICING model DEFAULT_PRICING in
  (0 <= Pricing.input pricing /\ Pricing.input pricing <= 13) /\
  (0 <= Pricing.output pricing /\ Pricing.output pricing <= 13) /\
  (0 <= Pricing.cache_input pricing /\ Pricing.cache_input pricing <= 13) /\
  (0 <= Pricing.cache_output pricing /\ Pricing.cache_output pricing <= 13).
Proof.
  unfold MODEL_PRICING. cbn [dict_get].
  repeat case_decide; vm_compute; repeat split; discriminate.
Qed.

Lemma cost_term_ok (tokens : Z) (price : Q) :
  (0 <= tokens < 2 ^ 63)%Z -> 0 <= price -> price <= 13 ->
  exists t, cost_term tokens price = Ok t /\ 0 <= t /\ t <= 2 ^ 51.
Proof.
  intros Ht Hp0 Hp. unfold cost_term, float_of_int.
  assert (Ht0 : 0 <= inject_Z tokens) by (apply inject_Z_le_0; lia).
  assert (Ht1 : inject_Z tokens <= 2 ^ 63) by (apply inject_Z_le_pow2; lia).
  destruct (b64_nonneg (inject_Z tokens) (2 ^ 63)) as (f & -> & Hf0 & Hf);
    [done|done|done|done|].
  rewrite rbind_Ok. unfold float_mul.
  assert (H64 : 2 * 2 ^ 63 == 2 ^ 64) by reflexivity.
  destruct (b64_nonneg (f * price) (2 ^ 68)) as (p & -> & Hp0' & Hp');
    [nra| |done|done|].
  { assert (13 * 2 ^ 64 <= 2 ^ 68) by done. nra. }
  rewrite rbind_Ok. fold (float_of_int 1000000). rewrite float_of_int_1000000, rbind_Ok.
  unfold float_div. change (Qeq_bool (inject_Z 1000000) 0) with false. cbv iota.
  assert (H69 : 2 * 2 ^ 68 == 2 ^ 69) by reflexivity.
  change (inject_Z 1000000) with 1000000.
  assert (Hq0 : 0 <= p / 1000000) by (apply Qle_shift_div_l; lra).
  assert (Hq : p / 1000000 <= 2 ^ 50).
  { apply Qle_shift_div_r; [lra|]. assert (2 ^ 69 <= 2 ^ 50 * 1000000) by done. lra. }
  destruct (b64_nonneg (p / 1000000) (2 ^ 50)) as (t & -> & Ht0' & Ht');
    [done|done|done|done|].
  exists t. split; [done|]. split; [done|].
  assert (2 * 2 ^ 50 == 2 ^ 51) by reflexivity. lra.
Qed.

Lemma num_add_term (v : num) (t : Q) (k : Z) :
  amount v (inject_Z k * 2 ^ 52) -> 0 <= t -> t <= 2 ^ 51 -> (0 <= k < 2 ^ 50)%Z ->
  exists v', num_add v (Float t) = Ok v' /\ amount v' (inject_Z (k + 1) * 2 ^ 52).
Proof.
  intros Hv Ht0 Ht Hk.
  assert (HK0 : 0 <= inject_Z k) by (apply inject_Z_le_0; lia).
  assert (HK1 : inject_Z k <= 2 ^ 50) by (apply inject_Z_le_pow2; lia).
  rewrite inject_Z_plus. change (inject_Z 1) with 1.
  set (K := inject_Z k) in *.
  assert (H50 : 2 ^ 50 == 1125899906842624) by reflexivity.
  assert (H51 : 2 ^ 51 == 2251799813685248) by reflexivity.
  assert (H52 : 2 ^ 52 == 4503599627370496) by reflexivity.
  assert (Hu : 2 ^ (-53) == 1 # 9007199254740992) by reflexivity.
  assert (Heps : 2 ^ (-1075) <= 1) by done.
  assert (Hbig : 2 ^ 50 * 2 ^ 52 + 2 ^ 51 <= 2 ^ 1000) by done.
  assert (exists a, 0 <= a /\ a <= K * 2 ^ 52 /\
                    num_add v (Float t) = rbind (b64 (a + t)) (fun r => Ok (Float r)))
    as (a & Ha0 & Ha & ->).
  { destruct Hv as [->|(a & -> & Ha0 & Ha)].
    - exists 0. split; [lra|]. split; [nra|]. done.
    - exists a. done. }
  destruct (b64_bounded (a + t) (K * 2 ^ 52 + 2 ^ 51)) as (r & -> & Habs & Hs & _).
  { rewrite Qabs_pos by lra. lra. }
  { nra. }
  rewrite rbind_Ok. eexists. split; [done|]. right. exists r. split; [done|].
  specialize (Hs ltac:(lra)). split; [done|].
  rewrite Qabs_pos in Habs by done. rewrite H51, H52, Hu in *. rewrite H50 in HK1. lra.
Qed.

Lemma num_add_amount (v w : num) (B : Q) :
  amount v B -> amount w B -> 1 <= B -> B <= 2 ^ 998 ->
  exists r, num_add v w = Ok r /\ amount r (4 * B).
Proof.
  intros Hv Hw H1 Hbig.
  assert (2 * 2 ^ 998 <= 2 ^ 999) by done.
  destruct Hv as [->|(a & -> & Ha0 & Ha)]; destruct Hw as [->|(b & -> & Hb0 & Hb)].
  - exists (Int 0). split; [done|]. by left.
  - unfold num_add. cbn [float_of_num]. rewrite float_of_int_0, !rbind_Ok.
    unfold float_add.
    destruct (b64_nonneg (0 + b) (2 * B)) as (r & -> & Hr0 & Hr); [lra..|].
    rewrite rbind_Ok. eexists. split; [done|]. right. exists r. split; [done|]. lra.
  - unfold num_add. cbn [float_of_num]. rewrite float_of_int_0, !rbind_Ok.
    unfold float_add.
    destruct (b64_nonneg (a + 0) (2 * B)) as (r & -> & Hr0 & Hr); [lra..|].
    rewrite rbind_Ok. eexists. split; [done|]. right. exists r. split; [done|]. lra.
  - unfold num_add. cbn [float_of_num]. rewrite !rbind_Ok. unfold float_add.
    destruct (b64_nonneg (a + b) (2 * B)) as (r & -> & Hr0 & Hr); [lra..|].
    rewrite rbind_Ok. eexists. split; [done|]. right. exists r. split; [done|]. lra.
Qed.

Lemma amount_mono (v : num) (B B' : Q) : B <= B' -> amount v B -> amount v B'.
Proof.
  intros HB [->|(a & -> & Ha0 & Ha)]; [by left|]. right. exists a. split; [done|]. lra.
Qed.

Lemma format_f_num_amount (width : Z) (prec : nat) (v : num) (B : Q) :
  amount v B -> exists s, format_f_num width prec v = Ok s.
Proof.
  intros [->|(a & -> & _)]; unfold format_f_num; cbn [float_of_num].
  - rewrite float_of_int_0. by eexists.
  - by eexists.
Qed.

End Amounts.

Section Breakdown.
Local Open Scope Q_scope.

Lemma cost_step_ok (stats : ModelStats.t) (c : breakdown_costs) (k : Z) :
  stats_range stats -> costs_within c (inject_Z k * 2 ^ 52) -> (0 <= k < 2 ^ 50)%Z ->
  exists c', cost_step stats c = Ok c' /\ costs_within c' (inject_Z (k + 1) * 2 ^ 52).
Proof.
  intros (Hi & Ho & Hcc & Hcr & _) (Ci & Co & Cco & Cci) Hk. unfold cost_step. cbv zeta.
  destruct (pricing_bounds (ModelStats.model stats)) as (Pi & Po & Pci & Pco).
  cbv zeta in Pi, Po, Pci, Pco.
  set (pricing := dict_get MODEL_PRICING (ModelStats.model stats) DEFAULT_PRICING) in *.
  destruct (cost_term_ok _ _ Hi (proj1 Pi) (proj2 Pi)) as (t1 & -> & H10 & H11).
  rewrite rbind_Ok.
  destruct (num_add_term _ t1 k Ci H10 H11 Hk) as (v1 & -> & A1). rewrite rbind_Ok.
  destruct (cost_term_ok _ _ Ho (proj1 Po) (proj2 Po)) as (t2 & -> & H20 & H21).
  rewrite rbind_Ok.
  destruct (num_add_term _ t2 k Co H20 H21 Hk) as (v2 & -> & A2). rewrite rbind_Ok.
  destruct (cost_term_ok _ _ Hcc (proj1 Pco) (proj2 Pco)) as (t3 & -> & H30 & H31).
  rewrite rbind_Ok.
  destruct (num_add_term _ t3 k Cco H30 H31 Hk) as (v3 & -> & A3). rewrite rbind_Ok.
  destruct (cost_term_ok _ _ Hcr (proj1 Pci) (proj2 Pci)) as (t4 & -> & H40 & H41).
  rewrite rbind_Ok.
  destruct (num_add_term _ t4 k Cci H40 H41 Hk) as (v4 & -> & A4). rewrite rbind_Ok.
  eexists. split; [done|]. done.
Qed.

Lemma cost_loop_ok (model_stats : list ModelStats.t) (c : breakdown_costs) (k : Z) :
  Forall stats_range model_stats ->
  costs_within c (inject_Z k * 2 ^ 52) ->
  (0 <= k)%Z -> (k + len model_stats < 2 ^ 50)%Z ->
  exists c', for_each model_stats c cost_step = Ok c' /\
             costs_within c' (inject_Z (k + len model_stats) * 2 ^ 52).
Proof.
  revert c k. induction model_stats as [|stats l IH]; intros c k Hall Hc Hk Hlen.
  - exists c. split; [done|]. unfold len. simpl. by rewrite Z.add_0_r.
  - apply Forall_cons in Hall as [Hs Hall]. unfold len in *. cbn [length] in *.
    destruct (cost_step_ok stats c k Hs Hc ltac:(lia)) as (c1 & Hc1 & Hin).
    cbn [for_each]. rewrite Hc1, rbind_Ok.
    destruct (IH c1 (k + 1)%Z Hall Hin ltac:(lia) ltac:(lia)) as (c' & -> & Hc').
    exists c'. split; [done|].
    by replace (k + Z.of_nat (S (length l)))%Z with (k + 1 + Z.of_nat (length l))%Z by lia.
Qed.

Lemma sums_range (model_stats : list ModelStats.t) (s : breakdown_sums) :
  Forall stats_range model_stats ->
  (0 <= sum_total_with_cache s)%Z ->
  (0 <= sum_total_with_cache (foldl accumulate_sums s model_stats)
   <= sum_total_with_cache s + len model_stats * 2 ^ 63)%Z.
Proof.
  revert s. induction model_stats as [|stats l IH]; intros s Hall Hs.
  - unfold len. simpl. lia.
  - apply Forall_cons in Hall as [(_ & _ & _ & _ & Ht) Hall]. cbn [foldl].
    specialize (IH (accumulate_sums s stats) Hall). cbn [accumulate_sums sum_total_with_cache] in IH.
    unfold len in *. cbn [length]. lia.
Qed.

Lemma float_div_pos_ok (x y B : Q) :
  0 <= x -> x <= B -> 1 # 2 <= y -> 1 <= B -> B <= 2 ^ 990 ->
  exists r, float_div x y = Ok r /\ 0 <= r /\ r <= 4 * B.
Proof.
  intros Hx0 Hx Hy H1 Hbig. unfold float_div.
  destruct (Qeq_bool y 0) eqn:He; [apply Qeq_bool_iff in He; lra|].
  assert (0 <= x / y) by (apply Qle_shift_div_l; lra).
  assert (x / y <= 2 * B) by (apply Qle_shift_div_r; [lra|nra]).
  assert (2 * 2 ^ 990 <= 2 ^ 999) by done.
  destruct (b64_nonneg (x / y) (2 * B)) as (r & -> & Hr0 & Hr); [lra..|].
  exists r. split; [done|]. lra.
Qed.

Lemma float_mul_const_ok (x B : Q) (n : Z) :
  0 <= x -> x <= B -> (1 <= n <= 32)%Z -> 1 <= B -> B <= 2 ^ 990 ->
  exists r, float_mul x (inject_Z n) = Ok r /\ 0 <= r /\ r <= 64 * B.
Proof.
  intros Hx0 Hx Hn H1 Hbig. unfold float_mul.
  assert (1 <= inject_Z n) by (apply inject_Z_le_1; lia).
  assert (inject_Z n <= inject_Z 32) by (rewrite <- Zle_Qle; lia).
  change (inject_Z 32) with 32 in *.
  assert (32 * 2 ^ 990 <= 2 ^ 999) by done.
  destruct (b64_nonneg (x * inject_Z n) (32 * B)) as (r & -> & Hr0 & Hr); [nra..|].
  exists r. split; [done|]. lra.
Qed.

(** The cost per million tokens: the guard [monthly_tokens > 0] keeps the
    divisor away from zero. *)
Lemma cost_per_mtok_ok (sum_total_with_cache days_in_data : Z) :
  (0 <= sum_total_with_cache < 2 ^ 200)%Z -> (0 < days_in_data < 2 ^ 200)%Z ->
  exists monthly_tokens cost_per_mtok s,
    rbind (num_div (Int sum_total_with_cache) (Int days_in_data))
          (fun q => num_mul q (Int 30)) = Ok monthly_tokens /\
    (if num_gt monthly_tokens 0
     then rbind (num_div monthly_tokens (Int 1000000))
                (fun d => num_div (Int SUBSCRIPTION_PRICE) d)
     else Ok (Int 0)) = Ok cost_per_mtok /\
    format_f_num 0 2 cost_per_mtok = Ok s.
Proof.
  intros Hs Hd.
  destruct (int_truediv_ok sum_total_with_cache days_in_data Hs Hd)
    as (q & Hq & Hzero & Hposq & _).
  unfold num_div at 1. rewrite Hq, !rbind_Ok.
  unfold num_mul. cbn [float_of_num]. rewrite float_of_int_30, !rbind_Ok.
  unfold float_mul.
  destruct (Z.eq_dec sum_total_with_cache 0%Z) as [Hz|Hnz].
  - rewrite (Hzero Hz). rewrite b64_zero by done. rewrite rbind_Ok.
    eexists _, _, _. split; [done|]. split; [done|]. done.
  - destruct (Hposq ltac:(lia)) as [Hq1 Hq2].
    assert (Hu : 2 ^ (-53) == 1 # 9007199254740992) by reflexivity.
    assert (Hlo : 0 < 2 ^ (-201)) by reflexivity.
    change (inject_Z 30) with 30.
    destruct (b64_normal (q * 30)) as (mt & -> & Hm1 & Hm2).
    { assert (2 ^ (-1022) <= 2 ^ (-201)) by done. lra. }
    { assert (2 ^ 201 * 30 <= 2 ^ 1000) by done. lra. }
    rewrite rbind_Ok. rewrite Hu in Hm1, Hm2.
    assert (Hmt : 2 ^ (-201) <= mt) by nra.
    assert (Hmt2 : mt <= 2 ^ 207).
    { assert (2 ^ 201 * 30 * (1 + (1 # 9007199254740992)) <= 2 ^ 207) by done. nra. }
    exists (Float mt). unfold num_gt.
    assert (Qle_bool mt (inject_Z 0) = false) as ->.
    { apply not_true_is_false. intros Hc. apply Qle_bool_iff in Hc.
      change (inject_Z 0) with 0 in Hc. lra. }
    cbn [negb]. unfold num_div. cbn [float_of_num].
    rewrite float_of_int_1000000, !rbind_Ok.
    unfold float_div at 1. change (Qeq_bool (inject_Z 1000000) 0) with false. cbv iota.
    change (inject_Z 1000000) with 1000000.
    destruct (b64_normal (mt / 1000000)) as (r2 & -> & Hr1 & Hr2).
    { assert (2 ^ (-1022) * 1000000 <= 2 ^ (-201)) by done.
      apply Qle_shift_div_l; lra. }
    { apply Qle_shift_div_r; [lra|]. assert (2 ^ 207 <= 2 ^ 1000 * 1000000) by done. lra. }
    rewrite !rbind_Ok. rewrite Hu in Hr1, Hr2.
    assert (Hr2pos : 2 ^ (-222) <= r2).
    { assert (2 ^ (-222) * 1000000 <= 2 ^ (-201) * (1 - (1 # 9007199254740992))) by done.
      assert (2 ^ (-201) <= mt / 1000000 * 1000000) by (field_simplify; lra).
      assert (0 < 2 ^ (-222)) by reflexivity. nra. }
    unfold SUBSCRIPTION_PRICE. rewrite float_of_int_200, rbind_Ok.
    cbn [float_of_num]. rewrite rbind_Ok.
    unfold float_div. assert (0 < 2 ^ (-222)) by reflexivity.
    destruct (Qeq_bool r2 0) eqn:He; [apply Qeq_bool_iff in He; lra|].
    change (inject_Z 200) with 200.
    assert (0 <= 200 / r2) by (apply Qle_shift_div_l; lra).
    assert (200 / r2 <= 2 ^ 230).
    { apply Qle_shift_div_r; [lra|]. assert (200 <= 2 ^ 230 * 2 ^ (-222)) by done.
      assert (0 < 2 ^ 230) by reflexivity. nra. }
    destruct (b64_nonneg (200 / r2) (2 ^ 230)) as (r3 & -> & _); [done..|].
    rewrite rbind_Ok. eexists _, _. split; [done|]. split; [done|]. done.
Qed.

Lemma breakdown_projection_ok (total_cost : num) (sum_total_with_cache days_in_data : Z)
    (B : Q) :
  amount total_cost B -> 1 <= B -> B <= 2 ^ 900 ->
  (0 <= sum_total_with_cache < 2 ^ 200)%Z -> (days_in_data < 2 ^ 31)%Z ->
  exists s, breakdown_projection total_cost sum_total_with_cache days_in_data = Ok s.
Proof.
  intros Ht H1 Hbig Hs Hd.
  destruct (Z.le_gt_cases days_in_data 0) as [Hle|Hgt].
  { rewrite breakdown_projection_no_days by done. by eexists. }
  unfold breakdown_projection.
  destruct (Z.ltb_spec 0 days_in_data) as [_|]; [|lia].
  assert (H990 : 2 ^ 900 <= 2 ^ 980) by done.
  (* daily cost *)
  assert (exists d, num_div total_cost (Int days_in_data) = Ok (Float d) /\
                    0 <= d /\ d <= 4 * B) as (d & -> & Hd0 & Hd1).
  { destruct Ht as [->|(a & -> & Ha0 & Ha)].
    - exists 0. unfold num_div, int_truediv.
      destruct (Z.eqb_spec days_in_data 0) as [|_]; [lia|].
      rewrite b64_zero by apply Qnum_div_0. split; [done|]. lra.
    - unfold num_div. cbn [float_of_num]. rewrite rbind_Ok.
      destruct (float_of_int_ok days_in_data) as (f & -> & _ & Hf); [lia|].
      destruct (Hf ltac:(lia)) as [Hf1 _]. rewrite rbind_Ok.
      destruct (float_div_pos_ok a f B) as (r & -> & Hr0 & Hr); [done..|lra|].
      exists r. done. }
  rewrite rbind_Ok.
  (* weekly and monthly cost, savings *)
  unfold num_mul at 1. cbn [float_of_num]. rewrite float_of_int_7, !rbind_Ok.
  assert (H4B : 4 * B <= 2 ^ 990).
  { assert (4 * 2 ^ 980 <= 2 ^ 990) by done. lra. }
  destruct (float_mul_const_ok d (4 * B) 7) as (w & -> & Hw0 & Hw); [done|done|lia|lra|done|].
  rewrite !rbind_Ok.
  unfold num_mul at 1. cbn [float_of_num]. rewrite float_of_int_30, !rbind_Ok.
  destruct (float_mul_const_ok d (4 * B) 30) as (mo & -> & Hmo0 & Hmo);
    [done|done|lia|lra|done|].
  rewrite !rbind_Ok.
  unfold num_sub, SUBSCRIPTION_PRICE. cbn [float_of_num].
  rewrite float_of_int_200, !rbind_Ok. unfold float_sub.
  change (inject_Z 200) with 200.
  destruct (b64_bounded (mo - 200) (256 * B + 200)) as (sv & -> & _).
  { apply Qabs_Qle_condition. split; lra. }
  { assert (256 * 2 ^ 980 + 200 <= 2 ^ 1000) by done. lra. }
  rewrite !rbind_Ok.
  (* tokens *)
  destruct (cost_per_mtok_ok sum_total_with_cache days_in_data Hs ltac:(lia))
    as (mt & cpm & s5 & -> & Hcpm & Hs5).
  rewrite rbind_Ok. unfold SUBSCRIPTION_PRICE in Hcpm. rewrite Hcpm, rbind_Ok.
  unfold format_f_num at 1 2 3 4. cbn [float_of_num]. rewrite !rbind_Ok.
  rewrite Hs5, rbind_Ok. by eexists.
Qed.

End Breakdown.

Section BreakdownCompletes.
Local Open Scope Q_scope.

Lemma breakdown_cost_row_ok (c1 c2 c3 c4 c5 c6 : num) (B : Q) :
  amount c1 B -> amount c2 B -> amount c3 B -> amount c4 B -> amount c5 B ->
  amount c6 B ->
  exists row, breakdown_cost_row c1 c2 c3 c4 c5 c6 = Ok row.
Proof.
  intros H1 H2 H3 H4 H5 H6. unfold breakdown_cost_row.
  destruct (format_f_num_amount 14 2 c1 B H1) as [s1 ->].
  destruct (format_f_num_amount 14 2 c2 B H2) as [s2 ->].
  destruct (format_f_num_amount 14 2 c3 B H3) as [s3 ->].
  destruct (format_f_num_amount 14 2 c4 B H4) as [s4 ->].
  destruct (format_f_num_amount 14 2 c5 B H5) as [s5 ->].
  destruct (format_f_num_amount 18 2 c6 B H6) as [s6 ->].
  rewrite !rbind_Ok. by eexists.
Qed.

Lemma print_model_breakdown_ok (model_stats : list ModelStats.t) (days_in_data : Z) :
  Forall stats_range model_stats ->
  (len model_stats < 2 ^ 50)%Z ->
  (days_in_data < 2 ^ 31)%Z ->
  completes (print_model_breakdown model_stats days_in_data).
Proof.
  intros Hall Hlen Hd. unfold print_model_breakdown.
  do 4 (apply completes_seq; [apply completes_print|]).
  apply completes_seq; [apply completes_for; intros; apply completes_print|].
  cbv zeta.
  do 2 (apply completes_seq; [apply completes_print|]).
  destruct (cost_loop_ok model_stats (mkCosts (Int 0) (Int 0) (Int 0) (Int 0)) 0)
    as (c & Hc & Ci & Co & Cco & Cci); [done|repeat split; by left|lia|lia|].
  apply (completes_lift _ c); [exact Hc|].
  assert (HB : inject_Z (0 + len model_stats) * 2 ^ 52 <= 2 ^ 102).
  { assert (inject_Z (0 + len model_stats) <= 2 ^ 50) by (apply inject_Z_le_pow2; lia).
    assert (0 <= inject_Z (0 + len model_stats)).
    { apply inject_Z_le_0. unfold len. lia. }
    assert (2 ^ 50 * 2 ^ 52 == 2 ^ 102) by reflexivity.
    assert (0 < 2 ^ 52) by reflexivity. nra. }
  apply (amount_mono _ _ _ HB) in Ci, Co, Cco, Cci.
  assert (H1 : 1 <= 2 ^ 102) by done.
  assert (H2 : 2 ^ 102 <= 2 ^ 998) by done.
  destruct (num_add_amount _ _ _ Ci Co H1 H2) as (io_total & Hio & Aio).
  apply (completes_lift _ io_total); [exact Hio|].
  destruct (num_add_amount _ _ _ Cco Cci H1 H2) as (cache_total & Hcache & Acache).
  apply (completes_lift _ cache_total); [exact Hcache|].
  assert (H1' : 1 <= 4 * 2 ^ 102) by done.
  assert (H2' : 4 * 2 ^ 102 <= 2 ^ 998) by done.
  destruct (num_add_amount _ _ _ Aio Acache H1' H2') as (total_cost & Htotal & Atotal).
  apply (completes_lift _ total_cost); [exact Htotal|].
  assert (Hm : 2 ^ 102 <= 4 * (4 * 2 ^ 102)) by done.
  assert (Hm' : 4 * 2 ^ 102 <= 4 * (4 * 2 ^ 102)) by done.
  destruct (breakdown_cost_row_ok (input_cost c) (output_cost c) io_total
              (cache_output_cost c) (cache_input_cost c) total_cost (4 * (4 * 2 ^ 102)))
    as (row & Hrow);
    [exact (amount_mono _ _ _ Hm Ci)|exact (amount_mono _ _ _ Hm Co)
    |exact (amount_mono _ _ _ Hm' Aio)|exact (amount_mono _ _ _ Hm Cco)
    |exact (amount_mono _ _ _ Hm Cci)|done|].
  apply (completes_lift _ row); [exact Hrow|].
  do 2 (apply completes_seq; [apply completes_print|]).
  pose proof (sums_range model_stats (mkSums 0 0 0 0 0 0 0) Hall ltac:(done)) as Hsum.
  change (sum_total_with_cache (mkSums 0 0 0 0 0 0 0)) with 0%Z in Hsum.
  destruct (breakdown_projection_ok total_cost
              (sum_total_with_cache (foldl accumulate_sums (mkSums 0 0 0 0 0 0 0) model_stats))
              days_in_data (4 * (4 * 2 ^ 102)) Atotal) as (line & Hline);
    [done|done| |done|].
  { split; [lia|]. apply Z.le_lt_trans with (2 ^ 50 * 2 ^ 63)%Z; [|done].
    unfold len in *. nia. }
  apply (completes_lift _ line); [exact Hline|]. apply completes_print.
Qed.

End BreakdownCompletes.

(** X20. For model statistics whose token counters are non-negative and
    below 2^63, fewer than 2^50 models and every [days_in_data] below
    2^31, zero and negative included, [print_model_breakdown] returns
    without raising an exception: no float overflows, and the guards on
    [days_in_data] and [monthly_tokens] keep every divisor away from
    zero. *)
Theorem print_model_breakdown_completes (model_stats : list ModelStats.t)
    (days_in_data : Z) :
  Forall stats_range model_stats ->
  len model_stats < 2 ^ 50 ->
  days_in_data < 2 ^ 31 ->
  completes (print_model_breakdown model_stats days_in_data).
Proof. apply print_model_breakdown_ok. Qed.

Lemma print_model_breakdown_completes_witness :
  completes
    (print_model_breakdown
       [ModelStats.mk (py "claude-opus-4-5-20251101") 12 3400 560000 563400
                      1200000 88000000 89763400;
        ModelStats.mk (py "unknown") 1 0 0 0 0 0 0] 7).
Proof.
  apply (print_model_breakdown_completes
           [ModelStats.mk (py "claude-opus-4-5-20251101") 12 3400 560000 563400
                          1200000 88000000 89763400;
            ModelStats.mk (py "unknown") 1 0 0 0 0 0 0] 7).
  - repeat (apply Forall_cons; split; [unfold stats_range; simpl; lia|]).
    apply Forall_nil. done.
  - by vm_compute.
  - lia.
Defined.
